(** * Verification of the CloudFront/ALB ingress controller

    Shallow embedding of [src/config/controller.py].

    Python values coming out of [yaml.safe_load_all] are modelled by the
    tree type [yaml]; the Kubernetes API server is modelled by a [world]
    holding the custom objects, the ingresses, the template file, a fault
    plan and the observable history (API calls and log lines).  Code with
    effects lives in a state-and-exception monad [M]. *)

From Stdlib Require Import ZArith Ascii String List.
From stdpp Require Import base option list strings gmap fin_maps pretty sorting.

Local Open Scope string_scope.
Local Open Scope list_scope.
Set Warnings "-register-all".

(** ** Python values *)

(** Values produced by the YAML loader.  Mappings keep their insertion
    order, as Python dictionaries do; their keys are strings.  Lookup and
    assignment both act on the first entry with a given key, so a list
    with repeated keys behaves like the dictionary holding the first of
    them.  Documents are trees: YAML anchors that would make two fields
    share one object are not modelled. *)
Inductive yaml : Type :=
  | YNull
  | YBool (b : bool)
  | YInt (z : Z)
  | YStr (s : string)
  | YSeq (items : list yaml)
  | YMap (fields : list (string * yaml)).

(** Python exceptions that the controller can meet. *)
Inductive exn : Type :=
  | ApiException (status : Z)
  | KeyError
  | TypeError
  | IndexError
  | AttributeError
  | ValueError
  | OSError
  | OtherError.

(** Outcome of evaluating a Python expression. *)
Inductive result (A : Type) : Type :=
  | Ok (a : A)
  | Raise (e : exn).
Arguments Ok {A} a.
Arguments Raise {A} e.

Definition rbind {A B} (r : result A) (k : A -> result B) : result B :=
  match r with
  | Ok a => k a
  | Raise e => Raise e
  end.

Global Instance result_ret : MRet result := @Ok.
Global Instance result_bind : MBind result := fun A B k r => rbind r k.

(** *** Dictionaries as ordered association lists *)

Fixpoint assoc_get {A} (k : string) (m : list (string * A)) : option A :=
  match m with
  | [] => None
  | (k', v) :: m' => if String.eqb k k' then Some v else assoc_get k m'
  end.

(** [d[k] = v]: replaces the value in place, or appends a new entry. *)
Fixpoint assoc_set {A} (k : string) (v : A) (m : list (string * A))
  : list (string * A) :=
  match m with
  | [] => [(k, v)]
  | (k', v') :: m' =>
      if String.eqb k k' then (k', v) :: m' else (k', v') :: assoc_set k v m'
  end.

(** [d.get(k, default)]; only dictionaries have the method. *)
Definition dict_get (d : yaml) (k : string) (default : yaml) : result yaml :=
  match d with
  | YMap m => Ok (match assoc_get k m with Some v => v | None => default end)
  | _ => Raise AttributeError
  end.

(** Subscripts: [v["k"]] and [v[i]]. *)
Inductive sel : Type :=
  | Key (k : string)
  | Idx (i : nat).

(** [v[s]] as an expression. *)
Definition getitem (v : yaml) (s : sel) : result yaml :=
  match v, s with
  | YMap m, Key k =>
      match assoc_get k m with Some x => Ok x | None => Raise KeyError end
  | YMap _, Idx _ => Raise KeyError
  | YSeq l, Idx i =>
      match l !! i with Some x => Ok x | None => Raise IndexError end
  | YSeq _, Key _ => Raise TypeError
  | YStr t, Idx i =>
      match String.get i t with
      | Some c => Ok (YStr (String c EmptyString))
      | None => Raise IndexError
      end
  | _, _ => Raise TypeError
  end.

(** [v[s] = x] as a statement; the updated container is returned.  The
    source only assigns string keys; dictionaries with integer keys are
    outside the model. *)
Definition setitem (v : yaml) (s : sel) (x : yaml) : result yaml :=
  match v, s with
  | YMap m, Key k => Ok (YMap (assoc_set k x m))
  | YSeq l, Idx i =>
      if decide (i < length l)%nat then Ok (YSeq (<[i:=x]> l))
      else Raise IndexError
  | _, _ => Raise TypeError
  end.

(** [v[s1]...[sn]] *)
Fixpoint get_path (p : list sel) (v : yaml) : result yaml :=
  match p with
  | [] => Ok v
  | s :: p' => rbind (getitem v s) (get_path p')
  end.

(** [v[s1]...[sn][s] = x]: the containers on the way are read with
    [getitem], the last one is assigned with [setitem]; in the tree model
    the change is carried back up to the root. *)
Fixpoint set_path (p : list sel) (s : sel) (x : yaml) (v : yaml)
  : result yaml :=
  match p with
  | [] => setitem v s x
  | s0 :: p' =>
      rbind (getitem v s0) (fun child =>
      rbind (set_path p' s x child) (fun child' =>
      setitem v s0 child'))
  end.

(** [str.lower()] on the ASCII range; bytes of multi-byte characters are
    left alone (no such character lowers to an ASCII letter of "true"). *)
Definition lower_ascii (c : ascii) : ascii :=
  let n := nat_of_ascii c in
  if ((65 <=? n) && (n <=? 90))%nat then ascii_of_nat (n + 32) else c.

Fixpoint lower (s : string) : string :=
  match s with
  | EmptyString => EmptyString
  | String c s' => String (lower_ascii c) (lower s')
  end.

(** ** Module constants *)

Definition CLOUD_FRONT_CRD_GROUP : string := "cloudfront.services.k8s.aws".
Definition CLOUD_FRONT_CRD_VERSION : string := "v1alpha1".

(** Mapping kind -> plural, in the order the dictionary is written. *)
Definition PLURAL_MAP : list (string * string) :=
  [ ("Distribution", "distributions");
    ("Function", "functions");
    ("CachePolicy", "cachepolicies");
    ("OriginRequestPolicy", "originrequestpolicies");
    ("KeyGroup", "keygroups") ].

Definition TEMPLATE_PATH : string := "/app/cloudfront-template.yaml".

Definition ENABLED_KEY : string := "cloudfront.aws.k8s.io/enabled".
Definition TARGET_KEY : string := "external-dns.alpha.kubernetes.io/target".

(** [kind in PLURAL_MAP]: raises on an unhashable operand, and only a
    string can equal one of the keys. *)
Definition in_plural_map (kind : yaml) : result bool :=
  match kind with
  | YSeq _ | YMap _ => Raise TypeError
  | YStr k => Ok (bool_decide (is_Some (assoc_get k PLURAL_MAP)))
  | _ => Ok false
  end.

(** [PLURAL_MAP.get(kind)] *)
Definition plural_map_get (kind : yaml) : result (option string) :=
  match kind with
  | YSeq _ | YMap _ => Raise TypeError
  | YStr k => Ok (assoc_get k PLURAL_MAP)
  | _ => Ok None
  end.

(** [kind == "Distribution"] and the like. *)
Definition str_eq (v : yaml) (s : string) : bool :=
  match v with
  | YStr t => String.eqb t s
  | _ => false
  end.

(** ** The Kubernetes API and the logger *)

(** Calls of the Kubernetes clients [api] and [networking_api].  Group and
    version are the module constants in every call and are left out.  The
    server is not code of the controller: its answers below follow the
    Kubernetes API (404 for a missing object, 409 for a name already
    taken, listings by name). *)
Inductive call : Type :=
  | GetObj (plural namespace name : string)
  | CreateObj (plural namespace : string) (body : yaml)
  | ListObj (plural namespace : string)
  | DeleteObj (plural namespace name : string)
  | ReadIngress (name namespace : string)
  | PatchIngress (name namespace : string) (target : option string).

(** Is the call addressed to the custom-object store? *)
Definition is_store_call (c : call) : bool :=
  match c with
  | GetObj _ _ _ | CreateObj _ _ _ | ListObj _ _ | DeleteObj _ _ _ => true
  | ReadIngress _ _ | PatchIngress _ _ _ => false
  end.

Inductive level : Type := INFO | ERROR.

(** One constructor per format string of the source, with its
    arguments. *)
Inductive message : Type :=
  | AlreadyExists (kind name : yaml)
  | ErrorChecking (kind : yaml) (e : exn)
  | Created (kind name : yaml)
  | FailedToCreate (kind name : yaml) (e : exn)
  | PatchedIngress (ingress_name cf_domain : string)
  | FailedToPatchIngress (e : exn)
  | Deleted (kind name : string)
  | ErrorDeleting (kind : string) (e : exn)
  | RemovedTarget (ingress_name : string)
  | FailedToRemoveAnnotation (e : exn)
  | ProcessingIngress (name namespace : string)
  | Annotations (enabled target : string)
  | RetrievedHostname (alb_dns : yaml)
  | FailedToRetrieveHostname (name : string) (e : exn).

(** What the API server knows of an ingress: its annotations and
    [status.load_balancer.ingress], a list (possibly missing) of entries
    whose [hostname] may be missing. *)
Record ingress : Type := {
  ing_annotations : gmap string string;
  ing_lb : option (list (option string))
}.

(** The part of kopf's [meta] the handler reads. *)
Record kopf_meta : Type := {
  meta_annotations : option (gmap string string)
}.

(** State of everything outside the process.  [faults] is the plan of
    failures for the tick: a call listed there raises the given exception
    instead of being served.  [calls] and [log] record, oldest first, the
    API calls issued and the lines logged. *)
Record world : Type := {
  objs : gmap (string * string * string) yaml;
  ingresses : gmap (string * string) ingress;
  template_file : option (list yaml);
  faults : call -> option exn;
  calls : list call;
  log : list (level * message)
}.

Definition set_objs (o : gmap (string * string * string) yaml) (w : world) :=
  {| objs := o; ingresses := ingresses w; template_file := template_file w;
     faults := faults w; calls := calls w; log := log w |}.
Definition set_ingresses (i : gmap (string * string) ingress) (w : world) :=
  {| objs := objs w; ingresses := i; template_file := template_file w;
     faults := faults w; calls := calls w; log := log w |}.
Definition add_call (c : call) (w : world) :=
  {| objs := objs w; ingresses := ingresses w;
     template_file := template_file w; faults := faults w;
     calls := calls w ++ [c]; log := log w |}.
Definition add_log (l : level * message) (w : world) :=
  {| objs := objs w; ingresses := ingresses w;
     template_file := template_file w; faults := faults w;
     calls := calls w; log := log w ++ [l] |}.

(** ** The monad of effectful code *)

Definition M (A : Type) : Type := world -> result A * world.

Global Instance M_ret : MRet M := fun A a w => (Ok a, w).
Global Instance M_bind : MBind M := fun A B k m w =>
  match m w with
  | (Ok a, w') => k a w'
  | (Raise e, w') => (Raise e, w')
  end.

(** A pure expression inside effectful code. *)
Definition lift {A} (r : result A) : M A := fun w => (r, w).

(** [try: body except <class> as e: handler e]; [catches e] tells whether
    the exception belongs to the class. *)
Definition try_except {A} (body : M A) (catches : exn -> bool)
    (handler : exn -> M A) : M A := fun w =>
  match body w with
  | (Ok a, w') => (Ok a, w')
  | (Raise e, w') => if catches e then handler e w' else (Raise e, w')
  end.

Definition is_api_exception (e : exn) : bool :=
  match e with ApiException _ => true | _ => false end.
Definition any_exception (e : exn) : bool := true.

Definition status_of (e : exn) : Z :=
  match e with ApiException s => s | _ => 0%Z end.

(** [for x in l: body x] *)
Fixpoint for_each {A} (l : list A) (body : A -> M unit) : M unit :=
  match l with
  | [] => mret tt
  | x :: l' => body x ;; for_each l' body
  end.

Definition logger_info (m : message) : M unit :=
  fun w => (Ok tt, add_log (INFO, m) w).
Definition logger_error (m : message) : M unit :=
  fun w => (Ok tt, add_log (ERROR, m) w).

(** A call to the API server: it is recorded, then fails if the fault plan
    says so, and is served otherwise. *)
Definition api_call {A} (c : call) (serve : world -> result A * world)
  : M A := fun w =>
  let w' := add_call c w in
  match faults w c with
  | Some e => (Raise e, w')
  | None => serve w'
  end.

(** The clients take [str] arguments; anything else is rejected by the
    client before a request is made. *)
Definition as_str (v : yaml) : M string :=
  lift (match v with YStr s => Ok s | _ => Raise ValueError end).

(** [api.get_namespaced_custom_object]: the object, or 404. *)
Definition get_namespaced_custom_object (namespace : yaml) (plural : string)
    (name : yaml) : M yaml :=
  ns ← as_str namespace;
  nm ← as_str name;
  api_call (GetObj plural ns nm) (fun w =>
    match objs w !! (plural, ns, nm) with
    | Some d => (Ok d, w)
    | None => (Raise (ApiException 404), w)
    end).

(** [api.create_namespaced_custom_object]: the body is stored under the
    name it carries; 422 without a name, 409 when the name is taken. *)
Definition create_namespaced_custom_object (namespace : yaml)
    (plural : string) (body : yaml) : M unit :=
  ns ← as_str namespace;
  api_call (CreateObj plural ns body) (fun w =>
    match get_path [Key "metadata"; Key "name"] body with
    | Ok (YStr nm) =>
        match objs w !! (plural, ns, nm) with
        | Some _ => (Raise (ApiException 409), w)
        | None => (Ok tt, set_objs (<[(plural, ns, nm) := body]> (objs w)) w)
        end
    | _ => (Raise (ApiException 422), w)
    end).

(** Order of the names in a listing. *)
Definition name_le (a b : string) : Prop := String.leb a b = true.
Global Instance name_le_dec a b : Decision (name_le a b).
Proof. unfold name_le. apply _. Defined.

(** Names of the objects of one collection in one namespace, in the
    order the server lists them: by name. *)
Definition names_in (plural namespace : string)
    (o : gmap (string * string * string) yaml) : list string :=
  merge_sort name_le
    ((fun kv : string * string * string * yaml => kv.1.2) <$>
     map_to_list
       (filter (fun kv : string * string * string * yaml =>
                  kv.1.1.1 = plural /\ kv.1.1.2 = namespace) o)).

(** [api.list_namespaced_custom_object(...).get('items', [])]: every item
    of the server's answer carries [metadata.name]; the answer is modelled
    by the list of these names. *)
Definition list_namespaced_custom_object (namespace plural : string)
  : M (list string) :=
  api_call (ListObj plural namespace) (fun w =>
    (Ok (names_in plural namespace (objs w)), w)).

(** [api.delete_namespaced_custom_object]: removes the object, or 404. *)
Definition delete_namespaced_custom_object (namespace plural name : string)
  : M unit :=
  api_call (DeleteObj plural namespace name) (fun w =>
    match objs w !! (plural, namespace, name) with
    | Some _ =>
        (Ok tt, set_objs (delete (plural, namespace, name) (objs w)) w)
    | None => (Raise (ApiException 404), w)
    end).

(** [networking_api.read_namespaced_ingress] *)
Definition read_namespaced_ingress (name namespace : string) : M ingress :=
  api_call (ReadIngress name namespace) (fun w =>
    match ingresses w !! (namespace, name) with
    | Some i => (Ok i, w)
    | None => (Raise (ApiException 404), w)
    end).

(** [networking_api.patch_namespaced_ingress] with a body that sets the
    DNS-target annotation ([Some v]) or removes it ([None]). *)
Definition patch_namespaced_ingress (name namespace : string)
    (target : option string) : M unit :=
  api_call (PatchIngress name namespace target) (fun w =>
    match ingresses w !! (namespace, name) with
    | Some i =>
        let a := match target with
                 | Some v => <[TARGET_KEY := v]> (ing_annotations i)
                 | None => delete TARGET_KEY (ing_annotations i)
                 end in
        (Ok tt,
         set_ingresses
           (<[(namespace, name) :=
                {| ing_annotations := a; ing_lb := ing_lb i |}]>
              (ingresses w)) w)
    | None => (Raise (ApiException 404), w)
    end).

(** ** The controller *)

Section Controller.

(** Python's rendering of a list or a dictionary inside an f-string.  It is
    a builtin, not code of the controller, and no property below depends on
    what it prints. *)
Variable repr_container : yaml -> string.

(** [f"{v}"] *)
Definition py_str (v : yaml) : string :=
  match v with
  | YStr s => s
  | YNull => "None"
  | YBool true => "True"
  | YBool false => "False"
  | YInt z => pretty z
  | YSeq _ | YMap _ => repr_container v
  end.

Definition DISTRIBUTION_CONFIG : list sel :=
  [Key "spec"; Key "distributionConfig"].
Definition FIRST_ORIGIN : list sel :=
  [Key "spec"; Key "distributionConfig"; Key "origins"; Key "items"; Idx 0].
Definition DEFAULT_CACHE_BEHAVIOR : list sel :=
  [Key "spec"; Key "distributionConfig"; Key "defaultCacheBehavior"].

(** [origin_id = f"{namespace}-{ingress_name}-origin"] *)
Definition origin_id_of (namespace ingress_name : string) : string :=
  namespace +:+ "-" +:+ ingress_name +:+ "-origin".

(** The four assignments made to a document of kind Distribution. *)
Definition patch_distribution (namespace ingress_name : string)
    (alb_dns : yaml) (doc : yaml) : result yaml :=
  let origin_id := origin_id_of namespace ingress_name in
  doc ← set_path DISTRIBUTION_CONFIG (Key "comment")
          (YStr ("CloudFront for ALB " +:+ namespace +:+ "-"
                 +:+ ingress_name)) doc;
  doc ← set_path FIRST_ORIGIN (Key "id") (YStr origin_id) doc;
  doc ← set_path FIRST_ORIGIN (Key "domainName") alb_dns doc;
  set_path DEFAULT_CACHE_BEHAVIOR (Key "targetOriginId") (YStr origin_id) doc.

(** Body of the loop of [load_and_patch_template]: [None] stands for
    [continue], [Some doc] for [patched_docs.append(doc)]. *)
Definition patch_doc (namespace ingress_name : string) (alb_dns : yaml)
    (doc : yaml) : result (option yaml) :=
  kind ← dict_get doc "kind" YNull;
  meta ← dict_get doc "metadata" (YMap []);
  known ← in_plural_map kind;
  if negb known then Ok None
  else
    meta ← setitem meta (Key "namespace") (YStr namespace);
    base_name ← dict_get meta "name" (YStr "cf-object");
    meta ← setitem meta (Key "name")
             (YStr (namespace +:+ "-" +:+ ingress_name +:+ "-"
                    +:+ py_str base_name));
    doc ← setitem doc (Key "metadata") meta;
    doc ← (if str_eq kind "Distribution"
           then patch_distribution namespace ingress_name alb_dns doc
           else Ok doc);
    Ok (Some doc).

(** The loop over the documents of the template. *)
Fixpoint patch_docs (namespace ingress_name : string) (alb_dns : yaml)
    (docs : list yaml) : result (list yaml) :=
  match docs with
  | [] => Ok []
  | doc :: rest =>
      r ← patch_doc namespace ingress_name alb_dns doc;
      out ← patch_docs namespace ingress_name alb_dns rest;
      Ok (match r with Some d => d :: out | None => out end)
  end.

(** Reading the template: a missing or unreadable file raises. *)
Definition read_template : M (list yaml) := fun w =>
  match template_file w with
  | Some docs => (Ok docs, w)
  | None => (Raise OSError, w)
  end.

Definition load_and_patch_template (namespace ingress_name : string)
    (alb_dns : yaml) : M (list yaml) :=
  docs ← read_template;
  lift (patch_docs namespace ingress_name alb_dns docs).

Definition create_or_update_crd (doc : yaml) : M unit :=
  kind ← lift (dict_get doc "kind" YNull);
  plural ← lift (plural_map_get kind);
  name ← lift (get_path [Key "metadata"; Key "name"] doc);
  namespace ← lift (get_path [Key "metadata"; Key "namespace"] doc);
  match plural with
  | None => mret tt
  | Some plural =>
      try_except
        (get_namespaced_custom_object namespace plural name ;;
         logger_info (AlreadyExists kind name))
        is_api_exception
        (fun e =>
           if negb (status_of e =? 404)%Z
           then logger_error (ErrorChecking kind e)
           else
             try_except
               (create_namespaced_custom_object namespace plural doc ;;
                logger_info (Created kind name))
               is_api_exception
               (fun e2 => logger_error (FailedToCreate kind name e2)))
  end.

(** The loop [for doc in docs: create_or_update_crd(doc, logger)].  The
    source keeps it, commented out, in [reconcile_ingress]; it is not part
    of the tick. *)
Definition create_or_update_crds (docs : list yaml) : M unit :=
  for_each docs create_or_update_crd.

Definition patch_ingress (namespace ingress_name cf_domain : string)
  : M unit :=
  try_except
    (patch_namespaced_ingress ingress_name namespace (Some cf_domain) ;;
     logger_info (PatchedIngress ingress_name cf_domain))
    any_exception
    (fun e => logger_error (FailedToPatchIngress e)).

(** Body of the loop over [PLURAL_MAP.items()] in
    [remove_crds_and_patch]. *)
Definition remove_kind (namespace ingress_name : string)
    (entry : string * string) : M unit :=
  let '(kind, plural) := entry in
  let name_prefix := namespace +:+ "-" +:+ ingress_name +:+ "-" in
  try_except
    (items ← list_namespaced_custom_object namespace plural;
     for_each items (fun item_name =>
       if String.prefix name_prefix item_name
       then
         delete_namespaced_custom_object namespace plural item_name ;;
         logger_info (Deleted kind item_name)
       else mret tt))
    any_exception
    (fun e => logger_error (ErrorDeleting kind e)).

Definition remove_crds_and_patch (namespace ingress_name : string)
  : M unit :=
  for_each PLURAL_MAP (remove_kind namespace ingress_name) ;;
  try_except
    (patch_namespaced_ingress ingress_name namespace None ;;
     logger_info (RemovedTarget ingress_name))
    any_exception
    (fun e => logger_error (FailedToRemoveAnnotation e)).

(** [annotations.get(ENABLED_KEY, "false").lower() == "true"] *)
Definition cf_enabled (annotations : gmap string string) : bool :=
  String.eqb (lower (default "false" (annotations !! ENABLED_KEY))) "true".

(** [ingress.status.load_balancer.ingress[0].hostname] *)
Definition first_hostname (i : ingress) : result yaml :=
  match ing_lb i with
  | None => Raise TypeError
  | Some [] => Raise IndexError
  | Some (Some h :: _) => Ok (YStr h)
  | Some (None :: _) => Ok YNull
  end.

Definition reconcile_ingress (meta : kopf_meta) (namespace name : string)
  : M unit :=
  let annotations := default ∅ (meta_annotations meta) in
  logger_info (ProcessingIngress name namespace) ;;
  logger_info (Annotations (default "not set" (annotations !! ENABLED_KEY))
                           (default "not set" (annotations !! TARGET_KEY))) ;;
  if cf_enabled annotations then
    try_except
      (ingress ← read_namespaced_ingress name namespace;
       alb_dns ← lift (first_hostname ingress);
       logger_info (RetrievedHostname alb_dns) ;;
       docs ← load_and_patch_template namespace name alb_dns;
       mret tt)
      any_exception
      (fun e => logger_error (FailedToRetrieveHostname name e))
  else remove_crds_and_patch namespace name.

End Controller.

(** ** Vocabulary of the statements *)

(** The template document is a dictionary and [kind not in PLURAL_MAP]
    evaluates to [not b]. *)
Definition kind_test (doc : yaml) : result bool :=
  kind ← dict_get doc "kind" YNull; in_plural_map kind.

(** Documents whose kind is in the Kind Registry. *)
Definition registered (doc : yaml) : bool :=
  match kind_test doc with Ok b => b | Raise _ => false end.

(** The name the template gives to a document, if it gives one. *)
Definition template_name (doc : yaml) : option yaml :=
  match get_path [Key "metadata"; Key "name"] doc with
  | Ok v => Some v
  | Raise _ => None
  end.

(** The name given by [load_and_patch_template] to a document:
    [f"{namespace}-{ingress_name}-{base_name}"], with the placeholder
    for a document without a name. *)
Definition materialized_name (repr_container : yaml -> string)
    (namespace ingress_name : string) (doc : yaml) : string :=
  namespace +:+ "-" +:+ ingress_name +:+ "-"
  +:+ py_str repr_container (default (YStr "cf-object") (template_name doc)).

(** Address of a resource in the store: the collection of its kind, its
    namespace and its name. *)
Definition resource_key (doc : yaml) : option (string * string * string) :=
  match dict_get doc "kind" YNull,
        get_path [Key "metadata"; Key "namespace"] doc,
        get_path [Key "metadata"; Key "name"] doc with
  | Ok (YStr kind), Ok (YStr ns), Ok (YStr nm) =>
      match assoc_get kind PLURAL_MAP with
      | Some plural => Some (plural, ns, nm)
      | None => None
      end
  | _, _, _ => None
  end.

(** No API call fails during the tick. *)
Definition no_faults (w : world) : Prop := forall c, faults w c = None.

(** The API calls that fail do so with an [ApiException]. *)
Definition api_faults_only (w : world) : Prop :=
  forall c e, faults w c = Some e -> is_api_exception e = true.

(** What a computation adds to the history when started in [w]. *)
Definition new_calls {A} (m : M A) (w : world) : list call :=
  drop (length (calls w)) (calls (m w).2).
Definition new_log {A} (m : M A) (w : world) : list (level * message) :=
  drop (length (log w)) (log (m w).2).

(** Resources that the teardown of an endpoint looks for: those of a
    registered collection, in the endpoint's namespace, whose name starts
    with "{namespace}-{ingress_name}-". *)
Definition teardown_target (namespace ingress_name : string)
    (k : string * string * string) : bool :=
  let '(plural, ns, nm) := k in
  bool_decide (plural ∈ PLURAL_MAP.*2) && String.eqb ns namespace
  && String.prefix (namespace +:+ "-" +:+ ingress_name +:+ "-") nm.

(** The world after a computation that issued the calls [cs], logged the
    lines [ls] and left the objects [o]. *)
Definition after (w : world) (o : gmap (string * string * string) yaml)
    (cs : list call) (ls : list (level * message)) : world :=
  {| objs := o; ingresses := ingresses w; template_file := template_file w;
     faults := faults w; calls := calls w ++ cs; log := log w ++ ls |}.

(** Summary of [create_or_update_crd] on a resource stored under
    [(plural, ns, nm)]: result, calls issued, lines logged and whether the
    resource was written, as decided by the fault plan [f] and by the
    presence of the resource. *)
Definition crd_summary (f : call -> option exn) (present : bool)
    (plural ns nm : string) (kind : string) (doc : yaml)
  : result unit * list call * list (level * message) * bool :=
  let get := GetObj plural ns nm in
  let create := CreateObj plural ns doc in
  let create_part :=
    match f create with
    | Some e =>
        if is_api_exception e
        then (Ok tt, [get; create],
              [(ERROR, FailedToCreate (YStr kind) (YStr nm) e)], false)
        else (Raise e, [get; create], [], false)
    | None =>
        if present
        then (Ok tt, [get; create],
              [(ERROR, FailedToCreate (YStr kind) (YStr nm)
                         (ApiException 409))], false)
        else (Ok tt, [get; create],
              [(INFO, Created (YStr kind) (YStr nm))], true)
    end in
  match f get with
  | Some e =>
      if is_api_exception e
      then if (status_of e =? 404)%Z then create_part
           else (Ok tt, [get], [(ERROR, ErrorChecking (YStr kind) e)], false)
      else (Raise e, [get], [], false)
  | None =>
      if present
      then (Ok tt, [get], [(INFO, AlreadyExists (YStr kind) (YStr nm))], false)
      else create_part
  end.

(** Removal of the listed names from one collection. *)
Definition delete_all (plural ns : string) (names : list string)
    (o : gmap (string * string * string) yaml)
  : gmap (string * string * string) yaml :=
  foldl (fun o nm => delete (plural, ns, nm) o) o names.

(** Summary of the inner loop of [remove_crds_and_patch] over the listed
    names: result, calls issued, lines logged and names deleted. *)
Fixpoint delete_summary (f : call -> option exn) (kind plural ns : string)
    (name_prefix : string) (items : list string)
  : result unit * list call * list (level * message) * list string :=
  match items with
  | [] => (Ok tt, [], [], [])
  | nm :: rest =>
      if String.prefix name_prefix nm then
        match f (DeleteObj plural ns nm) with
        | Some e => (Raise e, [DeleteObj plural ns nm], [], [])
        | None =>
            let '(r, cs, ls, ds) :=
              delete_summary f kind plural ns name_prefix rest in
            (r, DeleteObj plural ns nm :: cs,
             (INFO, Deleted kind nm) :: ls, nm :: ds)
        end
      else delete_summary f kind plural ns name_prefix rest
  end.

(** Summary of one round of the loop over the kinds. *)
Definition remove_kind_summary (f : call -> option exn)
    (kind plural ns : string) (name_prefix : string) (items : list string)
  : list call * list (level * message) * list string :=
  match f (ListObj plural ns) with
  | Some e => ([ListObj plural ns], [(ERROR, ErrorDeleting kind e)], [])
  | None =>
      let '(r, cs, ls, ds) :=
        delete_summary f kind plural ns name_prefix items in
      (ListObj plural ns :: cs,
       match r with
       | Ok _ => ls
       | Raise e => ls ++ [(ERROR, ErrorDeleting kind e)]
       end, ds)
  end.

(** Summary of the round of one entry of [PLURAL_MAP] when it is run in
    world [w]. *)
Definition kind_round (w : world) (namespace ingress_name : string)
    (entry : string * string)
  : list call * list (level * message) * list string :=
  remove_kind_summary (faults w) entry.1 entry.2 namespace
    (namespace +:+ "-" +:+ ingress_name +:+ "-")
    (names_in entry.2 namespace (objs w)).

(** Effect of the teardown patch on an ingress: the DNS-target annotation
    is removed. *)
Definition clear_target (i : ingress) : ingress :=
  {| ing_annotations := delete TARGET_KEY (ing_annotations i);
     ing_lb := ing_lb i |}.

(** The existence check of a resource, and the line logged when it is
    found. *)
Definition existence_check (doc : yaml) : list call :=
  match resource_key doc with
  | Some (plural, ns, nm) => [GetObj plural ns nm]
  | None => []
  end.

Definition already_exists_line (doc : yaml) : list (level * message) :=
  match resource_key doc, dict_get doc "kind" YNull with
  | Some (_, _, nm), Ok kind => [(INFO, AlreadyExists kind (YStr nm))]
  | _, _ => []
  end.

(** The subscript chain leads to a dictionary. *)
Definition dict_at (p : list sel) (doc : yaml) : Prop :=
  exists m, get_path p doc = Ok (YMap m).

(** A template document that the materializer can process: a dictionary
    whose kind can be looked up; when the kind is registered, its metadata
    is a dictionary (or is missing) and, for a Distribution, the
    dictionaries that get patched are in place. *)
Definition template_doc_ok (doc : yaml) : Prop :=
  match kind_test doc with
  | Ok false => True
  | Ok true =>
      dict_at [] (match dict_get doc "metadata" (YMap []) with
                  | Ok meta => meta
                  | Raise _ => YNull
                  end) /\
      (dict_get doc "kind" YNull = Ok (YStr "Distribution") ->
       dict_at DISTRIBUTION_CONFIG doc /\ dict_at FIRST_ORIGIN doc /\
       dict_at DEFAULT_CACHE_BEHAVIOR doc)
  | Raise _ => False
  end.

(** Effect of [patch_ingress] on an ingress: the DNS-target annotation is
    set. *)
Definition set_target (cf_domain : string) (i : ingress) : ingress :=
  {| ing_annotations := <[TARGET_KEY := cf_domain]> (ing_annotations i);
     ing_lb := ing_lb i |}.

(** The two lines every tick starts with. *)
Definition tick_heading (meta : kopf_meta) (namespace name : string)
  : list (level * message) :=
  [(INFO, ProcessingIngress name namespace);
   (INFO, Annotations
      (default "not set" (default ∅ (meta_annotations meta) !! ENABLED_KEY))
      (default "not set" (default ∅ (meta_annotations meta) !! TARGET_KEY)))].

(** Two subscript chains that part ways at some position. *)
Inductive diverge : list sel -> list sel -> Prop :=
  | diverge_here a b p q : a <> b -> diverge (a :: p) (b :: q)
  | diverge_next a p q : diverge p q -> diverge (a :: p) (a :: q).

(** ** Sample inputs *)

(** A rendering of containers, for the examples. *)
Definition sample_repr (v : yaml) : string := "<container>".

Definition sample_distribution : yaml :=
  YMap [("kind", YStr "Distribution");
        ("metadata", YMap [("name", YStr "distribution")]);
        ("spec", YMap [("distributionConfig", YMap [
           ("comment", YStr "");
           ("origins", YMap [("items", YSeq [
              YMap [("id", YStr "placeholder");
                    ("domainName", YStr "placeholder")]])]);
           ("defaultCacheBehavior",
            YMap [("targetOriginId", YStr "placeholder")])])])].

Definition sample_resource (kind name : string) : yaml :=
  YMap [("kind", YStr kind); ("metadata", YMap [("name", YStr name)])].

(** Five documents of registered kinds, one of them without a name, and
    one document of another kind. *)
Definition sample_template : list yaml :=
  [ sample_distribution;
    sample_resource "Function" "viewer-request";
    sample_resource "Unknown" "note";
    sample_resource "CachePolicy" "cache";
    YMap [("kind", YStr "OriginRequestPolicy")];
    sample_resource "KeyGroup" "keys" ].

Definition sample_docs : list yaml :=
  Eval vm_compute in
  match patch_docs sample_repr "ns" "app" (YStr "alb.example.com")
          sample_template with
  | Ok docs => docs
  | Raise _ => []
  end.

Definition enabled_meta : kopf_meta :=
  {| meta_annotations := Some {[ ENABLED_KEY := "True" ]} |}.
Definition disabled_meta : kopf_meta := {| meta_annotations := None |}.

(** An endpoint with its load balancer assigned, an empty store, no
    fault. *)
Definition sample_world : world :=
  {| objs := ∅;
     ingresses :=
       {[ ("ns", "app") :=
            {| ing_annotations := {[ ENABLED_KEY := "True" ]};
               ing_lb := Some [Some "alb.example.com"] |} ]};
     template_file := Some sample_template;
     faults := fun _ => None;
     calls := [];
     log := [] |}.

(** The same endpoint before its load balancer is assigned. *)
Definition pending_world : world :=
  {| objs := ∅;
     ingresses :=
       {[ ("ns", "app") :=
            {| ing_annotations := {[ ENABLED_KEY := "True" ]};
               ing_lb := Some [] |} ]};
     template_file := Some sample_template;
     faults := fun _ => None;
     calls := [];
     log := [] |}.

(** The store refuses to create functions. *)
Definition faulty_create_world : world :=
  {| objs := ∅;
     ingresses := ∅;
     template_file := Some sample_template;
     faults := fun c =>
       match c with
       | CreateObj plural _ _ =>
           if String.eqb plural "functions" then Some (ApiException 500)
           else None
       | _ => None
       end;
     calls := [];
     log := [] |}.

(** Two distributions of the endpoint and one of another endpoint are in
    the store. *)
Definition teardown_objs : gmap (string * string * string) yaml :=
  {[ ("distributions", "ns", "ns-app-a") :=
       sample_resource "Distribution" "ns-app-a";
     ("distributions", "ns", "ns-app-b") :=
       sample_resource "Distribution" "ns-app-b";
     ("distributions", "ns", "ns-other-a") :=
       sample_resource "Distribution" "ns-other-a" ]}.

Definition teardown_world : world :=
  {| objs := teardown_objs;
     ingresses :=
       {[ ("ns", "app") :=
            {| ing_annotations := {[ TARGET_KEY := "d1.cloudfront.net" ]};
               ing_lb := Some [Some "alb.example.com"] |} ]};
     template_file := Some sample_template;
     faults := fun _ => None;
     calls := [];
     log := [] |}.

(** The same, when deleting "ns-app-a" fails. *)
Definition faulty_teardown_world : world :=
  {| objs := teardown_objs;
     ingresses := ingresses teardown_world;
     template_file := Some sample_template;
     faults := fun c =>
       match c with
       | DeleteObj _ _ nm =>
           if String.eqb nm "ns-app-a" then Some (ApiException 500) else None
       | _ => None
       end;
     calls := [];
     log := [] |}.

(** The template file is missing. *)
Definition missing_template_world : world :=
  {| objs := ∅;
     ingresses := ingresses sample_world;
     template_file := None;
     faults := fun _ => None;
     calls := [];
     log := [] |}.

(** A Distribution without [spec], after a well-formed document. *)
Definition broken_distribution : yaml :=
  YMap [("kind", YStr "Distribution");
        ("metadata", YMap [("name", YStr "distribution")])].

Definition broken_template_world : world :=
  {| objs := ∅;
     ingresses := ingresses sample_world;
     template_file :=
       Some [sample_resource "Function" "viewer-request";
             broken_distribution;
             sample_resource "KeyGroup" "keys"];
     faults := fun _ => None;
     calls := [];
     log := [] |}.

(** The load balancer has an address but no hostname. *)
Definition ip_only_world : world :=
  {| objs := ∅;
     ingresses :=
       {[ ("ns", "app") :=
            {| ing_annotations := {[ ENABLED_KEY := "True" ]};
               ing_lb := Some [None] |} ]};
     template_file := Some sample_template;
     faults := fun _ => None;
     calls := [];
     log := [] |}.

(** The ingress cannot be patched. *)
Definition patch_fault_world : world :=
  {| objs := teardown_objs;
     ingresses := ingresses teardown_world;
     template_file := Some sample_template;
     faults := fun c =>
       match c with
       | PatchIngress _ _ _ => Some (ApiException 403)
       | _ => None
       end;
     calls := [];
     log := [] |}.

(** The store cannot be reached. *)
Definition unreachable_store_world : world :=
  {| objs := ∅;
     ingresses := ∅;
     template_file := Some sample_template;
     faults := fun c =>
       match c with
       | GetObj _ _ _ => Some OtherError
       | _ => None
       end;
     calls := [];
     log := [] |}.

(** A resource of endpoint "app-v2" is in the store. *)
Definition neighbour_world : world :=
  {| objs :=
       {[ ("functions", "ns",
           materialized_name sample_repr "ns" "app-v2"
             (sample_resource "Function" "viewer-request")) :=
            sample_resource "Function" "ns-app-v2-viewer-request" ]};
     ingresses := ingresses teardown_world;
     template_file := Some sample_template;
     faults := fun _ => None;
     calls := [];
     log := [] |}.

(** * Properties *)

(** ** Dictionaries and subscripts *)

Lemma assoc_get_set_eq {A} (k : string) (v : A) m :
  assoc_get k (assoc_set k v m) = Some v.
Proof.
  induction m as [|[k' v'] m IH]; simpl.
  - by rewrite String.eqb_refl.
  - destruct (String.eqb k k') eqn:E; simpl; rewrite E; [done | exact IH].
Qed.

Lemma assoc_get_set_ne {A} (k k' : string) (v : A) m :
  k <> k' -> assoc_get k' (assoc_set k v m) = assoc_get k' m.
Proof.
  intros Hne. induction m as [|[k0 v0] m IH]; simpl.
  - destruct (String.eqb k' k) eqn:E; [|done].
    apply String.eqb_eq in E. congruence.
  - destruct (String.eqb k k0) eqn:E; simpl.
    + apply String.eqb_eq in E. subst k0.
      destruct (String.eqb k' k) eqn:E'; [|done].
      apply String.eqb_eq in E'. congruence.
    + by rewrite IH.
Qed.

Lemma getitem_setitem_eq v s x v' :
  setitem v s x = Ok v' -> getitem v' s = Ok x.
Proof.
  destruct v, s; simpl; try discriminate.
  - case_decide; [|discriminate]. intros [= <-]. simpl.
    by rewrite list_lookup_insert_eq.
  - intros [= <-]. simpl. by rewrite assoc_get_set_eq.
Qed.

Lemma getitem_setitem_ne v s s' x v' :
  s <> s' -> setitem v s x = Ok v' -> getitem v' s' = getitem v s'.
Proof.
  intros Hne. destruct v, s; simpl; try discriminate.
  - case_decide; [|discriminate]. intros [= <-].
    destruct s' as [k|j]; simpl; [done|].
    rewrite list_lookup_insert_ne; [done | congruence].
  - intros [= <-]. destruct s' as [k'|j]; simpl; [|done].
    rewrite assoc_get_set_ne; [done | congruence].
Qed.

(** Reading back what was assigned. *)
Lemma get_set_path_eq p s x v v' :
  set_path p s x v = Ok v' -> get_path (p ++ [s]) v' = Ok x.
Proof.
  revert v v'. induction p as [|s0 p IH]; intros v v'; simpl.
  - intros H. by rewrite (getitem_setitem_eq _ _ _ _ H).
  - destruct (getitem v s0) as [child|] eqn:Hc; simpl; [|discriminate].
    destruct (set_path p s x child) as [child'|] eqn:Hs; simpl;
      [|discriminate].
    intros H. rewrite (getitem_setitem_eq _ _ _ _ H). simpl. eauto.
Qed.

(** An assignment leaves untouched what lies on a chain that parts ways
    with the assigned one. *)
Lemma get_set_path_frame p s x v v' q :
  set_path p s x v = Ok v' -> diverge (p ++ [s]) q ->
  get_path q v' = get_path q v.
Proof.
  revert v v' q. induction p as [|s0 p IH]; intros v v' q; simpl.
  - intros H D. inversion D as [a b p' q' Hne|a p' q' D']; subst; simpl.
    + by rewrite (getitem_setitem_ne _ _ _ _ _ Hne H).
    + inversion D'.
  - destruct (getitem v s0) as [child|] eqn:Hc; simpl; [|discriminate].
    destruct (set_path p s x child) as [child'|] eqn:Hs; simpl;
      [|discriminate].
    intros H D. inversion D as [a b p' q' Hne|a p' q' D']; subst; simpl.
    + by rewrite (getitem_setitem_ne _ _ _ _ _ Hne H).
    + rewrite (getitem_setitem_eq _ _ _ _ H), Hc. simpl. eauto.
Qed.

Ltac diverging :=
  repeat (apply diverge_next); apply diverge_here; discriminate.

(** [d.get(k, default)] through a chain of one subscript. *)
Lemma dict_get_path m k def :
  dict_get (YMap m) k def =
  Ok (match get_path [Key k] (YMap m) with Ok v => v | Raise _ => def end).
Proof. simpl. by destruct (assoc_get k m). Qed.

Lemma setitem_is_map v s x v' :
  setitem v (Key s) x = Ok v' -> exists m m', v = YMap m /\ v' = YMap m'.
Proof. destruct v; simpl; try discriminate. intros [= <-]. eauto. Qed.

Lemma set_path_is_map s0 p s x v v' :
  set_path (Key s0 :: p) s x v = Ok v' ->
  exists m m', v = YMap m /\ v' = YMap m'.
Proof.
  simpl. destruct (getitem v (Key s0)); simpl; [|discriminate].
  destruct (set_path p s x a); simpl; [|discriminate].
  apply setitem_is_map.
Qed.

(** ** Inversion of sequenced expressions *)

Lemma bind_ok {A B} (r : result A) (k : A -> result B) b :
  r ≫= k = Ok b -> exists a, r = Ok a /\ k a = Ok b.
Proof. destruct r; simpl; [eauto | discriminate]. Qed.

Ltac bind_inv H :=
  let a := fresh "a" in
  let Ha := fresh "Ha" in
  apply bind_ok in H; destruct H as (a & Ha & H).

(** ** The template materializer *)

Section Materializer.

Variable repr_container : yaml -> string.
Variables namespace ingress_name : string.
Variable alb_dns : yaml.

Local Abbreviation pdoc := (patch_doc repr_container namespace ingress_name alb_dns).
Local Abbreviation pdocs := (patch_docs repr_container namespace ingress_name alb_dns).
Local Abbreviation new_name := (materialized_name repr_container namespace ingress_name).

Lemma patch_doc_none doc :
  pdoc doc = Ok None <-> kind_test doc = Ok false.
Proof.
  unfold patch_doc, kind_test.
  destruct (dict_get doc "kind" YNull) as [kind|] eqn:Hk; simpl; [|done].
  destruct doc; try discriminate. simpl.
  destruct (in_plural_map kind) as [[]|]; simpl; [|done|done].
  split; [|discriminate]. intros H.
  repeat (bind_inv H). discriminate.
Qed.

(** What a successful, non-skipping pass over one document did. *)
Lemma patch_doc_some doc out :
  pdoc doc = Ok (Some out) ->
  exists fields meta named,
    doc = YMap fields /\
    kind_test doc = Ok true /\
    assoc_get "name" meta = Some (YStr (new_name doc)) /\
    assoc_get "namespace" meta = Some (YStr namespace) /\
    named = YMap (assoc_set "metadata" (YMap meta) fields) /\
    (if str_eq (default YNull (assoc_get "kind" fields)) "Distribution"
     then patch_distribution namespace ingress_name alb_dns named = Ok out
     else out = named).
Proof.
  unfold patch_doc, kind_test. intros H.
  destruct doc as [| | | | |fields]; try discriminate. simpl in H |- *.
  set (kind := match assoc_get "kind" fields with Some v => v | None => YNull end) in *.
  destruct (in_plural_map kind) as [[]|]; simpl in H; try discriminate.
  bind_inv H. rename a into meta1. bind_inv H. rename a into base.
  bind_inv H. rename a into meta2. bind_inv H.
  injection H as <-.
  assert (exists mm0, match assoc_get "metadata" fields with
                      | Some v => v | None => YMap [] end = YMap mm0
                      /\ default (YStr "cf-object")
                           (template_name (YMap fields)) =
                         default (YStr "cf-object") (assoc_get "name" mm0))
    as (mm0 & Hm & Hn).
  { unfold template_name. simpl.
    destruct (assoc_get "metadata" fields) as [v|]; simpl.
    - destruct v; try discriminate. eexists; split; [done|]. simpl.
      by destruct (assoc_get "name" fields0).
    - by eexists. }
  rewrite Hm in Ha. simpl in Ha. injection Ha as <-.
  simpl in Ha0. rewrite assoc_get_set_ne in Ha0 by discriminate.
  simpl in Ha1. injection Ha1 as <-.
  exists fields,
    (assoc_set "name"
       (YStr (namespace +:+ "-" +:+ ingress_name +:+ "-"
              +:+ py_str repr_container base))
       (assoc_set "namespace" (YStr namespace) mm0)).
  eexists. split; [done|]. split; [done|].
  split; [|split; [|split; [reflexivity|]]].
  - rewrite assoc_get_set_eq. unfold materialized_name. rewrite Hn.
    destruct (assoc_get "name" mm0); simpl in *; injection Ha0 as <-;
      by subst.
  - rewrite assoc_get_set_ne by discriminate. by rewrite assoc_get_set_eq.
  - change (default YNull (assoc_get "kind" fields)) with kind.
    destruct (str_eq kind "Distribution"); congruence.
Qed.

Lemma patch_distribution_frame named out s q :
  patch_distribution namespace ingress_name alb_dns named = Ok out ->
  s <> Key "spec" ->
  get_path (s :: q) out = get_path (s :: q) named.
Proof.
  unfold patch_distribution. intros H Hs.
  do 3 bind_inv H.
  rewrite (get_set_path_frame _ _ _ _ _ (s :: q) H)
    by (apply diverge_here; congruence).
  rewrite (get_set_path_frame _ _ _ _ _ (s :: q) Ha1)
    by (apply diverge_here; congruence).
  rewrite (get_set_path_frame _ _ _ _ _ (s :: q) Ha0)
    by (apply diverge_here; congruence).
  by rewrite (get_set_path_frame _ _ _ _ _ (s :: q) Ha)
    by (apply diverge_here; congruence).
Qed.

Lemma patch_distribution_is_map named out :
  patch_distribution namespace ingress_name alb_dns named = Ok out ->
  exists m, out = YMap m.
Proof.
  unfold patch_distribution. intros H. do 3 bind_inv H.
  apply set_path_is_map in H as (? & ? & _ & ->). eauto.
Qed.

(** The cross references written into a Distribution. *)
Lemma patch_distribution_origin named out :
  patch_distribution namespace ingress_name alb_dns named = Ok out ->
  get_path (FIRST_ORIGIN ++ [Key "id"]) out
    = Ok (YStr (origin_id_of namespace ingress_name)) /\
  get_path (DEFAULT_CACHE_BEHAVIOR ++ [Key "targetOriginId"]) out
    = Ok (YStr (origin_id_of namespace ingress_name)) /\
  get_path (FIRST_ORIGIN ++ [Key "domainName"]) out = Ok alb_dns.
Proof.
  unfold patch_distribution. intros H. do 3 bind_inv H.
  split; [|split].
  - rewrite (get_set_path_frame _ _ _ _ _ _ H) by diverging.
    rewrite (get_set_path_frame _ _ _ _ _ _ Ha1) by diverging.
    exact (get_set_path_eq _ _ _ _ _ Ha0).
  - exact (get_set_path_eq _ _ _ _ _ H).
  - rewrite (get_set_path_frame _ _ _ _ _ _ H) by diverging.
    exact (get_set_path_eq _ _ _ _ _ Ha1).
Qed.

(** Shape of a materialized document. *)
Lemma patch_doc_shape doc out :
  pdoc doc = Ok (Some out) ->
  kind_test doc = Ok true /\
  dict_get out "kind" YNull = dict_get doc "kind" YNull /\
  get_path [Key "metadata"; Key "name"] out = Ok (YStr (new_name doc)) /\
  get_path [Key "metadata"; Key "namespace"] out = Ok (YStr namespace).
Proof.
  intros H.
  destruct (patch_doc_some _ _ H)
    as (fields & meta & named & -> & Hk & Hname & Hns & -> & Hd).
  split; [done|].
  assert (forall s q, s <> Key "spec" ->
            get_path (s :: q) out
            = get_path (s :: q) (YMap (assoc_set "metadata" (YMap meta) fields)))
    as Hframe.
  { intros s q Hs. destruct (str_eq _ _).
    - by apply patch_distribution_frame.
    - by subst. }
  assert (exists m, out = YMap m) as [m ->].
  { destruct (str_eq _ _).
    - by eapply patch_distribution_is_map.
    - subst. eauto. }
  split; [|split].
  - rewrite !dict_get_path, Hframe by discriminate. simpl.
    by rewrite assoc_get_set_ne by discriminate.
  - rewrite Hframe by discriminate. simpl.
    rewrite assoc_get_set_eq. simpl. by rewrite Hname.
  - rewrite Hframe by discriminate. simpl.
    rewrite assoc_get_set_eq. simpl. by rewrite Hns.
Qed.

Lemma patch_doc_distribution doc out :
  pdoc doc = Ok (Some out) ->
  dict_get out "kind" YNull = Ok (YStr "Distribution") ->
  get_path (FIRST_ORIGIN ++ [Key "id"]) out
    = Ok (YStr (origin_id_of namespace ingress_name)) /\
  get_path (DEFAULT_CACHE_BEHAVIOR ++ [Key "targetOriginId"]) out
    = Ok (YStr (origin_id_of namespace ingress_name)) /\
  get_path (FIRST_ORIGIN ++ [Key "domainName"]) out = Ok alb_dns.
Proof.
  intros H Hkind.
  destruct (patch_doc_shape _ _ H) as (_ & Hk & _).
  rewrite Hkind in Hk.
  destruct (patch_doc_some _ _ H)
    as (fields & meta & named & -> & _ & _ & _ & -> & Hd).
  simpl in Hk. injection Hk as Hk.
  change (default YNull (assoc_get "kind" fields))
    with (match assoc_get "kind" fields with Some v => v | None => YNull end)
    in Hd.
  rewrite <- Hk in Hd. simpl in Hd.
  by apply patch_distribution_origin in Hd.
Qed.

(** The loop keeps the order of the template and drops exactly the
    documents that fail the kind test. *)
Lemma patch_docs_filter docs out :
  pdocs docs = Ok out ->
  Forall2 (fun doc o => pdoc doc = Ok (Some o))
          (List.filter registered docs) out.
Proof.
  revert out. induction docs as [|doc docs IH]; intros out; simpl.
  - intros [= <-]. constructor.
  - intros H. bind_inv H. bind_inv H. injection H as <-.
    destruct a as [o|].
    + destruct (patch_doc_shape _ _ Ha) as (Hk & _).
      unfold registered. rewrite Hk. constructor; auto.
    + apply patch_doc_none in Ha. unfold registered. rewrite Ha. auto.
Qed.

Lemma patch_docs_skip pre doc post :
  kind_test doc = Ok false ->
  pdocs (pre ++ doc :: post) = pdocs (pre ++ post).
Proof.
  intros Hk. induction pre as [|d pre IH]; simpl.
  - apply patch_doc_none in Hk. rewrite Hk. simpl.
    by destruct (pdocs post).
  - by rewrite IH.
Qed.

End Materializer.
(** ** Desired state *)

Lemma lower_ascii_letter (c : ascii) :
  ((lower_ascii c = "t" <-> c = "t" \/ c = "T") /\
   (lower_ascii c = "r" <-> c = "r" \/ c = "R") /\
   (lower_ascii c = "u" <-> c = "u" \/ c = "U") /\
   (lower_ascii c = "e" <-> c = "e" \/ c = "E"))%char.
Proof.
  repeat split; try by intros [-> | ->].
  all: destruct c as [[] [] [] [] [] [] [] []]; vm_compute; intros Hc;
    first [discriminate Hc | by left | by right].
Qed.

Lemma lower_true (v : string) :
  lower v = "true" <->
  exists c1 c2 c3 c4 : ascii,
    v = String c1 (String c2 (String c3 (String c4 EmptyString))) /\
    (c1 = "t" \/ c1 = "T")%char /\ (c2 = "r" \/ c2 = "R")%char /\
    (c3 = "u" \/ c3 = "U")%char /\ (c4 = "e" \/ c4 = "E")%char.
Proof.
  split.
  - destruct v as [|c1 [|c2 [|c3 [|c4 [|c5 v]]]]]; simpl; try discriminate.
    intros [= H1 H2 H3 H4]. exists c1, c2, c3, c4. split; [done|].
    destruct (lower_ascii_letter c1) as (T1 & _).
    destruct (lower_ascii_letter c2) as (_ & T2 & _).
    destruct (lower_ascii_letter c3) as (_ & _ & T3 & _).
    destruct (lower_ascii_letter c4) as (_ & _ & _ & T4).
    tauto.
  - intros (c1 & c2 & c3 & c4 & -> & H1 & H2 & H3 & H4). simpl.
    destruct (lower_ascii_letter c1) as (T1 & _).
    destruct (lower_ascii_letter c2) as (_ & T2 & _).
    destruct (lower_ascii_letter c3) as (_ & _ & T3 & _).
    destruct (lower_ascii_letter c4) as (_ & _ & _ & T4).
    apply T1 in H1. apply T2 in H2. apply T3 in H3. apply T4 in H4.
    by rewrite H1, H2, H3, H4.
Qed.

(** C5: the desired state is Enabled ([cf_enabled] holds) exactly when the
    enablement annotation is present and its value is "true" up to the case
    of its four letters; an absent key, and every other value, gives
    Disabled. *)
Theorem cf_enabled_iff (annotations : gmap string string) :
  (cf_enabled annotations = true <->
   exists v, annotations !! ENABLED_KEY = Some v /\ lower v = "true") /\
  (forall v, lower v = "true" <->
     exists c1 c2 c3 c4 : ascii,
       v = String c1 (String c2 (String c3 (String c4 EmptyString))) /\
       (c1 = "t" \/ c1 = "T")%char /\ (c2 = "r" \/ c2 = "R")%char /\
       (c3 = "u" \/ c3 = "U")%char /\ (c4 = "e" \/ c4 = "E")%char) /\
  (annotations !! ENABLED_KEY = None -> cf_enabled annotations = false) /\
  (forall v, annotations !! ENABLED_KEY = Some v -> lower v <> "true" ->
     cf_enabled annotations = false).
Proof.
  unfold cf_enabled. split; [|split; [exact lower_true|split]].
  - rewrite String.eqb_eq. destruct (annotations !! ENABLED_KEY) as [v|]; simpl.
    + split; [eauto|]. by intros (? & [= <-] & ?).
    + split; [discriminate|]. by intros (? & ? & _).
  - by intros ->.
  - intros v -> Hv. simpl. by apply String.eqb_neq.
Qed.
(** ** Naming and cross references of the materialized resources *)

Section MaterializedSet.

Variable repr_container : yaml -> string.
Variables namespace ingress_name : string.
Variable alb_dns : yaml.

Lemma load_and_patch_template_ok w out w' :
  load_and_patch_template repr_container namespace ingress_name alb_dns w
    = (Ok out, w') ->
  w' = w /\
  exists docs, template_file w = Some docs /\
    patch_docs repr_container namespace ingress_name alb_dns docs = Ok out.
Proof.
  unfold load_and_patch_template, read_template, mbind, M_bind, lift.
  destruct (template_file w) as [docs|]; [|discriminate].
  intros [= H <-]. eauto.
Qed.

(** C3: every document of the template whose kind is registered comes out
    of [load_and_patch_template], in template order, with [metadata.name]
    equal to "{namespace}-{ingress_name}-{original name}", the original
    name being "cf-object" when the template gives none; with namespace
    "ns", ingress "app" and template name "distribution" this is
    "ns-app-distribution". *)
Theorem materialized_name_spec w out w' :
  load_and_patch_template repr_container namespace ingress_name alb_dns w
    = (Ok out, w') ->
  (exists docs, template_file w = Some docs /\
     Forall2
       (fun doc o =>
          get_path [Key "metadata"; Key "name"] o
          = Ok (YStr (materialized_name repr_container namespace
                        ingress_name doc)))
       (List.filter registered docs) out) /\
  (forall doc base,
     template_name doc = Some (YStr base) ->
     materialized_name repr_container namespace ingress_name doc
     = namespace +:+ "-" +:+ ingress_name +:+ "-" +:+ base) /\
  (forall doc,
     template_name doc = None ->
     materialized_name repr_container namespace ingress_name doc
     = namespace +:+ "-" +:+ ingress_name +:+ "-" +:+ "cf-object") /\
  (forall doc,
     template_name doc = Some (YStr "distribution") ->
     materialized_name repr_container "ns" "app" doc = "ns-app-distribution").
Proof.
  intros H. apply load_and_patch_template_ok in H as (_ & docs & Hf & H).
  split; [|split; [|split]].
  - exists docs. split; [done|].
    apply patch_docs_filter in H.
    eapply Forall2_impl; [exact H|]. intros doc o Ho.
    by destruct (patch_doc_shape _ _ _ _ _ _ Ho) as (_ & _ & Hn & _).
  - intros doc base Hb. unfold materialized_name. by rewrite Hb.
  - intros doc Hb. unfold materialized_name. by rewrite Hb.
  - intros doc Hb. unfold materialized_name. by rewrite Hb.
Qed.

(** C4: in every materialized resource of kind Distribution the first
    origin's [id] and the default cache behavior's [targetOriginId] are both
    the derived origin id "{namespace}-{ingress_name}-origin", and the first
    origin's [domainName] is the hostname that was passed in. *)
Theorem distribution_origin_spec w out w' :
  load_and_patch_template repr_container namespace ingress_name alb_dns w
    = (Ok out, w') ->
  forall o, o ∈ out ->
    dict_get o "kind" YNull = Ok (YStr "Distribution") ->
    get_path (FIRST_ORIGIN ++ [Key "id"]) o
      = Ok (YStr (namespace +:+ "-" +:+ ingress_name +:+ "-origin")) /\
    get_path (DEFAULT_CACHE_BEHAVIOR ++ [Key "targetOriginId"]) o
      = Ok (YStr (namespace +:+ "-" +:+ ingress_name +:+ "-origin")) /\
    get_path (FIRST_ORIGIN ++ [Key "domainName"]) o = Ok alb_dns.
Proof.
  intros H o Ho Hk.
  apply load_and_patch_template_ok in H as (_ & docs & _ & H).
  apply patch_docs_filter in H.
  destruct (proj1 (list_elem_of_lookup _ _) Ho) as [i Hi].
  destruct (Forall2_lookup_r _ _ _ _ _ H Hi) as (doc & _ & Hd).
  exact (patch_doc_distribution _ _ _ _ _ _ Hd Hk).
Qed.

End MaterializedSet.
(** ** The resource store *)

Ltac world_eq :=
  unfold after, add_log, add_call, set_objs, set_ingresses; simpl;
  rewrite <- ?app_assoc, ?app_nil_r; simpl; try reflexivity.

Lemma after_nil w : after w (objs w) [] [] = w.
Proof. destruct w. by world_eq. Qed.

Lemma resource_key_inv doc plural ns nm :
  resource_key doc = Some (plural, ns, nm) ->
  exists kind,
    dict_get doc "kind" YNull = Ok (YStr kind) /\
    assoc_get kind PLURAL_MAP = Some plural /\
    get_path [Key "metadata"; Key "namespace"] doc = Ok (YStr ns) /\
    get_path [Key "metadata"; Key "name"] doc = Ok (YStr nm).
Proof.
  unfold resource_key. intros H.
  destruct (dict_get doc "kind" YNull) as [[| | |kind| |]|]; try done.
  destruct (get_path [Key "metadata"; Key "namespace"] doc)
    as [[| | |ns'| |]|]; try done.
  destruct (get_path [Key "metadata"; Key "name"] doc)
    as [[| | |nm'| |]|]; try done.
  destruct (assoc_get kind PLURAL_MAP) as [p|] eqn:Hp; [|done].
  injection H as -> -> ->. eauto.
Qed.

Lemma create_or_update_crd_run doc plural ns nm kind w :
  dict_get doc "kind" YNull = Ok (YStr kind) ->
  resource_key doc = Some (plural, ns, nm) ->
  create_or_update_crd doc w =
  let '(r, cs, ls, written) :=
    crd_summary (faults w)
      (bool_decide (is_Some (objs w !! (plural, ns, nm))))
      plural ns nm kind doc in
  (r, after w (if written then <[(plural, ns, nm) := doc]> (objs w)
               else objs w) cs ls).
Proof.
  intros Hkind Hk.
  destruct (resource_key_inv _ _ _ _ Hk) as (kind' & Hkind' & Hp & Hns & Hnm).
  rewrite Hkind in Hkind'. injection Hkind' as <-.
  unfold create_or_update_crd, crd_summary.
  unfold mbind at 1, M_bind, lift. rewrite Hkind.
  unfold mbind at 1, M_bind, lift.
  change (plural_map_get (YStr kind)) with (Ok (assoc_get kind PLURAL_MAP)).
  rewrite Hp.
  unfold mbind at 1, M_bind, lift. rewrite Hnm.
  unfold mbind at 1, M_bind, lift. rewrite Hns.
  unfold try_except, get_namespaced_custom_object,
    create_namespaced_custom_object, as_str, api_call, logger_info,
    logger_error, mbind, M_bind, lift. simpl. simpl in Hnm. rewrite Hnm.
  destruct (faults w (GetObj plural ns nm)) as [e|] eqn:Hg.
  - destruct e; simpl; try (by world_eq).
    destruct (status =? 404)%Z; simpl; [|by world_eq].
    destruct (faults w (CreateObj plural ns doc)) as [e2|] eqn:Hc.
    + destruct e2; simpl; by world_eq.
    + destruct (objs w !! (plural, ns, nm)) eqn:Ho; simpl; by world_eq.
  - destruct (objs w !! (plural, ns, nm)) eqn:Ho; simpl; [by world_eq|].
    destruct (faults w (CreateObj plural ns doc)) as [e2|] eqn:Hc.
    + destruct e2; simpl; by world_eq.
    + rewrite Ho. by world_eq.
Qed.

Lemma after_after w o1 cs1 ls1 o2 cs2 ls2 :
  after (after w o1 cs1 ls1) o2 cs2 ls2 = after w o2 (cs1 ++ cs2) (ls1 ++ ls2).
Proof. by world_eq. Qed.

(** *** Listing *)

Lemma elem_of_names_in plural ns o nm :
  nm ∈ names_in plural ns o <-> is_Some (o !! (plural, ns, nm)).
Proof.
  unfold names_in. rewrite merge_sort_Permutation, list_elem_of_fmap. split.
  - intros ([[[p n] m] v] & -> & H). simpl.
    apply elem_of_map_to_list, map_lookup_filter_Some in H as [H [Hp Hn]].
    simpl in *. subst. eauto.
  - intros [v H]. exists (plural, ns, nm, v). split; [done|].
    apply elem_of_map_to_list, map_lookup_filter_Some. eauto.
Qed.

Lemma NoDup_names_in plural ns o : NoDup (names_in plural ns o).
Proof.
  unfold names_in. rewrite merge_sort_Permutation.
  set (m := filter _ o).
  assert (forall k v, m !! k = Some v -> k.1.1 = plural /\ k.1.2 = ns) as Hm.
  { intros k v H. by apply map_lookup_filter_Some in H as [_ H]. }
  pose proof (NoDup_fst_map_to_list m) as Hnd.
  assert (forall kv, kv ∈ map_to_list m -> kv.1.1.1 = plural /\ kv.1.1.2 = ns)
    as Hall.
  { intros [k v] H. apply elem_of_map_to_list in H. eauto. }
  induction (map_to_list m) as [|[k v] l IH]; simpl in *; [constructor|].
  apply NoDup_cons in Hnd as [Hk Hnd]. apply NoDup_cons. split.
  - intros H. apply Hk. apply list_elem_of_fmap in H as ([k' v'] & Heq & Hin).
    apply list_elem_of_fmap. exists (k', v'). split; [|done]. simpl in *.
    destruct (Hall (k, v)) as [? ?]; [left|].
    destruct (Hall (k', v')) as [? ?]; [by right|]. simpl in *.
    destruct k as [[? ?] ?], k' as [[? ?] ?]. simpl in *. congruence.
  - apply IH; [done|]. intros kv H. apply Hall. by right.
Qed.

(** The listing of a collection only depends on that collection. *)
Lemma names_in_local (plural ns : string) (o1 o2 : gmap (string * string * string) yaml) :
  (forall nm, o1 !! (plural, ns, nm) = o2 !! (plural, ns, nm)) ->
  names_in plural ns o1 = names_in plural ns o2.
Proof.
  intros H. unfold names_in. do 3 f_equal.
  apply map_eq. intros [[p n] nm].
  destruct (decide (p = plural /\ n = ns)) as [[-> ->]|Hne].
  - rewrite !map_lookup_filter. rewrite H. done.
  - rewrite !map_lookup_filter_None_2; [done| |]; right; intros; simpl; tauto.
Qed.

(** *** Teardown of one kind *)

Lemma delete_loop_run kind plural ns pre items w :
  NoDup items ->
  (forall nm, nm ∈ items -> is_Some (objs w !! (plural, ns, nm))) ->
  for_each items (fun item_name =>
    if String.prefix pre item_name
    then delete_namespaced_custom_object ns plural item_name ;;
         logger_info (Deleted kind item_name)
    else mret tt) w =
  let '(r, cs, ls, ds) :=
    delete_summary (faults w) kind plural ns pre items in
  (r, after w (delete_all plural ns ds (objs w)) cs ls).
Proof.
  revert w. induction items as [|nm items IH]; intros w Hnd Hin; simpl.
  - unfold mret, M_ret. by rewrite after_nil.
  - apply NoDup_cons in Hnd as [Hnm Hnd].
    unfold mbind at 1, M_bind.
    destruct (String.prefix pre nm).
    + unfold delete_namespaced_custom_object, api_call, logger_info,
        mbind at 1, M_bind.
      destruct (faults w (DeleteObj plural ns nm)) as [e|] eqn:Hf;
        [by world_eq|].
      simpl. destruct (Hin nm) as [v Hv]; [by left|]. rewrite Hv.
      rewrite IH; [|done|].
      * simpl.
        destruct (delete_summary (faults w) kind plural ns pre items)
          as [[[r cs] ls] ds].
        by world_eq.
      * intros nm' Hnm'. simpl. rewrite lookup_delete_ne.
        -- apply Hin. by right.
        -- intros [= ->]. done.
    + unfold mret, M_ret. by apply IH; [|intros; apply Hin; right].
Qed.

Lemma remove_kind_run namespace ingress_name kind plural w :
  remove_kind namespace ingress_name (kind, plural) w =
  let '(cs, ls, ds) :=
    remove_kind_summary (faults w) kind plural namespace
      (namespace +:+ "-" +:+ ingress_name +:+ "-")
      (names_in plural namespace (objs w)) in
  (Ok tt, after w (delete_all plural namespace ds (objs w)) cs ls).
Proof.
  unfold remove_kind, remove_kind_summary, try_except,
    list_namespaced_custom_object, api_call, mbind at 1, M_bind.
  destruct (faults w (ListObj plural namespace)) as [e|] eqn:Hf.
  - simpl. unfold logger_error. by world_eq.
  - rewrite delete_loop_run.
    + simpl.
      destruct (delete_summary _ _ _ _ _ _) as [[[r cs] ls] ds].
      destruct r as [[]|]; simpl; unfold logger_error; by world_eq.
    + apply NoDup_names_in.
    + intros nm Hnm. simpl. by apply elem_of_names_in.
Qed.

Lemma lookup_delete_all_ne plural ns ds o k :
  (forall nm, nm ∈ ds -> k <> (plural, ns, nm)) ->
  delete_all plural ns ds o !! k = o !! k.
Proof.
  revert o. induction ds as [|d ds IH]; intros o H; simpl; [done|].
  unfold delete_all in *. simpl. rewrite IH.
  - apply lookup_delete_ne. intros Heq. by apply (H d); [left|].
  - intros nm Hnm. apply H. by right.
Qed.

Lemma lookup_delete_all_eq plural ns ds o nm :
  nm ∈ ds -> delete_all plural ns ds o !! (plural, ns, nm) = None.
Proof.
  revert o. induction ds as [|d ds IH]; intros o H; [by apply elem_of_nil in H|].
  unfold delete_all in *. simpl.
  destruct (decide (nm ∈ ds)) as [Hin|Hnin]; [by apply IH|].
  apply elem_of_cons in H as [->|H]; [|done].
  fold (delete_all plural ns ds (delete (plural, ns, d) o)).
  rewrite lookup_delete_all_ne; [apply lookup_delete_eq|].
  intros nm Hnm [= ->]. done.
Qed.

(** Only listed names carrying the prefix are deleted. *)
Lemma delete_summary_deleted f kind plural ns pre items nm :
  nm ∈ (delete_summary f kind plural ns pre items).2 ->
  nm ∈ items /\ String.prefix pre nm = true.
Proof.
  induction items as [|i items IH]; simpl; [by intros H%elem_of_nil|].
  destruct (String.prefix pre i) eqn:Hp.
  - destruct (f (DeleteObj plural ns i)); simpl; [by intros H%elem_of_nil|].
    destruct (delete_summary f kind plural ns pre items) as [[[r cs] ls] ds].
    simpl in *. intros [->|H]%elem_of_cons.
    + split; [by left|done].
    + destruct (IH H). split; [by right|done].
  - intros H. destruct (IH H). split; [by right|done].
Qed.

(** Without faults, every listed name carrying the prefix is deleted. *)
Lemma delete_summary_no_faults f kind plural ns pre items :
  (forall c, f c = None) ->
  delete_summary f kind plural ns pre items =
  (Ok tt,
   (fun nm => DeleteObj plural ns nm) <$> List.filter (String.prefix pre) items,
   (fun nm => (INFO, Deleted kind nm)) <$> List.filter (String.prefix pre) items,
   List.filter (String.prefix pre) items).
Proof.
  intros Hf. induction items as [|i items IH]; simpl; [done|].
  destruct (String.prefix pre i); [|done]. by rewrite Hf, IH.
Qed.

Lemma delete_summary_calls f kind plural ns pre items :
  Forall (fun c => exists nm, c = DeleteObj plural ns nm
                     /\ nm ∈ items /\ String.prefix pre nm = true)
         (delete_summary f kind plural ns pre items).1.1.2.
Proof.
  induction items as [|i items IH]; simpl; [constructor|].
  destruct (String.prefix pre i) eqn:Hp.
  - destruct (f (DeleteObj plural ns i)); simpl.
    + constructor; [|constructor]. exists i. split; [done|]. split; [by left|done].
    + destruct (delete_summary f kind plural ns pre items) as [[[r cs] ls] ds].
      simpl in *. constructor.
      * exists i. split; [done|]. split; [by left|done].
      * eapply Forall_impl; [exact IH|]. intros c (nm & ? & ? & ?).
        exists nm. split; [done|]. split; [by right|done].
  - eapply Forall_impl; [exact IH|]. intros c (nm & ? & ? & ?).
    exists nm. split; [done|]. split; [by right|done].
Qed.

Section Teardown.

Variables namespace ingress_name : string.

(** The loop over the kinds: every round runs, and does what it would do
    if it were run alone in the initial world [w0]. *)
Lemma remove_loop_run entries w0 w :
  NoDup entries.*2 ->
  faults w = faults w0 ->
  (forall e nm, e ∈ entries ->
     objs w !! (e.2, namespace, nm) = objs w0 !! (e.2, namespace, nm)) ->
  for_each entries (remove_kind namespace ingress_name) w =
  (Ok tt,
   after w
     (foldl (fun o e =>
               delete_all e.2 namespace
                 (kind_round w0 namespace ingress_name e).2 o)
            (objs w) entries)
     (flat_map (fun e => (kind_round w0 namespace ingress_name e).1.1) entries)
     (flat_map (fun e => (kind_round w0 namespace ingress_name e).1.2) entries)).
Proof.
  revert w. induction entries as [|[kind plural] entries IH];
    intros w Hnd Hf Ho.
  - simpl. unfold mret, M_ret. by rewrite after_nil.
  - apply NoDup_cons in Hnd as [Hp Hnd].
    cbn [for_each]. unfold mbind at 1, M_bind. rewrite remove_kind_run.
    assert (remove_kind_summary (faults w) kind plural namespace
              (namespace +:+ "-" +:+ ingress_name +:+ "-")
              (names_in plural namespace (objs w))
            = kind_round w0 namespace ingress_name (kind, plural)) as ->.
    { unfold kind_round. simpl. rewrite Hf. f_equal.
      apply names_in_local. intros nm. apply (Ho (kind, plural)). by left. }
    destruct (kind_round w0 namespace ingress_name (kind, plural))
      as [[cs ls] ds] eqn:Hr.
    rewrite IH; [|done|done|].
    + simpl. rewrite after_after. by rewrite Hr.
    + intros e nm He. simpl. rewrite lookup_delete_all_ne.
      * apply Ho. by right.
      * intros nm' _ [= Heq _]. apply Hp.
        apply list_elem_of_fmap. exists e. by rewrite Heq.
Qed.

End Teardown.

Section TeardownFacts.

Variables namespace ingress_name : string.

Lemma lookup_foldl_delete_all_ne (D : string * string -> list string)
    (entries : list (string * string))
    (o : gmap (string * string * string) yaml) (k : string * string * string) :
  (forall e nm, e ∈ entries -> nm ∈ D e -> k <> (e.2, namespace, nm)) ->
  foldl (fun o e => delete_all e.2 namespace (D e) o) o entries !! k = o !! k.
Proof.
  revert o. induction entries as [|e entries IH]; intros o H; simpl; [done|].
  rewrite IH.
  - apply lookup_delete_all_ne. intros nm Hnm. apply H; [by left|done].
  - intros e' nm He' Hnm. apply H; [by right|done].
Qed.

Lemma lookup_foldl_delete_all_None (D : string * string -> list string)
    (entries : list (string * string))
    (o : gmap (string * string * string) yaml) (k : string * string * string) :
  o !! k = None ->
  foldl (fun o e => delete_all e.2 namespace (D e) o) o entries !! k = None.
Proof.
  revert o. induction entries as [|e entries IH]; intros o H; simpl; [done|].
  apply IH. clear IH. revert o H.
  induction (D e) as [|d ds IHd]; intros o H; [done|].
  unfold delete_all in *. simpl. apply IHd.
  rewrite lookup_delete_None. by right.
Qed.

Lemma lookup_foldl_delete_all_eq (D : string * string -> list string)
    (entries : list (string * string))
    (o : gmap (string * string * string) yaml) (e : string * string)
    (nm : string) :
  e ∈ entries -> nm ∈ D e ->
  foldl (fun o e => delete_all e.2 namespace (D e) o) o entries
    !! (e.2, namespace, nm) = None.
Proof.
  revert o. induction entries as [|e' entries IH]; intros o He Hnm;
    [by apply elem_of_nil in He|].
  simpl. apply elem_of_cons in He as [<-|He].
  - apply lookup_foldl_delete_all_None. by apply lookup_delete_all_eq.
  - by apply IH.
Qed.

Lemma kind_round_deleted w e nm :
  nm ∈ (kind_round w namespace ingress_name e).2 ->
  is_Some (objs w !! (e.2, namespace, nm)) /\
  String.prefix (namespace +:+ "-" +:+ ingress_name +:+ "-") nm = true.
Proof.
  unfold kind_round, remove_kind_summary.
  destruct (faults w (ListObj e.2 namespace)); simpl;
    [by intros H%elem_of_nil|].
  pose proof (delete_summary_deleted (faults w) e.1 e.2 namespace
    (namespace +:+ "-" +:+ ingress_name +:+ "-")
    (names_in e.2 namespace (objs w)) nm) as H.
  destruct (delete_summary _ _ _ _ _ _) as [[[r cs] ls] ds]. simpl in *.
  intros Hnm. destruct (H Hnm) as [Hin Hp]. split; [|done].
  by apply elem_of_names_in.
Qed.

Lemma kind_round_calls w e :
  Forall (fun c => is_store_call c = true)
         (kind_round w namespace ingress_name e).1.1.
Proof.
  unfold kind_round, remove_kind_summary.
  destruct (faults w (ListObj e.2 namespace)); simpl;
    [by repeat constructor|].
  pose proof (delete_summary_calls (faults w) e.1 e.2 namespace
    (namespace +:+ "-" +:+ ingress_name +:+ "-")
    (names_in e.2 namespace (objs w))) as H.
  destruct (delete_summary _ _ _ _ _ _) as [[[r cs] ls] ds]. simpl in *.
  constructor; [done|].
  eapply Forall_impl; [exact H|]. by intros c (nm & -> & _).
Qed.

Lemma kind_round_no_faults w e :
  no_faults w ->
  (kind_round w namespace ingress_name e).2 =
  List.filter (String.prefix (namespace +:+ "-" +:+ ingress_name +:+ "-"))
              (names_in e.2 namespace (objs w)).
Proof.
  intros Hf. unfold kind_round, remove_kind_summary.
  rewrite Hf. by rewrite delete_summary_no_faults.
Qed.

Lemma NoDup_plurals : NoDup PLURAL_MAP.*2.
Proof. apply (bool_decide_unpack (NoDup PLURAL_MAP.*2)). by vm_compute. Qed.

(** The teardown, whatever fails: it returns normally, and its history is
    the rounds of all the kinds followed by one patch of the ingress. *)
Lemma remove_crds_and_patch_run w :
  exists w',
    remove_crds_and_patch namespace ingress_name w = (Ok tt, w') /\
    faults w' = faults w /\
    template_file w' = template_file w /\
    objs w' =
      foldl (fun o e =>
               delete_all e.2 namespace
                 (kind_round w namespace ingress_name e).2 o)
            (objs w) PLURAL_MAP /\
    calls w' =
      calls w
      ++ flat_map (fun e => (kind_round w namespace ingress_name e).1.1)
                  PLURAL_MAP
      ++ [PatchIngress ingress_name namespace None] /\
    (faults w (PatchIngress ingress_name namespace None) = None ->
       ingresses w' !! (namespace, ingress_name)
       = clear_target <$> ingresses w !! (namespace, ingress_name)) /\
    (forall k, k <> (namespace, ingress_name) ->
       ingresses w' !! k = ingresses w !! k).
Proof.
  unfold remove_crds_and_patch. unfold mbind at 1, M_bind.
  rewrite (remove_loop_run namespace ingress_name PLURAL_MAP w w
             NoDup_plurals eq_refl (fun _ _ _ => eq_refl)).
  set (w1 := after w _ _ _).
  unfold try_except, patch_namespaced_ingress, api_call, logger_info,
    logger_error, mbind, M_bind.
  change (faults w1) with (faults w).
  destruct (faults w (PatchIngress ingress_name namespace None)) as [e|] eqn:Hf;
    simpl.
  - eexists. split; [reflexivity|]. simpl.
    repeat split; try done. by rewrite <- app_assoc.
  - destruct (ingresses w !! (namespace, ingress_name)) as [i|] eqn:Hi; simpl.
    + eexists. split; [reflexivity|]. simpl.
      repeat split; try done.
      * by rewrite <- app_assoc.
      * intros _. by rewrite lookup_insert_eq.
      * intros k Hk. by rewrite lookup_insert_ne.
    + eexists. split; [reflexivity|]. simpl.
      repeat split; try done. by rewrite <- app_assoc.
Qed.

End TeardownFacts.

(** ** The Disabled path *)

Section Disabled.

Variable repr_container : yaml -> string.
Variable meta : kopf_meta.
Variables namespace name : string.

Lemma reconcile_disabled w :
  cf_enabled (default ∅ (meta_annotations meta)) = false ->
  reconcile_ingress repr_container meta namespace name w =
  remove_crds_and_patch namespace name
    (after w (objs w) []
       [(INFO, ProcessingIngress name namespace);
        (INFO, Annotations
           (default "not set"
              (default ∅ (meta_annotations meta) !! ENABLED_KEY))
           (default "not set"
              (default ∅ (meta_annotations meta) !! TARGET_KEY)))]).
Proof.
  intros H. unfold reconcile_ingress. rewrite H.
  unfold mbind, M_bind, logger_info. simpl. f_equal. by world_eq.
Qed.

Lemma teardown_target_spec plural ns nm :
  teardown_target namespace name (plural, ns, nm) = true <->
  (exists e, e ∈ PLURAL_MAP /\ e.2 = plural) /\ ns = namespace /\
  String.prefix (namespace +:+ "-" +:+ name +:+ "-") nm = true.
Proof.
  unfold teardown_target. rewrite !andb_true_iff, bool_decide_eq_true.
  rewrite String.eqb_eq, list_elem_of_fmap. split.
  - intros [[(e & -> & He) ->] Hp]. eauto.
  - intros [(e & He & <-) [-> Hp]]. eauto.
Qed.

Lemma elem_of_filter_prefix pre nm (l : list string) :
  nm ∈ List.filter (String.prefix pre) l <->
  nm ∈ l /\ String.prefix pre nm = true.
Proof. rewrite !list_elem_of_In. apply filter_In. Qed.

(** C2: on a tick whose desired state is Disabled and during which no API
    call fails, the engine deletes, for every registered kind, exactly the
    resources of the endpoint's namespace whose name starts with
    "{namespace}-{name}-": these are gone afterwards, every other resource
    is as before, a delete is issued for a resource if and only if it is
    such a resource present in the store; the last call of the tick, after
    all store calls, removes the DNS-target annotation. *)
Theorem disabled_tick_deletes_exactly w :
  cf_enabled (default ∅ (meta_annotations meta)) = false ->
  no_faults w ->
  exists w',
    reconcile_ingress repr_container meta namespace name w = (Ok tt, w') /\
    (forall k,
       objs w' !! k
       = if teardown_target namespace name k then None else objs w !! k) /\
    (exists cs,
       calls w' = calls w ++ cs ++ [PatchIngress name namespace None] /\
       Forall (fun c => is_store_call c = true) cs /\
       forall plural ns nm,
         DeleteObj plural ns nm ∈ cs <->
         teardown_target namespace name (plural, ns, nm) = true /\
         is_Some (objs w !! (plural, ns, nm))) /\
    ingresses w' !! (namespace, name)
    = clear_target <$> ingresses w !! (namespace, name) /\
    (forall i, ingresses w' !! (namespace, name) = Some i ->
       ing_annotations i !! TARGET_KEY = None).
Proof.
  intros Hd Hf. rewrite (reconcile_disabled w Hd).
  set (w0 := after w _ _ _).
  assert (no_faults w0) as Hf0 by exact Hf.
  destruct (remove_crds_and_patch_run namespace name w0)
    as (w' & Hrun & _ & _ & Ho & Hc & Hi & _).
  exists w'. split; [done|].
  replace (calls w0) with (calls w) in Hc
    by (subst w0; simpl; by rewrite app_nil_r).
  assert (ingresses w' !! (namespace, name)
          = clear_target <$> ingresses w !! (namespace, name)) as Hi'.
  { by apply Hi. }
  split; [|split; [|split; [done|]]].
  - intros [[plural ns] nm]. rewrite Ho. change (objs w0) with (objs w).
    destruct (teardown_target namespace name (plural, ns, nm)) eqn:Ht.
    + apply teardown_target_spec in Ht as ((e & He & <-) & -> & Hp).
      destruct (objs w !! (e.2, namespace, nm)) as [v|] eqn:Hv.
      * apply (lookup_foldl_delete_all_eq namespace
                 (fun e => (kind_round w0 namespace name e).2)); [done|].
        rewrite kind_round_no_faults by done.
        apply elem_of_filter_prefix. split; [|done].
        apply elem_of_names_in. change (objs w0) with (objs w). eauto.
      * by apply lookup_foldl_delete_all_None.
    + apply lookup_foldl_delete_all_ne. intros e nm' He Hnm' [= -> -> ->].
      apply kind_round_deleted in Hnm' as [_ Hp].
      assert (teardown_target namespace name (e.2, namespace, nm') = true)
        as Ht'; [|congruence].
      apply teardown_target_spec. eauto.
  - eexists. split; [exact Hc|]. split.
    + apply Forall_flat_map, Forall_forall. intros e _.
      apply kind_round_calls.
    + intros plural ns nm. rewrite list_elem_of_In, in_flat_map.
      setoid_rewrite <- list_elem_of_In.
      rewrite teardown_target_spec. split.
      * intros (e & He & Hin).
        unfold kind_round, remove_kind_summary in Hin.
        rewrite Hf0, delete_summary_no_faults in Hin by done.
        simpl in Hin. apply elem_of_cons in Hin as [Hin|Hin]; [done|].
        apply list_elem_of_fmap in Hin as (nm' & [= -> -> ->] & Hin).
        apply elem_of_filter_prefix in Hin as [Hin Hp].
        apply elem_of_names_in in Hin. eauto 10.
      * intros (((e & He & <-) & -> & Hp) & Hv). exists e. split; [done|].
        unfold kind_round, remove_kind_summary.
        rewrite Hf0, delete_summary_no_faults by done. simpl. right.
        apply list_elem_of_fmap. exists nm. split; [done|].
        apply elem_of_filter_prefix. split; [|done].
        by apply elem_of_names_in.
  - intros i. rewrite Hi'.
    destruct (ingresses w !! (namespace, name)); simpl; [|done].
    intros [= <-]. simpl. apply lookup_delete_eq.
Qed.

(** C10: whatever fails while the resources are listed and deleted, the
    Disabled path returns normally and its calls are store calls (the
    rounds of the kinds) followed by exactly one patch of the ingress that
    removes the DNS-target annotation. *)
Theorem annotation_clear_always_attempted w :
  exists w' cs,
    remove_crds_and_patch namespace name w = (Ok tt, w') /\
    calls w' = calls w ++ cs ++ [PatchIngress name namespace None] /\
    Forall (fun c => is_store_call c = true) cs /\
    (forall e, e ∈ PLURAL_MAP -> ListObj e.2 namespace ∈ cs).
Proof.
  destruct (remove_crds_and_patch_run namespace name w)
    as (w' & Hrun & _ & _ & _ & Hc & _).
  exists w'. eexists. split; [done|]. split; [exact Hc|]. split.
  - apply Forall_flat_map, Forall_forall. intros e _. apply kind_round_calls.
  - intros e He. rewrite list_elem_of_In, in_flat_map.
    exists e. split; [by apply list_elem_of_In|].
    apply list_elem_of_In.
    unfold kind_round, remove_kind_summary.
    destruct (faults w (ListObj e.2 namespace)); simpl; [by left|].
    destruct (delete_summary _ _ _ _ _ _) as [[[r cs] ls] ds]. by left.
Qed.

End Disabled.

(** ** The create routine *)

Lemma resource_key_kind doc k :
  resource_key doc = Some k ->
  exists kind, dict_get doc "kind" YNull = Ok (YStr kind).
Proof.
  destruct k as [[p n] nm]. intros H.
  destruct (resource_key_inv _ _ _ _ H) as (kind & Hk & _). eauto.
Qed.

(** A document without an address in the store causes no API call. *)
Lemma create_or_update_crd_no_key doc w :
  resource_key doc = None -> (create_or_update_crd doc w).2 = w.
Proof.
  unfold resource_key, create_or_update_crd. intros H.
  unfold mbind at 1, M_bind, lift.
  destruct (dict_get doc "kind" YNull) as [kind|]; [|done].
  unfold mbind at 1, M_bind, lift.
  destruct (plural_map_get kind) as [plural|] eqn:Hp; [|done].
  unfold mbind at 1, M_bind, lift.
  destruct (get_path [Key "metadata"; Key "name"] doc) as [name|]; [|done].
  unfold mbind at 1, M_bind, lift.
  destruct (get_path [Key "metadata"; Key "namespace"] doc) as [ns|]; [|done].
  destruct plural as [plural|]; [|done].
  destruct kind; try discriminate Hp. unfold plural_map_get in Hp.
  injection Hp as Hp. change (assoc_get s PLURAL_MAP = Some plural) in Hp.
  unfold try_except, get_namespaced_custom_object, as_str, mbind, M_bind, lift.
  destruct ns; try done. destruct name; try done.
  by rewrite Hp in H.
Qed.

Lemma new_calls_after {A} (m : M A) w r o cs ls :
  m w = (r, after w o cs ls) -> new_calls m w = cs.
Proof. unfold new_calls. intros ->. simpl. by rewrite drop_app_length. Qed.

Lemma new_log_after {A} (m : M A) w r o cs ls :
  m w = (r, after w o cs ls) -> new_log m w = ls.
Proof. unfold new_log. intros ->. simpl. by rewrite drop_app_length. Qed.

(** With API errors only, the routine catches every failure. *)
Lemma crd_summary_api_faults f present plural ns nm kind doc :
  (forall c e, f c = Some e -> is_api_exception e = true) ->
  (crd_summary f present plural ns nm kind doc).1.1.1 = Ok tt.
Proof.
  intros Hf. unfold crd_summary.
  destruct (f (GetObj plural ns nm)) as [e|] eqn:Hg.
  - rewrite (Hf _ _ Hg). destruct (status_of e =? 404)%Z; [|done].
    destruct (f (CreateObj plural ns doc)) as [e2|] eqn:Hc.
    + by rewrite (Hf _ _ Hc).
    + by destruct present.
  - destruct present; [done|].
    destruct (f (CreateObj plural ns doc)) as [e2|] eqn:Hc; [|done].
    by rewrite (Hf _ _ Hc).
Qed.

(** A create is always the second call, right after the existence check
    of the same resource. *)
Lemma crd_summary_check_first f present plural ns nm kind doc :
  let cs := (crd_summary f present plural ns nm kind doc).1.1.2 in
  cs = [GetObj plural ns nm] \/
  cs = [GetObj plural ns nm; CreateObj plural ns doc].
Proof.
  unfold crd_summary.
  destruct (f (GetObj plural ns nm)) as [e|].
  - destruct (is_api_exception e); [|by left].
    destruct (status_of e =? 404)%Z; [|by left].
    destruct (f (CreateObj plural ns doc)) as [e2|].
    + destruct (is_api_exception e2); by right.
    + destruct present; by right.
  - destruct present; [by left|].
    destruct (f (CreateObj plural ns doc)) as [e2|].
    + destruct (is_api_exception e2); by right.
    + by right.
Qed.

(** Without faults: found and logged, or created. *)
Lemma create_or_update_crd_no_faults doc plural ns nm kind w :
  dict_get doc "kind" YNull = Ok (YStr kind) ->
  resource_key doc = Some (plural, ns, nm) ->
  no_faults w ->
  create_or_update_crd doc w =
  (Ok tt,
   match objs w !! (plural, ns, nm) with
   | Some _ =>
       after w (objs w) [GetObj plural ns nm]
         [(INFO, AlreadyExists (YStr kind) (YStr nm))]
   | None =>
       after w (<[(plural, ns, nm) := doc]> (objs w))
         [GetObj plural ns nm; CreateObj plural ns doc]
         [(INFO, Created (YStr kind) (YStr nm))]
   end).
Proof.
  intros Hkind Hk Hf.
  rewrite (create_or_update_crd_run _ _ _ _ _ _ Hkind Hk).
  unfold crd_summary. rewrite !Hf.
  by destruct (objs w !! (plural, ns, nm)).
Qed.

(** Materialized documents have an address: the collection of their kind,
    the endpoint's namespace and the materialized name. *)
Lemma patch_docs_keyed repr_container namespace ingress_name alb_dns docs out :
  patch_docs repr_container namespace ingress_name alb_dns docs = Ok out ->
  Forall (fun o => exists plural nm,
            resource_key o = Some (plural, namespace, nm)) out.
Proof.
  intros H. apply patch_docs_filter in H.
  apply Forall_forall. intros o Ho.
  destruct (proj1 (list_elem_of_lookup _ _) Ho) as [i Hi].
  destruct (Forall2_lookup_r _ _ _ _ _ H Hi) as (doc & _ & Hd).
  destruct (patch_doc_shape _ _ _ _ _ _ Hd) as (Hk & Hkind & Hnm & Hns).
  unfold resource_key. rewrite Hkind, Hnm, Hns.
  unfold kind_test in Hk.
  destruct (dict_get doc "kind" YNull) as [[| | |kind| |]|]; try done.
  injection Hk as Hk. apply bool_decide_eq_true in Hk as [p Hp].
  change (assoc_get kind PLURAL_MAP = Some p) in Hp.
  rewrite Hp. eauto.
Qed.

(** The loop without faults: every resource ends up in the store, and
    what was there is left as it was. *)
Lemma create_or_update_crds_no_faults docs w :
  Forall (fun d => is_Some (resource_key d)) docs ->
  no_faults w ->
  exists w',
    create_or_update_crds docs w = (Ok tt, w') /\
    faults w' = faults w /\
    (forall k v, objs w !! k = Some v -> objs w' !! k = Some v) /\
    (forall d k, d ∈ docs -> resource_key d = Some k ->
       is_Some (objs w' !! k)).
Proof.
  unfold create_or_update_crds. revert w.
  induction docs as [|d docs IH]; intros w Hkeys Hf.
  - exists w. split; [done|]. split; [done|]. split; [done|].
    by intros d k H%elem_of_nil.
  - apply Forall_cons in Hkeys as [[[[p n] nm] Hk] Hkeys].
    destruct (resource_key_kind _ _ Hk) as [kind Hkind].
    cbn [for_each]. unfold mbind at 1, M_bind.
    rewrite (create_or_update_crd_no_faults _ _ _ _ _ _ Hkind Hk Hf).
    set (w1 := match objs w !! (p, n, nm) with Some _ => _ | None => _ end).
    assert (faults w1 = faults w) as Hf1.
    { subst w1. by destruct (objs w !! (p, n, nm)). }
    assert (forall k v, objs w !! k = Some v -> objs w1 !! k = Some v) as Hmono.
    { subst w1. intros k v Hv.
      destruct (objs w !! (p, n, nm)) eqn:Ho; simpl; [done|].
      rewrite lookup_insert_ne; [done|]. congruence. }
    assert (is_Some (objs w1 !! (p, n, nm))) as Hin.
    { subst w1. destruct (objs w !! (p, n, nm)) eqn:Ho; simpl; [by eauto|].
      rewrite lookup_insert_eq. eauto. }
    destruct (IH w1 Hkeys) as (w' & Hrun & Hf' & Hmono' & Hall).
    { intros c. rewrite Hf1. apply Hf. }
    exists w'. split; [done|]. split; [congruence|]. split; [by eauto|].
    intros d' k [->|Hd']%elem_of_cons Hk'.
    + rewrite Hk in Hk'. injection Hk' as <-.
      destruct Hin as [v Hv]. rewrite (Hmono' _ _ Hv). eauto.
    + by eapply Hall.
Qed.

(** The loop when every resource is already there: one existence check
    and one line per resource, nothing else. *)
Lemma create_or_update_crds_present docs w :
  Forall (fun d => exists k, resource_key d = Some k /\ is_Some (objs w !! k))
         docs ->
  no_faults w ->
  create_or_update_crds docs w =
  (Ok tt,
   after w (objs w) (flat_map existence_check docs)
     (flat_map already_exists_line docs)).
Proof.
  unfold create_or_update_crds. revert w.
  induction docs as [|d docs IH]; intros w Hkeys Hf.
  - simpl. unfold mret, M_ret. by rewrite after_nil.
  - apply Forall_cons in Hkeys as [([[p n] nm] & Hk & [v Hv]) Hkeys].
    destruct (resource_key_kind _ _ Hk) as [kind Hkind].
    cbn [for_each]. unfold mbind at 1, M_bind.
    rewrite (create_or_update_crd_no_faults _ _ _ _ _ _ Hkind Hk Hf), Hv.
    rewrite IH; [|done|done].
    rewrite after_after. cbn [flat_map].
    assert (existence_check d = [GetObj p n nm]) as ->
      by (unfold existence_check; by rewrite Hk).
    assert (already_exists_line d
            = [(INFO, AlreadyExists (YStr kind) (YStr nm))]) as ->
      by (unfold already_exists_line; by rewrite Hk, Hkind).
    done.
Qed.

(** *** Isolation of the resources in the create loop *)

Lemma crd_summary_ext f1 f2 present plural ns nm kind doc :
  f1 (GetObj plural ns nm) = f2 (GetObj plural ns nm) ->
  f1 (CreateObj plural ns doc) = f2 (CreateObj plural ns doc) ->
  crd_summary f1 present plural ns nm kind doc
  = crd_summary f2 present plural ns nm kind doc.
Proof. unfold crd_summary. by intros -> ->. Qed.

(** What the routine does with a resource is decided by the presence of
    that resource and by the faults of its own two calls. *)
Lemma create_or_update_crd_local doc plural ns nm w1 w2 :
  resource_key doc = Some (plural, ns, nm) ->
  objs w1 !! (plural, ns, nm) = objs w2 !! (plural, ns, nm) ->
  faults w1 (GetObj plural ns nm) = faults w2 (GetObj plural ns nm) ->
  faults w1 (CreateObj plural ns doc) = faults w2 (CreateObj plural ns doc) ->
  (create_or_update_crd doc w1).1 = (create_or_update_crd doc w2).1 /\
  new_calls (create_or_update_crd doc) w1
  = new_calls (create_or_update_crd doc) w2 /\
  new_log (create_or_update_crd doc) w1
  = new_log (create_or_update_crd doc) w2 /\
  objs (create_or_update_crd doc w1).2 !! (plural, ns, nm)
  = objs (create_or_update_crd doc w2).2 !! (plural, ns, nm).
Proof.
  intros Hk Ho Hg Hc.
  destruct (resource_key_kind _ _ Hk) as [kind Hkind].
  pose proof (create_or_update_crd_run _ _ _ _ _ w1 Hkind Hk) as H1.
  pose proof (create_or_update_crd_run _ _ _ _ _ w2 Hkind Hk) as H2.
  rewrite Ho, (crd_summary_ext _ (faults w2) _ _ _ _ _ _ Hg Hc) in H1.
  destruct (crd_summary _ _ _ _ _ _ _) as [[[r cs] ls] written].
  rewrite (new_calls_after _ _ _ _ _ _ H1), (new_calls_after _ _ _ _ _ _ H2).
  rewrite (new_log_after _ _ _ _ _ _ H1), (new_log_after _ _ _ _ _ _ H2).
  rewrite H1, H2. simpl. repeat split; try done.
  destruct written; [by rewrite !lookup_insert_eq|done].
Qed.

(** The routine only touches the resource it is given. *)
Lemma create_or_update_crd_frame doc k w k' :
  resource_key doc = Some k -> k' <> k ->
  objs (create_or_update_crd doc w).2 !! k' = objs w !! k'.
Proof.
  destruct k as [[p n] nm]. intros Hk Hne.
  destruct (resource_key_kind _ _ Hk) as [kind Hkind].
  rewrite (create_or_update_crd_run _ _ _ _ _ w Hkind Hk).
  destruct (crd_summary _ _ _ _ _ _ _) as [[[r cs] ls] written]. simpl.
  destruct written; [|done]. by rewrite lookup_insert_ne.
Qed.

(** In the loop every resource is processed as it would be alone in the
    initial world [w0], whatever API errors hit the other resources. *)
Lemma create_or_update_crds_isolated docs w0 w :
  Forall (fun d => is_Some (resource_key d)) docs ->
  NoDup (omap resource_key docs) ->
  api_faults_only w0 ->
  faults w = faults w0 ->
  (forall d k, d ∈ docs -> resource_key d = Some k ->
     objs w !! k = objs w0 !! k) ->
  exists w',
    create_or_update_crds docs w = (Ok tt, w') /\
    calls w' =
      calls w ++ flat_map (fun d => new_calls (create_or_update_crd d) w0) docs
    /\
    log w' =
      log w ++ flat_map (fun d => new_log (create_or_update_crd d) w0) docs /\
    (forall d k, d ∈ docs -> resource_key d = Some k ->
       objs w' !! k = objs (create_or_update_crd d w0).2 !! k) /\
    (forall k, (forall d, d ∈ docs -> resource_key d <> Some k) ->
       objs w' !! k = objs w !! k).
Proof.
  unfold create_or_update_crds. revert w.
  induction docs as [|d docs IH]; intros w Hkeys Hnd Hapi Hf Ho.
  - exists w. simpl. rewrite !app_nil_r. repeat split; try done.
    by intros d k H%elem_of_nil.
  - apply Forall_cons in Hkeys as [[[[p n] nm] Hk] Hkeys].
    cbn [omap list_omap] in Hnd. rewrite Hk in Hnd.
    apply NoDup_cons in Hnd as [Hfresh Hnd].
    destruct (resource_key_kind _ _ Hk) as [kind Hkind].
    destruct (create_or_update_crd_local d p n nm w w0 Hk)
      as (Hr & Hcs & Hls & Hobj).
    { apply (Ho d); [by left|done]. }
    { by rewrite Hf. }
    { by rewrite Hf. }
    pose proof (create_or_update_crd_run _ _ _ _ _ w Hkind Hk) as Hrun.
    pose proof (crd_summary_api_faults (faults w)
      (bool_decide (is_Some (objs w !! (p, n, nm)))) p n nm kind d) as Hok.
    destruct (crd_summary _ _ _ _ _ _ _) as [[[r cs] ls] written].
    simpl in Hok. rewrite Hok in Hrun by (rewrite Hf; exact Hapi).
    cbn [for_each flat_map].
    rewrite <- Hcs, <- Hls, (new_calls_after _ _ _ _ _ _ Hrun),
      (new_log_after _ _ _ _ _ _ Hrun).
    unfold mbind at 1, M_bind. rewrite Hrun.
    set (w1 := after w _ cs ls).
    assert (forall k', k' <> (p, n, nm) -> objs w1 !! k' = objs w !! k')
      as Hframe.
    { intros k' Hne. subst w1. simpl.
      destruct written; [|done]. by rewrite lookup_insert_ne. }
    assert (forall d', d' ∈ docs -> resource_key d' <> Some (p, n, nm))
      as Hother.
    { intros d' Hd' Hk'. apply Hfresh.
      apply list_elem_of_omap. eauto. }
    destruct (IH w1 Hkeys Hnd Hapi) as (w' & Hloop & Hc' & Hl' & Hown & Hrest).
    { by rewrite <- Hf. }
    { intros d' k' Hd' Hk'. rewrite Hframe.
      - apply (Ho d'); [by right|done].
      - intros ->. by apply (Hother d'). }
    exists w'. split; [done|].
    split; [rewrite Hc'; subst w1; simpl; by rewrite <- app_assoc|].
    split; [rewrite Hl'; subst w1; simpl; by rewrite <- app_assoc|].
    split.
    + intros d' k' [->|Hd']%elem_of_cons Hk'.
      * rewrite Hk in Hk'. injection Hk' as <-.
        rewrite (Hrest _ Hother), <- Hobj, Hrun. done.
      * by apply Hown.
    + intros k' Hk'. rewrite Hrest.
      * apply Hframe. intros ->. by apply (Hk' d); [left|].
      * intros d' Hd'. apply Hk'. by right.
Qed.

(** ** The Enabled path *)

Section Enabled.

Variable repr_container : yaml -> string.
Variable meta : kopf_meta.
Variables namespace name : string.

Local Abbreviation heading :=
  [(INFO, ProcessingIngress name namespace);
   (INFO, Annotations
      (default "not set" (default ∅ (meta_annotations meta) !! ENABLED_KEY))
      (default "not set" (default ∅ (meta_annotations meta) !! TARGET_KEY)))].

(** The Enabled path as the source runs it: one read of the ingress, no
    call to the store, no patch; it returns normally whatever happens. *)
Lemma reconcile_enabled_run w :
  cf_enabled (default ∅ (meta_annotations meta)) = true ->
  exists ls,
    reconcile_ingress repr_container meta namespace name w =
    (Ok tt,
     after w (objs w) [ReadIngress name namespace] (heading ++ ls)) /\
    ((forall i, ingresses w !! (namespace, name) = Some i ->
        ing_lb i = None \/ ing_lb i = Some []) ->
     exists e, ls = [(ERROR, FailedToRetrieveHostname name e)]).
Proof.
  intros H. unfold reconcile_ingress. rewrite H.
  unfold mbind at 1, M_bind, logger_info at 1.
  unfold mbind at 1, M_bind, logger_info at 1.
  unfold try_except, read_namespaced_ingress, api_call.
  unfold mbind at 1, M_bind. simpl.
  destruct (faults w (ReadIngress name namespace)) as [e|] eqn:Hf.
  { eexists. split; [unfold logger_error; by world_eq|]. eauto. }
  destruct (ingresses w !! (namespace, name)) as [i|] eqn:Hi.
  2:{ eexists. split; [unfold logger_error; by world_eq|]. eauto. }
  unfold mbind at 1, M_bind, lift.
  destruct (first_hostname i) as [dns|e] eqn:Hh.
  2:{ eexists. split; [unfold logger_error; by world_eq|]. eauto. }
  unfold mbind at 1, M_bind, logger_info at 1.
  unfold load_and_patch_template, read_template, mbind, M_bind, lift. simpl.
  assert (~ (ing_lb i = None \/ ing_lb i = Some [])) as Hno.
  { unfold first_hostname in Hh. intros [Hl|Hl]; by rewrite Hl in Hh. }
  destruct (template_file w) as [docs|].
  - destruct (patch_docs _ _ _ _ docs).
    + exists [(INFO, RetrievedHostname dns)]. split; [by world_eq|].
      intros Hl. destruct Hno. by apply Hl.
    + eexists [_; _]. split; [unfold logger_error; by world_eq|].
      intros Hl. destruct Hno. by apply Hl.
  - eexists [_; _]. split; [unfold logger_error; by world_eq|].
    intros Hl. destruct Hno. by apply Hl.
Qed.

(** C9 (as the code has it): on a tick whose desired state is Enabled
    while the endpoint has no load-balancer entry (the list is missing or
    empty, or the ingress is gone), the engine issues no call to
    the store and no patch of the ingress (its only call reads the
    ingress), leaves resources and annotations as they are, logs the
    failure to retrieve the hostname and returns normally. *)
Theorem enabled_without_hostname_skips w :
  cf_enabled (default ∅ (meta_annotations meta)) = true ->
  (forall i, ingresses w !! (namespace, name) = Some i ->
     ing_lb i = None \/ ing_lb i = Some []) ->
  exists w' e,
    reconcile_ingress repr_container meta namespace name w = (Ok tt, w') /\
    calls w' = calls w ++ [ReadIngress name namespace] /\
    objs w' = objs w /\
    ingresses w' = ingresses w /\
    log w' = log w ++ heading ++ [(ERROR, FailedToRetrieveHostname name e)].
Proof.
  intros He Hl. destruct (reconcile_enabled_run w He) as (ls & Hrun & Hls).
  destruct (Hls Hl) as [e ->].
  eexists _, e. split; [exact Hrun|]. done.
Qed.

End Enabled.

(** ** Skipped documents *)

Lemma kind_test_false_no_key doc :
  kind_test doc = Ok false -> resource_key doc = None.
Proof.
  unfold kind_test, resource_key. intros H.
  destruct (dict_get doc "kind" YNull) as [[| | |kind| |]|]; try done.
  injection H as H. apply bool_decide_eq_false in H.
  destruct (get_path [Key "metadata"; Key "namespace"] doc)
    as [[| | |ns| |]|]; try done.
  destruct (get_path [Key "metadata"; Key "name"] doc)
    as [[| | |nm| |]|]; try done.
  destruct (assoc_get kind PLURAL_MAP) eqn:Hp; [|done].
  destruct H. change (is_Some (assoc_get kind PLURAL_MAP)). by rewrite Hp.
Qed.

(** C7: a template document whose kind fails the registry test is skipped
    by the materializer without error: it yields no output, the output is
    that of the template without it, and it is not a member of any
    materialized set; given to the create routine, it causes no API call
    and no change at all. *)
Theorem unregistered_kind_is_skipped
    (repr_container : yaml -> string) (namespace ingress_name : string)
    (alb_dns doc : yaml) :
  kind_test doc = Ok false ->
  patch_doc repr_container namespace ingress_name alb_dns doc = Ok None /\
  (forall pre post,
     patch_docs repr_container namespace ingress_name alb_dns
       (pre ++ doc :: post)
     = patch_docs repr_container namespace ingress_name alb_dns
         (pre ++ post)) /\
  (forall docs out,
     patch_docs repr_container namespace ingress_name alb_dns docs = Ok out ->
     doc ∉ out) /\
  (forall w, (create_or_update_crd doc w).2 = w).
Proof.
  intros Hk. split; [by apply patch_doc_none|].
  split; [intros; by apply patch_docs_skip|]. split.
  - intros docs out H Hin. apply patch_docs_filter in H.
    destruct (proj1 (list_elem_of_lookup _ _) Hin) as [i Hi].
    destruct (Forall2_lookup_r _ _ _ _ _ H Hi) as (d & _ & Hd).
    destruct (patch_doc_shape _ _ _ _ _ _ Hd) as (Hkd & Hkind & _).
    unfold kind_test in Hk, Hkd. rewrite Hkind in Hk. congruence.
  - intros w. apply create_or_update_crd_no_key.
    by apply kind_test_false_no_key.
Qed.

(** ** Idempotence of the Enabled path *)

Lemma create_or_update_crd_calls doc w :
  exists cs,
    calls (create_or_update_crd doc w).2 = calls w ++ cs /\
    (cs = [] \/
     exists plural ns nm,
       resource_key doc = Some (plural, ns, nm) /\
       (cs = [GetObj plural ns nm] \/
        cs = [GetObj plural ns nm; CreateObj plural ns doc])).
Proof.
  destruct (resource_key doc) as [[[p n] nm]|] eqn:Hk.
  - destruct (resource_key_kind _ _ Hk) as [kind Hkind].
    rewrite (create_or_update_crd_run _ _ _ _ _ w Hkind Hk).
    pose proof (crd_summary_check_first (faults w)
      (bool_decide (is_Some (objs w !! (p, n, nm)))) p n nm kind doc) as H.
    destruct (crd_summary _ _ _ _ _ _ _) as [[[r cs] ls] written].
    simpl in *. exists cs. split; [done|]. right. eauto.
  - rewrite (create_or_update_crd_no_key _ _ Hk). exists [].
    split; [by rewrite app_nil_r|by left].
Qed.

Lemma existence_check_gets docs :
  Forall (fun c => exists plural ns nm, c = GetObj plural ns nm)
         (flat_map existence_check docs).
Proof.
  apply Forall_flat_map, Forall_forall. intros d _. unfold existence_check.
  destruct (resource_key d) as [[[p n] nm]|]; repeat constructor. eauto.
Qed.

Lemma already_exists_lines docs :
  Forall (fun l => exists kind nm, l = (INFO, AlreadyExists kind nm))
         (flat_map already_exists_line docs).
Proof.
  apply Forall_flat_map, Forall_forall. intros d _.
  unfold already_exists_line.
  destruct (resource_key d) as [[[p n] nm]|]; [|constructor].
  destruct (dict_get d "kind" YNull); repeat constructor. eauto.
Qed.

(** C6: running the Enabled path twice gives the resource set of running
    it once.  For the tick as the source runs it: both runs leave the store
    as it is and issue no create.  For the per-resource routine over the
    materialized resources, with no API failure: the second run leaves the
    store as the first run left it, issues one existence check per resource
    and no create, and logs "already exists" for each.  In every world, a
    create issued by the routine comes right after the existence check of
    the same resource. *)
Theorem enabled_path_idempotent
    (repr_container : yaml -> string) (meta : kopf_meta)
    (namespace name : string) (alb_dns : yaml) (docs : list yaml) w :
  cf_enabled (default ∅ (meta_annotations meta)) = true ->
  no_faults w ->
  load_and_patch_template repr_container namespace name alb_dns w
    = (Ok docs, w) ->
  (exists w1 w2,
     reconcile_ingress repr_container meta namespace name w = (Ok tt, w1) /\
     reconcile_ingress repr_container meta namespace name w1 = (Ok tt, w2) /\
     objs w1 = objs w /\ objs w2 = objs w1 /\
     calls w2 = calls w ++ [ReadIngress name namespace;
                            ReadIngress name namespace]) /\
  (exists w1 w2,
     create_or_update_crds docs w = (Ok tt, w1) /\
     create_or_update_crds docs w1 = (Ok tt, w2) /\
     objs w2 = objs w1 /\
     calls w2 = calls w1 ++ flat_map existence_check docs /\
     log w2 = log w1 ++ flat_map already_exists_line docs /\
     length (flat_map existence_check docs) = length docs /\
     Forall (fun c => exists plural ns nm, c = GetObj plural ns nm)
            (flat_map existence_check docs) /\
     Forall (fun l => exists kind nm, l = (INFO, AlreadyExists kind nm))
            (flat_map already_exists_line docs)) /\
  (forall d w0, exists cs,
     calls (create_or_update_crd d w0).2 = calls w0 ++ cs /\
     (cs = [] \/
      exists plural ns nm,
        resource_key d = Some (plural, ns, nm) /\
        (cs = [GetObj plural ns nm] \/
         cs = [GetObj plural ns nm; CreateObj plural ns d]))).
Proof.
  intros He Hf Hload. split; [|split].
  - destruct (reconcile_enabled_run repr_container meta namespace name w He)
      as (ls1 & H1 & _).
    eexists. rewrite H1.
    destruct (reconcile_enabled_run repr_container meta namespace name
                (after w (objs w) [ReadIngress name namespace]
                   ([(INFO, ProcessingIngress name namespace);
                     (INFO, Annotations
                        (default "not set"
                           (default ∅ (meta_annotations meta) !! ENABLED_KEY))
                        (default "not set"
                           (default ∅ (meta_annotations meta) !! TARGET_KEY)))]
                    ++ ls1)) He)
      as (ls2 & H2 & _).
    eexists. rewrite H2. repeat split. simpl. by rewrite <- app_assoc.
  - apply load_and_patch_template_ok in Hload as (_ & tpl & _ & Hp).
    apply patch_docs_keyed in Hp.
    assert (Forall (fun d => is_Some (resource_key d)) docs) as Hkeys.
    { eapply Forall_impl; [exact Hp|]. intros d (p & nm & ->). eauto. }
    destruct (create_or_update_crds_no_faults docs w Hkeys Hf)
      as (w1 & H1 & Hf1 & _ & Hall).
    assert (no_faults w1) as Hnf1 by (intros c; rewrite Hf1; apply Hf).
    exists w1. eexists. split; [done|].
    rewrite create_or_update_crds_present; [|
      apply Forall_forall; intros d Hd;
      destruct (proj1 (Forall_forall _ _) Hkeys d Hd) as [k Hk];
      exists k; split; [done|]; by eapply Hall | done].
    split; [done|]. split; [done|]. split; [done|]. split; [done|].
    split; [|split; [apply existence_check_gets|apply already_exists_lines]].
    clear -Hkeys. induction Hkeys as [|d docs [[[p n] nm] Hk] _ IH]; [done|].
    cbn [flat_map]. rewrite length_app. unfold existence_check at 1.
    rewrite Hk. simpl. by rewrite IH.
  - intros d w0. apply create_or_update_crd_calls.
Qed.

(** ** Existence after the Enabled path *)

(** C1 (as the code has it): on a tick whose desired state is Enabled the
    engine reads the ingress and materializes the template, but it issues
    no call to the store and leaves the store as it is.  The per-resource
    routine checks the existence of a resource first, logs when it is
    present and creates it when it is absent; run over the materialized
    resources while no API call fails, it leaves every one of them in the
    store, without touching what was there. *)
Theorem enabled_path_existence
    (repr_container : yaml -> string) (meta : kopf_meta)
    (namespace name : string) (alb_dns : yaml) (docs : list yaml) w :
  cf_enabled (default ∅ (meta_annotations meta)) = true ->
  no_faults w ->
  load_and_patch_template repr_container namespace name alb_dns w
    = (Ok docs, w) ->
  (exists w',
     reconcile_ingress repr_container meta namespace name w = (Ok tt, w') /\
     objs w' = objs w /\
     calls w' = calls w ++ [ReadIngress name namespace]) /\
  (exists w',
     create_or_update_crds docs w = (Ok tt, w') /\
     (forall d, d ∈ docs ->
        exists plural nm,
          resource_key d = Some (plural, namespace, nm) /\
          is_Some (objs w' !! (plural, namespace, nm))) /\
     (forall k v, objs w !! k = Some v -> objs w' !! k = Some v)) /\
  (forall d w1, d ∈ docs -> no_faults w1 ->
     exists plural nm kind,
       resource_key d = Some (plural, namespace, nm) /\
       create_or_update_crd d w1 =
       (Ok tt,
        match objs w1 !! (plural, namespace, nm) with
        | Some _ =>
            after w1 (objs w1) [GetObj plural namespace nm]
              [(INFO, AlreadyExists (YStr kind) (YStr nm))]
        | None =>
            after w1 (<[(plural, namespace, nm) := d]> (objs w1))
              [GetObj plural namespace nm; CreateObj plural namespace d]
              [(INFO, Created (YStr kind) (YStr nm))]
        end)).
Proof.
  intros He Hf Hload.
  apply load_and_patch_template_ok in Hload as (_ & tpl & _ & Hp).
  apply patch_docs_keyed in Hp.
  assert (Forall (fun d => is_Some (resource_key d)) docs) as Hkeys.
  { eapply Forall_impl; [exact Hp|]. intros d (p & nm & ->). eauto. }
  split; [|split].
  - destruct (reconcile_enabled_run repr_container meta namespace name w He)
      as (ls & H & _).
    eexists. split; [exact H|]. done.
  - destruct (create_or_update_crds_no_faults docs w Hkeys Hf)
      as (w' & H & _ & Hmono & Hall).
    exists w'. split; [done|]. split; [|done].
    intros d Hd.
    destruct (proj1 (Forall_forall _ _) Hp d Hd) as (p & nm & Hk).
    exists p, nm. split; [done|]. by eapply Hall.
  - intros d w1 Hd Hf1.
    destruct (proj1 (Forall_forall _ _) Hp d Hd) as (p & nm & Hk).
    destruct (resource_key_kind _ _ Hk) as [kind Hkind].
    exists p, nm, kind. split; [done|].
    by apply create_or_update_crd_no_faults.
Qed.

(** ** Scopes of failure isolation *)

Lemma NoDup_fmap_snd_inj {A B} (l : list (A * B)) e e' :
  NoDup l.*2 -> e ∈ l -> e' ∈ l -> e.2 = e'.2 -> e = e'.
Proof.
  induction l as [|x l IH]; intros Hnd He He' Heq;
    [by apply elem_of_nil in He|].
  cbn [fmap list_fmap] in Hnd. apply NoDup_cons in Hnd as [Hx Hnd].
  apply elem_of_cons in He as [->|He];
    apply elem_of_cons in He' as [->|He']; try done.
  - destruct Hx. rewrite Heq. apply list_elem_of_fmap. eauto.
  - destruct Hx. rewrite <- Heq. apply list_elem_of_fmap. eauto.
  - by apply IH.
Qed.

Lemma lookup_foldl_delete_all_own (namespace : string)
    (D : string * string -> list string)
    (entries : list (string * string))
    (o : gmap (string * string * string) yaml) (e : string * string)
    (nm : string) :
  NoDup entries.*2 -> e ∈ entries ->
  foldl (fun o e => delete_all e.2 namespace (D e) o) o entries
    !! (e.2, namespace, nm)
  = delete_all e.2 namespace (D e) o !! (e.2, namespace, nm).
Proof.
  intros Hnd He. destruct (decide (nm ∈ D e)) as [Hin|Hnin].
  - rewrite (lookup_foldl_delete_all_eq namespace D entries o e nm He Hin).
    by rewrite lookup_delete_all_eq.
  - rewrite lookup_foldl_delete_all_ne.
    + rewrite lookup_delete_all_ne; [done|]. intros nm' Hnm' [= ->]. done.
    + intros e' nm' He' Hnm' [= Heq ->].
      assert (e = e') as <- by by eapply NoDup_fmap_snd_inj.
      done.
Qed.

(** With API errors only, the loop reaches every resource: each gets its
    existence check, whatever happened to the others. *)
Lemma create_or_update_crds_attempts docs w :
  Forall (fun d => is_Some (resource_key d)) docs ->
  api_faults_only w ->
  exists w' cs,
    create_or_update_crds docs w = (Ok tt, w') /\
    calls w' = calls w ++ cs /\
    forall d, d ∈ docs ->
      exists plural ns nm,
        resource_key d = Some (plural, ns, nm) /\ GetObj plural ns nm ∈ cs.
Proof.
  unfold create_or_update_crds. revert w.
  induction docs as [|d docs IH]; intros w Hkeys Hapi.
  - exists w, []. split; [done|]. split; [by rewrite app_nil_r|].
    by intros d H%elem_of_nil.
  - apply Forall_cons in Hkeys as [[[[p n] nm] Hk] Hkeys].
    destruct (resource_key_kind _ _ Hk) as [kind Hkind].
    pose proof (create_or_update_crd_run _ _ _ _ _ w Hkind Hk) as Hrun.
    pose proof (crd_summary_api_faults (faults w)
      (bool_decide (is_Some (objs w !! (p, n, nm)))) p n nm kind d Hapi)
      as Hok.
    pose proof (crd_summary_check_first (faults w)
      (bool_decide (is_Some (objs w !! (p, n, nm)))) p n nm kind d) as Hcs.
    destruct (crd_summary _ _ _ _ _ _ _) as [[[r cs] ls] written].
    simpl in Hok, Hcs. subst r.
    cbn [for_each]. unfold mbind at 1, M_bind. rewrite Hrun.
    set (w1 := after w _ cs ls).
    destruct (IH w1 Hkeys) as (w' & cs' & Hloop & Hc' & Hall); [exact Hapi|].
    exists w', (cs ++ cs'). split; [done|].
    split; [rewrite Hc'; subst w1; simpl; by rewrite <- app_assoc|].
    intros d' [->|Hd']%elem_of_cons.
    + exists p, n, nm. split; [done|]. apply elem_of_app. left.
      destruct Hcs as [-> | ->]; by left.
    + destruct (Hall d' Hd') as (p' & n' & nm' & Hk' & Hin).
      exists p', n', nm'. split; [done|]. apply elem_of_app. by right.
Qed.

(** A failed delete ends the inner loop: the names listed before it that
    carry the prefix are deleted, the names listed after it are not
    reached. *)
Lemma delete_summary_abort f kind plural ns pre_fix before nm rest err :
  String.prefix pre_fix nm = true ->
  f (DeleteObj plural ns nm) = Some err ->
  (forall x, x ∈ before -> String.prefix pre_fix x = true ->
     f (DeleteObj plural ns x) = None) ->
  delete_summary f kind plural ns pre_fix (before ++ nm :: rest) =
  (Raise err,
   ((fun x => DeleteObj plural ns x)
      <$> List.filter (String.prefix pre_fix) before)
   ++ [DeleteObj plural ns nm],
   (fun x => (INFO, Deleted kind x))
     <$> List.filter (String.prefix pre_fix) before,
   List.filter (String.prefix pre_fix) before).
Proof.
  intros Hp Hf Hbefore. induction before as [|b before IH]; simpl.
  - by rewrite Hp, Hf.
  - destruct (String.prefix pre_fix b) eqn:Hb.
    + rewrite (Hbefore b) by (by left || done).
      rewrite IH; [done|]. intros x Hx. apply Hbefore. by right.
    + apply IH. intros x Hx. apply Hbefore. by right.
Qed.

(** C8 (as the code has it): in the create routine run over resources
    that have store addresses, while the store fails with API errors only,
    a failure on one resource does not stop the loop: every resource gets
    its existence check.  When the addresses are pairwise distinct, the
    calls, the log lines and the stored result of every resource are those
    of the routine run on that resource alone, which depend only on the
    presence of that resource and on the faults of its own two calls.  On
    the Disabled path the scope of isolation is the kind, whatever fails:
    in every world the round of every kind runs (its collection is listed)
    and does what it would do run alone; a failed listing leaves the
    resources of that kind in place; a failed delete ends the round of its
    kind, so that the resources listed after it get no delete call and
    stay in the store. *)
Theorem failure_isolation_scopes
    (docs : list yaml) (namespace ingress_name : string) w :
  Forall (fun d => is_Some (resource_key d)) docs ->
  api_faults_only w ->
  (exists w' cs,
     create_or_update_crds docs w = (Ok tt, w') /\
     calls w' = calls w ++ cs /\
     forall d, d ∈ docs ->
       exists plural ns nm,
         resource_key d = Some (plural, ns, nm) /\
         GetObj plural ns nm ∈ cs) /\
  (NoDup (omap resource_key docs) ->
   exists w',
     create_or_update_crds docs w = (Ok tt, w') /\
     calls w' =
       calls w ++ flat_map (fun d => new_calls (create_or_update_crd d) w) docs
     /\
     log w' =
       log w ++ flat_map (fun d => new_log (create_or_update_crd d) w) docs /\
     (forall d k, d ∈ docs -> resource_key d = Some k ->
        objs w' !! k = objs (create_or_update_crd d w).2 !! k)) /\
  (forall d plural ns nm w2,
     resource_key d = Some (plural, ns, nm) ->
     objs w !! (plural, ns, nm) = objs w2 !! (plural, ns, nm) ->
     faults w (GetObj plural ns nm) = faults w2 (GetObj plural ns nm) ->
     faults w (CreateObj plural ns d) = faults w2 (CreateObj plural ns d) ->
     (create_or_update_crd d w).1 = (create_or_update_crd d w2).1 /\
     new_calls (create_or_update_crd d) w
     = new_calls (create_or_update_crd d) w2 /\
     new_log (create_or_update_crd d) w
     = new_log (create_or_update_crd d) w2 /\
     objs (create_or_update_crd d w).2 !! (plural, ns, nm)
     = objs (create_or_update_crd d w2).2 !! (plural, ns, nm)) /\
  (forall w0, exists w',
     for_each PLURAL_MAP (remove_kind namespace ingress_name) w0
       = (Ok tt, w') /\
     calls w' =
       calls w0
       ++ flat_map
            (fun e => new_calls (remove_kind namespace ingress_name e) w0)
            PLURAL_MAP /\
     log w' =
       log w0
       ++ flat_map
            (fun e => new_log (remove_kind namespace ingress_name e) w0)
            PLURAL_MAP /\
     (forall e nm, e ∈ PLURAL_MAP ->
        objs w' !! (e.2, namespace, nm)
        = objs (remove_kind namespace ingress_name e w0).2
            !! (e.2, namespace, nm)) /\
     (forall e, e ∈ PLURAL_MAP ->
        ListObj e.2 namespace
        ∈ new_calls (remove_kind namespace ingress_name e) w0)) /\
  (forall w0 kind plural err,
     faults w0 (ListObj plural namespace) = Some err ->
     remove_kind namespace ingress_name (kind, plural) w0 =
     (Ok tt,
      after w0 (objs w0) [ListObj plural namespace]
        [(ERROR, ErrorDeleting kind err)])) /\
  (forall w0 kind plural before nm rest err,
     faults w0 (ListObj plural namespace) = None ->
     names_in plural namespace (objs w0) = before ++ nm :: rest ->
     String.prefix (namespace +:+ "-" +:+ ingress_name +:+ "-") nm = true ->
     (forall x, x ∈ before ->
        String.prefix (namespace +:+ "-" +:+ ingress_name +:+ "-") x = true ->
        faults w0 (DeleteObj plural namespace x) = None) ->
     faults w0 (DeleteObj plural namespace nm) = Some err ->
     let deleted :=
       List.filter
         (String.prefix (namespace +:+ "-" +:+ ingress_name +:+ "-"))
         before in
     let cs :=
       ListObj plural namespace
       :: ((fun x => DeleteObj plural namespace x) <$> deleted)
       ++ [DeleteObj plural namespace nm] in
     let w' := (remove_kind namespace ingress_name (kind, plural) w0).2 in
     remove_kind namespace ingress_name (kind, plural) w0 =
     (Ok tt,
      after w0 (delete_all plural namespace deleted (objs w0)) cs
        (((fun x => (INFO, Deleted kind x)) <$> deleted)
         ++ [(ERROR, ErrorDeleting kind err)])) /\
     forall x, x ∈ nm :: rest ->
       (x ∈ rest -> DeleteObj plural namespace x ∉ cs) /\
       is_Some (objs w0 !! (plural, namespace, x)) /\
       objs w' !! (plural, namespace, x)
       = objs w0 !! (plural, namespace, x)).
Proof.
  intros Hkeys Hapi. split; [|split; [|split; [|split; [|split]]]].
  - by apply create_or_update_crds_attempts.
  - intros Hnd.
    destruct (create_or_update_crds_isolated docs w w Hkeys Hnd Hapi eq_refl)
      as (w' & H & Hc & Hl & Hown & _); [done|].
    exists w'. done.
  - intros d p n nm w2. apply create_or_update_crd_local.
  - intros w0.
    assert (forall e,
      remove_kind namespace ingress_name e w0 =
      (Ok tt,
       after w0
         (delete_all e.2 namespace
            (kind_round w0 namespace ingress_name e).2 (objs w0))
         (kind_round w0 namespace ingress_name e).1.1
         (kind_round w0 namespace ingress_name e).1.2)) as Hone.
    { intros [kind plural]. rewrite remove_kind_run. unfold kind_round.
      simpl. by destruct (remove_kind_summary _ _ _ _ _ _) as [[cs ls] ds]. }
    eexists. split.
    { apply (remove_loop_run namespace ingress_name PLURAL_MAP w0 w0
               NoDup_plurals eq_refl (fun _ _ _ => eq_refl)). }
    unfold after. cbn [calls log objs].
    split; [|split; [|split]].
    + f_equal. apply flat_map_ext. intros e.
      symmetry. eapply new_calls_after, Hone.
    + f_equal. apply flat_map_ext. intros e.
      symmetry. eapply new_log_after, Hone.
    + intros e nm He. rewrite Hone. unfold after. cbn [snd objs].
      apply (lookup_foldl_delete_all_own namespace
               (fun e => (kind_round w0 namespace ingress_name e).2));
        [apply NoDup_plurals | done].
    + intros e He. rewrite (new_calls_after _ _ _ _ _ _ (Hone e)).
      unfold kind_round, remove_kind_summary.
      destruct (faults w0 (ListObj e.2 namespace)); simpl; [by left|].
      destruct (delete_summary _ _ _ _ _ _) as [[[r cs] ls] ds]. by left.
  - intros w0 kind plural err Hl. rewrite remove_kind_run.
    unfold remove_kind_summary. by rewrite Hl.
  - intros w0 kind plural before nm rest err Hl Hnames Hp Hbefore Hd.
    cbv zeta.
    assert (remove_kind namespace ingress_name (kind, plural) w0 =
      (Ok tt,
       after w0
         (delete_all plural namespace
            (List.filter
               (String.prefix (namespace +:+ "-" +:+ ingress_name +:+ "-"))
               before) (objs w0))
         (ListObj plural namespace
          :: ((fun x => DeleteObj plural namespace x)
                <$> List.filter
                      (String.prefix
                         (namespace +:+ "-" +:+ ingress_name +:+ "-"))
                      before)
          ++ [DeleteObj plural namespace nm])
         (((fun x => (INFO, Deleted kind x))
             <$> List.filter
                   (String.prefix
                      (namespace +:+ "-" +:+ ingress_name +:+ "-"))
                   before)
          ++ [(ERROR, ErrorDeleting kind err)]))) as Hrun.
    { rewrite remove_kind_run. unfold remove_kind_summary.
      rewrite Hl, Hnames.
      by rewrite (delete_summary_abort _ _ _ _ _ _ _ _ _ Hp Hd Hbefore). }
    split; [exact Hrun|]. rewrite Hrun. simpl.
    pose proof (NoDup_names_in plural namespace (objs w0)) as Hnd.
    rewrite Hnames in Hnd.
    apply NoDup_app in Hnd as (_ & Hdisj & Hnd2).
    apply NoDup_cons in Hnd2 as [Hnm _].
    intros x Hx.
    assert (x ∉ before) as Hxb.
    { intros Hin. by apply (Hdisj x Hin). }
    split; [|split].
    + intros Hrest [Hin|Hin]%elem_of_cons; [done|].
      apply elem_of_app in Hin as [Hin|Hin].
      * apply list_elem_of_fmap in Hin as (y & [= ->] & Hy).
        apply elem_of_filter_prefix in Hy as [Hy _]. done.
      * apply elem_of_cons in Hin as [[= ->]|Hin]; [done|].
        by apply elem_of_nil in Hin.
    + apply elem_of_names_in. rewrite Hnames.
      apply elem_of_app. by right.
    + apply lookup_delete_all_ne. intros y Hy [= ->].
      by apply elem_of_filter_prefix in Hy as [Hy _].
Qed.

(** ** The materializer returns on well-formed templates *)

Lemma getitem_setitem_ok v s child x :
  getitem v s = Ok child ->
  (exists m, v = YMap m) \/ (exists l, v = YSeq l) ->
  exists v', setitem v s x = Ok v'.
Proof.
  intros Hg [[m ->]|[l ->]]; destruct s as [k|i]; simpl in *; try done.
  - eauto.
  - destruct (l !! i) eqn:Hl; [|done].
    apply lookup_lt_Some in Hl. case_decide; [eauto|done].
Qed.

Lemma get_path_str p t v :
  get_path p (YStr t) = Ok v -> exists t', v = YStr t'.
Proof.
  revert t. induction p as [|s p IH]; intros t; simpl.
  - intros [= <-]. eauto.
  - destruct s as [k|i]; simpl; [done|].
    destruct (String.get i t); simpl; [apply IH|done].
Qed.

(** Assigning a key in a dictionary found at the end of a chain
    succeeds, and the chain then leads to the updated dictionary. *)
Lemma set_path_dict p k x v m :
  get_path p v = Ok (YMap m) ->
  exists v', set_path p (Key k) x v = Ok v' /\
             get_path p v' = Ok (YMap (assoc_set k x m)).
Proof.
  revert v. induction p as [|s0 p IH]; intros v; simpl.
  - intros [= ->]. simpl. eauto.
  - destruct (getitem v s0) as [child|] eqn:Hc; simpl; [|done].
    intros Hp. destruct (IH child Hp) as (child' & Hs & Hg'). rewrite Hs.
    simpl.
    assert ((exists m, v = YMap m) \/ (exists l, v = YSeq l)) as Hv.
    { destruct v; eauto; destruct s0; simpl in Hc; try done.
      destruct (String.get i s); [|done]. injection Hc as <-.
      by apply get_path_str in Hp as [t' Ht']. }
    destruct (getitem_setitem_ok v s0 child child' Hc Hv) as [v' Hv'].
    exists v'. split; [done|].
    by rewrite (getitem_setitem_eq _ _ _ _ Hv').
Qed.

Lemma dict_at_frame p s x v v' q :
  set_path p s x v = Ok v' -> diverge (p ++ [s]) q ->
  dict_at q v -> dict_at q v'.
Proof.
  intros Hs Hd [m Hm]. exists m.
  by rewrite (get_set_path_frame _ _ _ _ _ _ Hs Hd).
Qed.

Lemma bind_Ok {A B} (a : A) (k : A -> result B) : Ok a ≫= k = k a.
Proof. done. Qed.

Lemma patch_distribution_ok namespace ingress_name alb_dns doc :
  dict_at DISTRIBUTION_CONFIG doc -> dict_at FIRST_ORIGIN doc ->
  dict_at DEFAULT_CACHE_BEHAVIOR doc ->
  exists out, patch_distribution namespace ingress_name alb_dns doc = Ok out.
Proof.
  intros [m1 H1] H2 H3. unfold patch_distribution.
  destruct (set_path_dict _ "comment"
              (YStr ("CloudFront for ALB " +:+ namespace +:+ "-"
                     +:+ ingress_name)) _ _ H1) as (d1 & Hs1 & _).
  rewrite Hs1, bind_Ok.
  apply (dict_at_frame _ _ _ _ _ _ Hs1) in H2 as [m2 H2]; [|diverging].
  apply (dict_at_frame _ _ _ _ _ _ Hs1) in H3; [|diverging].
  destruct (set_path_dict _ "id"
              (YStr (origin_id_of namespace ingress_name)) _ _ H2)
    as (d2 & Hs2 & H2').
  rewrite Hs2, bind_Ok.
  apply (dict_at_frame _ _ _ _ _ _ Hs2) in H3; [|diverging].
  destruct (set_path_dict _ "domainName" alb_dns _ _ H2') as (d3 & Hs3 & _).
  rewrite Hs3, bind_Ok.
  apply (dict_at_frame _ _ _ _ _ _ Hs3) in H3 as [m3 H3]; [|diverging].
  destruct (set_path_dict _ "targetOriginId"
              (YStr (origin_id_of namespace ingress_name)) _ _ H3)
    as (d4 & Hs4 & _).
  eauto.
Qed.

Lemma patch_doc_ok repr_container namespace ingress_name alb_dns doc :
  template_doc_ok doc ->
  exists r, patch_doc repr_container namespace ingress_name alb_dns doc = Ok r.
Proof.
  unfold template_doc_ok. destruct (kind_test doc) as [[]|] eqn:Hk; [| |done].
  2:{ intros _. exists None. by apply patch_doc_none. }
  intros [[meta Hmeta] Hdist]. simpl in Hmeta.
  unfold kind_test in Hk. unfold patch_doc.
  destruct doc as [| | | | |fields]; try done. simpl in *.
  set (kind := match assoc_get "kind" fields with
               | Some v => v | None => YNull end) in *.
  rewrite Hk. simpl. injection Hmeta as ->. simpl.
  destruct (str_eq kind "Distribution") eqn:Hd; [|eauto].
  destruct kind as [| | |k| |]; try done. simpl in Hd.
  apply String.eqb_eq in Hd as ->.
  destruct (Hdist eq_refl) as ((m1 & H1) & (m2 & H2) & (m3 & H3)).
  match goal with
  | |- context [patch_distribution _ _ _ ?d] =>
      destruct (patch_distribution_ok namespace ingress_name alb_dns d)
        as [out Hout]
  end.
  - exists m1. simpl in *. by rewrite assoc_get_set_ne.
  - exists m2. simpl in *. by rewrite assoc_get_set_ne.
  - exists m3. simpl in *. by rewrite assoc_get_set_ne.
  - rewrite Hout. simpl. eauto.
Qed.

(** On a template of well-formed documents the materializer returns. *)
Lemma patch_docs_ok repr_container namespace ingress_name alb_dns docs :
  Forall template_doc_ok docs ->
  exists out,
    patch_docs repr_container namespace ingress_name alb_dns docs = Ok out.
Proof.
  induction 1 as [|doc docs Hd _ [out IH]]; simpl; [eauto|].
  destruct (patch_doc_ok repr_container namespace ingress_name alb_dns doc Hd)
    as [r ->].
  simpl. rewrite IH. simpl. eauto.
Qed.

(** When the template file can be read and all its documents are well
    formed, [load_and_patch_template] returns a list of documents. *)
Lemma load_and_patch_template_returns
    repr_container namespace ingress_name alb_dns docs w :
  template_file w = Some docs ->
  Forall template_doc_ok docs ->
  exists out,
    load_and_patch_template repr_container namespace ingress_name alb_dns w
    = (Ok out, w).
Proof.
  intros Hf Hd.
  destruct (patch_docs_ok repr_container namespace ingress_name alb_dns
              docs Hd) as [out Hout].
  exists out.
  unfold load_and_patch_template, read_template, mbind, M_bind, lift.
  by rewrite Hf, Hout.
Qed.

(** A tick never raises: whatever the annotations, the answers of the
    server, the faults and the template, every exception of either path is
    caught. *)
Lemma reconcile_ingress_returns repr_container meta namespace name w :
  (reconcile_ingress repr_container meta namespace name w).1 = Ok tt.
Proof.
  destruct (cf_enabled (default ∅ (meta_annotations meta))) eqn:He.
  - destruct (reconcile_enabled_run repr_container meta namespace name w He)
      as (ls & -> & _).
    done.
  - rewrite (reconcile_disabled repr_container meta namespace name w He).
    destruct (remove_crds_and_patch_run namespace name
                (after w (objs w) []
                   [(INFO, ProcessingIngress name namespace);
                    (INFO, Annotations
                       (default "not set"
                          (default ∅ (meta_annotations meta) !! ENABLED_KEY))
                       (default "not set"
                          (default ∅ (meta_annotations meta) !! TARGET_KEY)))]))
      as (w' & -> & _).
    done.
Qed.

(** ** The properties on the sample inputs *)

Lemma sample_docs_loaded w :
  template_file w = Some sample_template ->
  load_and_patch_template sample_repr "ns" "app" (YStr "alb.example.com") w
  = (Ok sample_docs, w).
Proof.
  intros H. unfold load_and_patch_template, read_template, mbind, M_bind, lift.
  by rewrite H.
Qed.

(** The Enabled tick on an empty store: the hostname is resolved and the
    template yields five resources, yet after the tick none of them is in
    the store, and no existence check was made. *)
Lemma enabled_tick_creates_nothing :
  let w' := (reconcile_ingress sample_repr enabled_meta "ns" "app"
               sample_world).2 in
  cf_enabled (default ∅ (meta_annotations enabled_meta)) = true /\
  load_and_patch_template sample_repr "ns" "app" (YStr "alb.example.com")
    sample_world = (Ok sample_docs, sample_world) /\
  log w' = [(INFO, ProcessingIngress "app" "ns");
            (INFO, Annotations "True" "not set");
            (INFO, RetrievedHostname (YStr "alb.example.com"))] /\
  calls w' = [ReadIngress "app" "ns"] /\
  ~ (forall d k, d ∈ sample_docs -> resource_key d = Some k ->
       is_Some (objs w' !! k)).
Proof.
  split; [done|]. split; [done|]. split; [by vm_compute|].
  split; [by vm_compute|].
  intros H.
  destruct (H (hd YNull sample_docs)
              ("distributions", "ns", "ns-app-distribution"))
    as [v Hv]; [by left|done|].
  vm_compute in Hv. discriminate Hv.
Qed.

(** The Disabled tick when the deletion of "ns-app-a" fails: "ns-app-b",
    whose deletion would not fail, is never attempted and stays in the
    store; the rounds of the other kinds and the patch still run. *)
Lemma delete_failure_skips_rest_of_kind :
  let w' := (reconcile_ingress sample_repr disabled_meta "ns" "app"
               faulty_teardown_world).2 in
  faults faulty_teardown_world (DeleteObj "distributions" "ns" "ns-app-b")
    = None /\
  teardown_target "ns" "app" ("distributions", "ns", "ns-app-b") = true /\
  calls w' = [ListObj "distributions" "ns";
              DeleteObj "distributions" "ns" "ns-app-a";
              ListObj "functions" "ns"; ListObj "cachepolicies" "ns";
              ListObj "originrequestpolicies" "ns"; ListObj "keygroups" "ns";
              PatchIngress "app" "ns" None] /\
  objs w' !! ("distributions", "ns", "ns-app-b")
    = Some (sample_resource "Distribution" "ns-app-b").
Proof. repeat split; by vm_compute. Qed.

(** The create routine when the second of five resources fails: the other
    four are created. *)
Example create_failure_is_isolated :
  let w' := (create_or_update_crds sample_docs faulty_create_world).2 in
  log w' =
    [(INFO, Created (YStr "Distribution") (YStr "ns-app-distribution"));
     (ERROR, FailedToCreate (YStr "Function") (YStr "ns-app-viewer-request")
               (ApiException 500));
     (INFO, Created (YStr "CachePolicy") (YStr "ns-app-cache"));
     (INFO, Created (YStr "OriginRequestPolicy") (YStr "ns-app-cf-object"));
     (INFO, Created (YStr "KeyGroup") (YStr "ns-app-keys"))] /\
  objs w' !! ("functions", "ns", "ns-app-viewer-request") = None /\
  Forall (fun k => is_Some (objs w' !! k))
    [ ("distributions", "ns", "ns-app-distribution");
      ("cachepolicies", "ns", "ns-app-cache");
      ("originrequestpolicies", "ns", "ns-app-cf-object");
      ("keygroups", "ns", "ns-app-keys") ].
Proof.
  split; [by vm_compute|]. split; [by vm_compute|].
  repeat constructor; vm_compute; eauto.
Qed.

Lemma materialized_name_spec_witness :
  load_and_patch_template sample_repr "ns" "app" (YStr "alb.example.com")
    sample_world = (Ok sample_docs, sample_world) /\
  exists docs, template_file sample_world = Some docs /\
    Forall2
      (fun doc o =>
         get_path [Key "metadata"; Key "name"] o
         = Ok (YStr (materialized_name sample_repr "ns" "app" doc)))
      (List.filter registered docs) sample_docs.
Proof.
  split; [reflexivity|].
  exact (proj1 (materialized_name_spec sample_repr "ns" "app"
                  (YStr "alb.example.com") sample_world sample_docs
                  sample_world eq_refl)).
Defined.

Lemma distribution_origin_spec_witness :
  load_and_patch_template sample_repr "ns" "app" (YStr "alb.example.com")
    sample_world = (Ok sample_docs, sample_world) /\
  hd YNull sample_docs ∈ sample_docs /\
  dict_get (hd YNull sample_docs) "kind" YNull = Ok (YStr "Distribution") /\
  get_path (FIRST_ORIGIN ++ [Key "id"]) (hd YNull sample_docs)
    = Ok (YStr "ns-app-origin") /\
  get_path (DEFAULT_CACHE_BEHAVIOR ++ [Key "targetOriginId"])
    (hd YNull sample_docs) = Ok (YStr "ns-app-origin") /\
  get_path (FIRST_ORIGIN ++ [Key "domainName"]) (hd YNull sample_docs)
    = Ok (YStr "alb.example.com").
Proof.
  split; [reflexivity|]. split; [apply list_elem_of_here|].
  split; [reflexivity|].
  exact (distribution_origin_spec sample_repr "ns" "app"
           (YStr "alb.example.com") sample_world sample_docs sample_world
           eq_refl (hd YNull sample_docs) (list_elem_of_here _ _) eq_refl).
Defined.

Lemma disabled_tick_deletes_exactly_witness :
  cf_enabled (default ∅ (meta_annotations disabled_meta)) = false /\
  no_faults teardown_world /\
  exists w',
    reconcile_ingress sample_repr disabled_meta "ns" "app" teardown_world
    = (Ok tt, w') /\
    (forall k,
       objs w' !! k
       = if teardown_target "ns" "app" k then None
         else objs teardown_world !! k).
Proof.
  split; [reflexivity|]. split; [intros c; reflexivity|].
  destruct (disabled_tick_deletes_exactly sample_repr disabled_meta "ns" "app"
              teardown_world eq_refl (fun c => eq_refl))
    as (w' & Hrun & Hobjs & _).
  exists w'. split; [exact Hrun | exact Hobjs].
Defined.

Lemma enabled_path_idempotent_witness :
  cf_enabled (default ∅ (meta_annotations enabled_meta)) = true /\
  no_faults sample_world /\
  load_and_patch_template sample_repr "ns" "app" (YStr "alb.example.com")
    sample_world = (Ok sample_docs, sample_world) /\
  exists w1 w2,
    create_or_update_crds sample_docs sample_world = (Ok tt, w1) /\
    create_or_update_crds sample_docs w1 = (Ok tt, w2) /\
    objs w2 = objs w1 /\
    calls w2 = calls w1 ++ flat_map existence_check sample_docs.
Proof.
  split; [reflexivity|]. split; [intros c; reflexivity|].
  split; [reflexivity|].
  destruct (enabled_path_idempotent sample_repr enabled_meta "ns" "app"
              (YStr "alb.example.com") sample_docs sample_world
              eq_refl (fun c => eq_refl) eq_refl)
    as (_ & (w1 & w2 & H1 & H2 & Ho & Hc & _) & _).
  exists w1, w2. repeat split; assumption.
Defined.

Lemma unregistered_kind_is_skipped_witness :
  kind_test (sample_resource "Unknown" "note") = Ok false /\
  patch_doc sample_repr "ns" "app" (YStr "alb.example.com")
    (sample_resource "Unknown" "note") = Ok None /\
  sample_resource "Unknown" "note" ∉ sample_docs.
Proof.
  split; [reflexivity|].
  destruct (unregistered_kind_is_skipped sample_repr "ns" "app"
              (YStr "alb.example.com") (sample_resource "Unknown" "note")
              eq_refl)
    as (Hnone & _ & Hout & _).
  split; [exact Hnone|]. exact (Hout sample_template sample_docs eq_refl).
Defined.

Lemma faulty_create_world_api_faults : api_faults_only faulty_create_world.
Proof.
  intros c e. destruct c; simpl; try discriminate.
  destruct (String.eqb plural "functions"); [|discriminate].
  intros [= <-]. reflexivity.
Defined.

Lemma failure_isolation_scopes_witness :
  Forall (fun d => is_Some (resource_key d)) sample_docs /\
  api_faults_only faulty_create_world /\
  NoDup (omap resource_key sample_docs) /\
  exists w',
    create_or_update_crds sample_docs faulty_create_world = (Ok tt, w') /\
    log w' =
      log faulty_create_world
      ++ flat_map (fun d => new_log (create_or_update_crd d)
                              faulty_create_world) sample_docs.
Proof.
  assert (Forall (fun d => is_Some (resource_key d)) sample_docs) as Hk.
  { repeat constructor; vm_compute; eauto. }
  assert (NoDup (omap resource_key sample_docs)) as Hnd.
  { apply (bool_decide_unpack (NoDup (omap resource_key sample_docs))).
    vm_compute. exact I. }
  split; [exact Hk|]. split; [exact faulty_create_world_api_faults|].
  split; [exact Hnd|].
  destruct (failure_isolation_scopes sample_docs "ns" "app"
              faulty_create_world Hk faulty_create_world_api_faults)
    as (_ & Hiso & _).
  destruct (Hiso Hnd) as (w' & Hrun & _ & Hlog & _).
  exists w'. split; [exact Hrun | exact Hlog].
Defined.

(** The Enabled tick when the only load-balancer entry has no hostname:
    the endpoint has no hostname assigned, yet the tick logs a retrieved
    hostname, [None], and no error. *)
Lemma enabled_hostless_entry_logs_no_skip :
  let w' := (reconcile_ingress sample_repr enabled_meta "ns" "app"
               ip_only_world).2 in
  cf_enabled (default ∅ (meta_annotations enabled_meta)) = true /\
  ingresses ip_only_world !! ("ns", "app")
  = Some {| ing_annotations := {[ ENABLED_KEY := "True" ]};
            ing_lb := Some [None] |} /\
  log w' = [(INFO, ProcessingIngress "app" "ns");
            (INFO, Annotations "True" "not set");
            (INFO, RetrievedHostname YNull)] /\
  ~ (exists l m, (l, m) ∈ log w' /\ l = ERROR).
Proof.
  assert (log (reconcile_ingress sample_repr enabled_meta "ns" "app"
                 ip_only_world).2
          = [(INFO, ProcessingIngress "app" "ns");
             (INFO, Annotations "True" "not set");
             (INFO, RetrievedHostname YNull)]) as Hlog by by vm_compute.
  split; [done|]. split; [done|]. split; [exact Hlog|].
  cbv zeta. rewrite Hlog. intros (l & m & Hin & ->).
  repeat (apply elem_of_cons in Hin as [Hin|Hin]; [discriminate Hin|]).
  by apply elem_of_nil in Hin.
Qed.

Lemma pending_world_no_hostname i :
  ingresses pending_world !! ("ns", "app") = Some i ->
  ing_lb i = None \/ ing_lb i = Some [].
Proof. intros [= <-]. right. reflexivity. Defined.

Lemma enabled_without_hostname_skips_witness :
  cf_enabled (default ∅ (meta_annotations enabled_meta)) = true /\
  (forall i, ingresses pending_world !! ("ns", "app") = Some i ->
     ing_lb i = None \/ ing_lb i = Some []) /\
  exists w' e,
    reconcile_ingress sample_repr enabled_meta "ns" "app" pending_world
    = (Ok tt, w') /\
    calls w' = calls pending_world ++ [ReadIngress "app" "ns"] /\
    objs w' = objs pending_world /\
    ingresses w' = ingresses pending_world /\
    log w' = log pending_world
             ++ [(INFO, ProcessingIngress "app" "ns");
                 (INFO, Annotations "True" "not set")]
             ++ [(ERROR, FailedToRetrieveHostname "app" e)].
Proof.
  split; [reflexivity|]. split; [exact pending_world_no_hostname|].
  exact (enabled_without_hostname_skips sample_repr enabled_meta "ns" "app"
           pending_world eq_refl pending_world_no_hostname).
Defined.

Lemma enabled_path_existence_witness :
  cf_enabled (default ∅ (meta_annotations enabled_meta)) = true /\
  no_faults sample_world /\
  load_and_patch_template sample_repr "ns" "app" (YStr "alb.example.com")
    sample_world = (Ok sample_docs, sample_world) /\
  exists w',
    create_or_update_crds sample_docs sample_world = (Ok tt, w') /\
    (forall d, d ∈ sample_docs ->
       exists plural nm,
         resource_key d = Some (plural, "ns", nm) /\
         is_Some (objs w' !! (plural, "ns", nm))).
Proof.
  split; [reflexivity|]. split; [intros c; reflexivity|].
  split; [reflexivity|].
  destruct (enabled_path_existence sample_repr enabled_meta "ns" "app"
              (YStr "alb.example.com") sample_docs sample_world
              eq_refl (fun c => eq_refl) eq_refl)
    as (_ & (w' & Hrun & Hall & _) & _).
  exists w'. split; [exact Hrun | exact Hall].
Defined.

Example sample_template_ok : Forall template_doc_ok sample_template.
Proof.
  repeat (apply Forall_cons; split); try apply Forall_nil.
  all: unfold template_doc_ok, dict_at; simpl; try done.
  all: split; [by eauto|]; intros H; try discriminate H.
  repeat split; eauto.
Qed.

(** * Further properties of the controller *)

(** ** The materializer, document by document *)

Section MaterializerDetails.

Variable repr_container : yaml -> string.
Variables namespace ingress_name : string.
Variable alb_dns : yaml.

(** The document before its kind-specific patch: the template document
    with [namespace] and [name] written into its metadata. *)
Lemma patch_doc_inv doc out :
  patch_doc repr_container namespace ingress_name alb_dns doc
    = Ok (Some out) ->
  exists fields mm0,
    doc = YMap fields /\
    default (YMap []) (assoc_get "metadata" fields) = YMap mm0 /\
    let named :=
      YMap (assoc_set "metadata"
              (YMap (assoc_set "name"
                       (YStr (materialized_name repr_container namespace
                                ingress_name doc))
                       (assoc_set "namespace" (YStr namespace) mm0)))
              fields) in
    if str_eq (default YNull (assoc_get "kind" fields)) "Distribution"
    then patch_distribution namespace ingress_name alb_dns named = Ok out
    else out = named.
Proof.
  unfold patch_doc. intros H.
  destruct doc as [| | | | |fields]; try discriminate. simpl in H.
  set (kind := match assoc_get "kind" fields with
               | Some v => v | None => YNull end) in *.
  destruct (in_plural_map kind) as [[]|]; simpl in H; try discriminate.
  bind_inv H. rename a into meta1. bind_inv H. rename a into base.
  bind_inv H. rename a into meta2. bind_inv H.
  injection H as <-.
  assert (exists mm0, match assoc_get "metadata" fields with
                      | Some v => v | None => YMap [] end = YMap mm0
                      /\ default (YStr "cf-object")
                           (template_name (YMap fields)) =
                         default (YStr "cf-object") (assoc_get "name" mm0))
    as (mm0 & Hm & Hn).
  { unfold template_name. simpl.
    destruct (assoc_get "metadata" fields) as [v|]; simpl.
    - destruct v; try discriminate. eexists; split; [done|]. simpl.
      by destruct (assoc_get "name" fields0).
    - by eexists. }
  rewrite Hm in Ha. simpl in Ha. injection Ha as <-.
  simpl in Ha0. rewrite assoc_get_set_ne in Ha0 by discriminate.
  simpl in Ha1. injection Ha1 as <-.
  exists fields, mm0. split; [done|]. split; [exact Hm|].
  change (default YNull (assoc_get "kind" fields)) with kind.
  assert (materialized_name repr_container namespace ingress_name
            (YMap fields)
          = namespace +:+ "-" +:+ ingress_name +:+ "-"
            +:+ py_str repr_container base) as ->.
  { unfold materialized_name. rewrite Hn.
    destruct (assoc_get "name" mm0); simpl in *; injection Ha0 as <-; done. }
  cbv zeta. destruct (str_eq kind "Distribution"); congruence.
Qed.

Lemma patch_distribution_comment named out :
  patch_distribution namespace ingress_name alb_dns named = Ok out ->
  get_path (DISTRIBUTION_CONFIG ++ [Key "comment"]) out
  = Ok (YStr ("CloudFront for ALB " +:+ namespace +:+ "-" +:+ ingress_name)).
Proof.
  unfold patch_distribution. intros H. do 3 bind_inv H.
  rewrite (get_set_path_frame _ _ _ _ _ _ H) by diverging.
  rewrite (get_set_path_frame _ _ _ _ _ _ Ha1) by diverging.
  rewrite (get_set_path_frame _ _ _ _ _ _ Ha0) by diverging.
  exact (get_set_path_eq _ _ _ _ _ Ha).
Qed.

End MaterializerDetails.

Section MaterializedDocuments.

Variable repr_container : yaml -> string.
Variables namespace ingress_name : string.
Variable alb_dns : yaml.

(** Every materialized resource has an address in the store: the
    collection of its (unchanged) kind, the endpoint's namespace and the
    materialized name. *)
Theorem materialized_resource_address w out w' :
  load_and_patch_template repr_container namespace ingress_name alb_dns w
    = (Ok out, w') ->
  exists docs, template_file w = Some docs /\
    Forall2
      (fun doc o =>
         dict_get o "kind" YNull = dict_get doc "kind" YNull /\
         get_path [Key "metadata"; Key "namespace"] o = Ok (YStr namespace) /\
         exists plural,
           resource_key o
           = Some (plural, namespace,
                   materialized_name repr_container namespace ingress_name
                     doc))
      (List.filter registered docs) out.
Proof.
  intros H. apply load_and_patch_template_ok in H as (_ & docs & Hf & H).
  exists docs. split; [done|]. apply patch_docs_filter in H.
  eapply Forall2_impl; [exact H|]. intros doc o Ho.
  destruct (patch_doc_shape _ _ _ _ _ _ Ho) as (Hk & Hkind & Hnm & Hns).
  split; [done|]. split; [done|].
  unfold resource_key. rewrite Hkind, Hnm, Hns.
  unfold kind_test in Hk.
  destruct (dict_get doc "kind" YNull) as [[| | |kind| |]|]; try done.
  injection Hk as Hk. apply bool_decide_eq_true in Hk as [p Hp].
  change (assoc_get kind PLURAL_MAP = Some p) in Hp.
  rewrite Hp. eauto.
Qed.

(** The comment written into a materialized Distribution names the
    endpoint. *)
Theorem distribution_comment_spec w out w' :
  load_and_patch_template repr_container namespace ingress_name alb_dns w
    = (Ok out, w') ->
  forall o, o ∈ out ->
    dict_get o "kind" YNull = Ok (YStr "Distribution") ->
    get_path (DISTRIBUTION_CONFIG ++ [Key "comment"]) o
    = Ok (YStr ("CloudFront for ALB " +:+ namespace +:+ "-"
                +:+ ingress_name)).
Proof.
  intros H o Ho Hk.
  apply load_and_patch_template_ok in H as (_ & docs & _ & H).
  apply patch_docs_filter in H.
  destruct (proj1 (list_elem_of_lookup _ _) Ho) as [i Hi].
  destruct (Forall2_lookup_r _ _ _ _ _ H Hi) as (doc & _ & Hd).
  destruct (patch_doc_shape _ _ _ _ _ _ Hd) as (_ & Hkind & _).
  rewrite Hk in Hkind.
  destruct (patch_doc_inv _ _ _ _ _ _ Hd) as (fields & mm0 & -> & _ & Hp).
  cbv zeta in Hp. simpl in Hkind. injection Hkind as Hkind.
  change (default YNull (assoc_get "kind" fields))
    with (match assoc_get "kind" fields with Some v => v | None => YNull end)
    in Hp.
  rewrite <- Hkind in Hp. simpl in Hp.
  by apply patch_distribution_comment in Hp.
Qed.

(** One document that cannot be patched makes the whole materialization
    fail, with the error of the first such document; no partial set comes
    out. *)
Theorem materializer_fails_as_a_whole pre doc post e w :
  template_file w = Some (pre ++ doc :: post) ->
  Forall (fun d => exists r,
            patch_doc repr_container namespace ingress_name alb_dns d = Ok r)
         pre ->
  patch_doc repr_container namespace ingress_name alb_dns doc = Raise e ->
  load_and_patch_template repr_container namespace ingress_name alb_dns w
  = (Raise e, w).
Proof.
  intros Hf Hpre Hd.
  unfold load_and_patch_template, read_template, mbind, M_bind, lift.
  rewrite Hf. f_equal. clear Hf.
  induction Hpre as [|d pre [r Hr] _ IH]; simpl.
  - by rewrite Hd.
  - by rewrite Hr, bind_Ok, IH.
Qed.

(** The documents the materializer cannot process, and the error each
    raises: a document that is not a dictionary, a kind that cannot be
    looked up, metadata that is not a dictionary, a Distribution without
    [spec], a Distribution without a first origin. *)
Theorem malformed_documents :
  (forall doc,
     (forall fields, doc <> YMap fields) ->
     patch_doc repr_container namespace ingress_name alb_dns doc
     = Raise AttributeError) /\
  (forall doc kind,
     dict_get doc "kind" YNull = Ok kind ->
     (exists l, kind = YSeq l) \/ (exists m, kind = YMap m) ->
     patch_doc repr_container namespace ingress_name alb_dns doc
     = Raise TypeError) /\
  (forall doc meta,
     kind_test doc = Ok true ->
     dict_get doc "metadata" (YMap []) = Ok meta ->
     (forall m, meta <> YMap m) ->
     patch_doc repr_container namespace ingress_name alb_dns doc
     = Raise TypeError) /\
  (forall doc,
     dict_get doc "kind" YNull = Ok (YStr "Distribution") ->
     dict_at [] (match dict_get doc "metadata" (YMap []) with
                 | Ok meta => meta | Raise _ => YNull end) ->
     getitem doc (Key "spec") = Raise KeyError ->
     patch_doc repr_container namespace ingress_name alb_dns doc
     = Raise KeyError) /\
  (forall doc,
     dict_get doc "kind" YNull = Ok (YStr "Distribution") ->
     dict_at [] (match dict_get doc "metadata" (YMap []) with
                 | Ok meta => meta | Raise _ => YNull end) ->
     dict_at DISTRIBUTION_CONFIG doc ->
     get_path [Key "spec"; Key "distributionConfig"; Key "origins";
               Key "items"] doc = Ok (YSeq []) ->
     patch_doc repr_container namespace ingress_name alb_dns doc
     = Raise IndexError).
Proof.
  split; [|split; [|split; [|split]]].
  - intros doc Hd. unfold patch_doc.
    destruct doc; try done. by destruct (Hd fields).
  - intros doc kind Hk Hkind. unfold patch_doc. rewrite Hk, bind_Ok.
    destruct doc; try done. simpl.
    by destruct Hkind as [[l ->]|[m ->]].
  - intros doc meta Hk Hm Hmeta. unfold patch_doc, kind_test in *.
    destruct (dict_get doc "kind" YNull) as [kind|]; [|done].
    change (in_plural_map kind = Ok true) in Hk.
    rewrite bind_Ok, Hm, bind_Ok, Hk, bind_Ok. simpl.
    destruct meta; try done. by destruct (Hmeta fields).
  - intros doc Hk [mm Hm] Hs. unfold patch_doc. rewrite Hk, bind_Ok.
    destruct doc as [| | | | |fields]; try done. simpl in Hm, Hs |- *.
    injection Hm as ->. simpl.
    unfold patch_distribution, DISTRIBUTION_CONFIG. simpl.
    rewrite assoc_get_set_ne by discriminate.
    by destruct (assoc_get "spec" fields).
  - intros doc Hk [mm Hm] Hdc Hitems. unfold patch_doc. rewrite Hk, bind_Ok.
    destruct doc as [| | | | |fields]; try done. simpl in Hm |- *.
    injection Hm as ->. simpl.
    set (named := YMap (assoc_set "metadata" _ fields)).
    assert (forall q, get_path (Key "spec" :: q) named
                      = get_path (Key "spec" :: q) (YMap fields)) as Hnamed.
    { intros q. simpl. by rewrite assoc_get_set_ne by discriminate. }
    destruct Hdc as [m1 H1]. unfold DISTRIBUTION_CONFIG in H1.
    rewrite <- Hnamed in H1, Hitems.
    unfold patch_distribution.
    destruct (set_path_dict _ "comment"
                (YStr ("CloudFront for ALB " +:+ namespace +:+ "-"
                       +:+ ingress_name)) _ _ H1) as (d1 & Hs1 & _).
    unfold DISTRIBUTION_CONFIG. rewrite Hs1, bind_Ok.
    rewrite <- (get_set_path_frame _ _ _ _ _ _ Hs1) in Hitems by diverging.
    clear -Hitems. unfold FIRST_ORIGIN. simpl in *.
    destruct (getitem d1 (Key "spec")) as [v1|]; [|done]. simpl in *.
    destruct (getitem v1 (Key "distributionConfig")) as [v2|]; [|done].
    simpl in *.
    destruct (getitem v2 (Key "origins")) as [v3|]; [|done]. simpl in *.
    destruct (getitem v3 (Key "items")) as [v4|]; [|done]. simpl in *.
    by injection Hitems as ->.
Qed.

End MaterializedDocuments.

(** ** Patching the ingress *)

Lemma patch_ingress_run namespace ingress_name cf_domain w :
  patch_ingress namespace ingress_name cf_domain w =
  (Ok tt,
   match faults w (PatchIngress ingress_name namespace (Some cf_domain)),
         ingresses w !! (namespace, ingress_name) with
   | Some e, _ =>
       after w (objs w) [PatchIngress ingress_name namespace (Some cf_domain)]
         [(ERROR, FailedToPatchIngress e)]
   | None, None =>
       after w (objs w) [PatchIngress ingress_name namespace (Some cf_domain)]
         [(ERROR, FailedToPatchIngress (ApiException 404))]
   | None, Some i =>
       set_ingresses
         (<[(namespace, ingress_name) := set_target cf_domain i]>
            (ingresses w))
         (after w (objs w)
            [PatchIngress ingress_name namespace (Some cf_domain)]
            [(INFO, PatchedIngress ingress_name cf_domain)])
   end).
Proof.
  unfold patch_ingress, try_except, patch_namespaced_ingress, api_call,
    logger_info, logger_error, mbind, M_bind.
  destruct (faults w _) as [e|]; simpl; [by world_eq|].
  destruct (ingresses w !! _) as [i|]; simpl; by world_eq.
Qed.

(** [patch_ingress] never raises and makes exactly one call, a patch that
    sets the DNS-target annotation; the store and the other ingresses are
    left alone.  When the call is served, the annotation of the ingress is
    the given domain and its other annotations are as before; when it
    fails, or the ingress is gone, nothing changes and an error is
    logged. *)
Theorem patch_ingress_spec namespace ingress_name cf_domain w :
  exists w',
    patch_ingress namespace ingress_name cf_domain w = (Ok tt, w') /\
    calls w' =
      calls w ++ [PatchIngress ingress_name namespace (Some cf_domain)] /\
    objs w' = objs w /\
    (forall k, k <> (namespace, ingress_name) ->
       ingresses w' !! k = ingresses w !! k) /\
    match faults w (PatchIngress ingress_name namespace (Some cf_domain)),
          ingresses w !! (namespace, ingress_name) with
    | None, Some i =>
        (exists i',
           ingresses w' !! (namespace, ingress_name) = Some i' /\
           ing_annotations i' !! TARGET_KEY = Some cf_domain /\
           (forall a, a <> TARGET_KEY ->
              ing_annotations i' !! a = ing_annotations i !! a) /\
           ing_lb i' = ing_lb i) /\
        log w' = log w ++ [(INFO, PatchedIngress ingress_name cf_domain)]
    | Some e, _ =>
        ingresses w' = ingresses w /\
        log w' = log w ++ [(ERROR, FailedToPatchIngress e)]
    | None, None =>
        ingresses w' = ingresses w /\
        log w' = log w ++ [(ERROR, FailedToPatchIngress (ApiException 404))]
    end.
Proof.
  rewrite patch_ingress_run. eexists. split; [reflexivity|].
  destruct (faults w _) as [e|]; [by repeat split|].
  destruct (ingresses w !! (namespace, ingress_name)) as [i|] eqn:Hi;
    [|by repeat split].
  simpl. split; [done|]. split; [done|]. split.
  { intros k Hk. by rewrite lookup_insert_ne. }
  split; [|done]. exists (set_target cf_domain i).
  rewrite lookup_insert_eq. split; [done|]. simpl.
  split; [by rewrite lookup_insert_eq|]. split; [|done].
  intros a Ha. by rewrite lookup_insert_ne.
Qed.

(** The last step of the teardown, in a world [w]: one patch that removes
    the DNS-target annotation, logged either way. *)
Lemma remove_crds_and_patch_split namespace ingress_name w :
  exists w1,
    for_each PLURAL_MAP (remove_kind namespace ingress_name) w
      = (Ok tt, w1) /\
    faults w1 = faults w /\ ingresses w1 = ingresses w /\
    remove_crds_and_patch namespace ingress_name w =
    (Ok tt,
     match faults w (PatchIngress ingress_name namespace None),
           ingresses w !! (namespace, ingress_name) with
     | Some e, _ =>
         after w1 (objs w1) [PatchIngress ingress_name namespace None]
           [(ERROR, FailedToRemoveAnnotation e)]
     | None, None =>
         after w1 (objs w1) [PatchIngress ingress_name namespace None]
           [(ERROR, FailedToRemoveAnnotation (ApiException 404))]
     | None, Some i =>
         set_ingresses
           (<[(namespace, ingress_name) := clear_target i]> (ingresses w))
           (after w1 (objs w1) [PatchIngress ingress_name namespace None]
              [(INFO, RemovedTarget ingress_name)])
     end).
Proof.
  pose proof (remove_loop_run namespace ingress_name PLURAL_MAP w w
                NoDup_plurals eq_refl (fun _ _ _ => eq_refl)) as Hloop.
  eexists. split; [exact Hloop|]. split; [done|]. split; [done|].
  unfold remove_crds_and_patch. unfold mbind at 1, M_bind. rewrite Hloop.
  set (w1 := after w _ _ _).
  unfold try_except, patch_namespaced_ingress, api_call, logger_info,
    logger_error, mbind, M_bind.
  change (faults w1) with (faults w).
  destruct (faults w _) as [e|]; simpl; [by world_eq|].
  destruct (ingresses w !! _) as [i|]; simpl; by world_eq.
Qed.

(** When the patch that ends the teardown fails, the deletions made before
    it stand, the annotations are as they were, and the failure is logged,
    not raised. *)
Theorem teardown_survives_patch_failure namespace ingress_name w e :
  faults w (PatchIngress ingress_name namespace None) = Some e ->
  exists w',
    remove_crds_and_patch namespace ingress_name w = (Ok tt, w') /\
    objs w' =
      objs (for_each PLURAL_MAP (remove_kind namespace ingress_name) w).2 /\
    ingresses w' = ingresses w /\
    exists ls,
      log w' = log w ++ ls ++ [(ERROR, FailedToRemoveAnnotation e)].
Proof.
  intros Hf.
  destruct (remove_crds_and_patch_split namespace ingress_name w)
    as (w1 & Hloop & _ & Hi & Hrun).
  rewrite Hf in Hrun. eexists. split; [exact Hrun|].
  rewrite Hloop. simpl. split; [done|]. split; [done|].
  rewrite (remove_loop_run namespace ingress_name PLURAL_MAP w w
             NoDup_plurals eq_refl (fun _ _ _ => eq_refl)) in Hloop.
  injection Hloop as <-. simpl. eexists. by rewrite <- app_assoc.
Qed.

(** Setting the DNS-target annotation with [patch_ingress] and then
    tearing the endpoint down leaves the ingress without the annotation
    and with its other annotations as they were at the start. *)
Theorem set_then_clear_target namespace ingress_name cf_domain w i :
  no_faults w ->
  ingresses w !! (namespace, ingress_name) = Some i ->
  exists w1 w2,
    patch_ingress namespace ingress_name cf_domain w = (Ok tt, w1) /\
    ingresses w1 !! (namespace, ingress_name)
      = Some (set_target cf_domain i) /\
    remove_crds_and_patch namespace ingress_name w1 = (Ok tt, w2) /\
    ingresses w2 !! (namespace, ingress_name) = Some (clear_target i).
Proof.
  intros Hf Hi. rewrite patch_ingress_run, Hf, Hi.
  set (w1 := set_ingresses _ _).
  destruct (remove_crds_and_patch_split namespace ingress_name w1)
    as (w1' & _ & _ & _ & Hrun).
  change (faults w1) with (faults w) in Hrun. rewrite Hf in Hrun.
  assert (ingresses w1 !! (namespace, ingress_name)
          = Some (set_target cf_domain i)) as Hi1.
  { subst w1. simpl. by rewrite lookup_insert_eq. }
  rewrite Hi1 in Hrun.
  eexists _, _. split; [reflexivity|]. split; [exact Hi1|].
  split; [exact Hrun|]. simpl. rewrite lookup_insert_eq.
  unfold clear_target, set_target. simpl. by rewrite delete_insert_eq.
Qed.

(** ** The Enabled path, case by case *)

Section EnabledCases.

Variable repr_container : yaml -> string.
Variable meta : kopf_meta.
Variables namespace name : string.

(** Every case of the Enabled path: what is logged after the heading. *)
Lemma reconcile_enabled_cases w :
  cf_enabled (default ∅ (meta_annotations meta)) = true ->
  reconcile_ingress repr_container meta namespace name w =
  (Ok tt,
   after w (objs w) [ReadIngress name namespace]
     (tick_heading meta namespace name ++
      match faults w (ReadIngress name namespace),
            ingresses w !! (namespace, name) with
      | Some e, _ => [(ERROR, FailedToRetrieveHostname name e)]
      | None, None =>
          [(ERROR, FailedToRetrieveHostname name (ApiException 404))]
      | None, Some i =>
          match first_hostname i with
          | Raise e => [(ERROR, FailedToRetrieveHostname name e)]
          | Ok alb_dns =>
              (INFO, RetrievedHostname alb_dns) ::
              match (load_and_patch_template repr_container namespace name
                       alb_dns w).1 with
              | Ok _ => []
              | Raise e => [(ERROR, FailedToRetrieveHostname name e)]
              end
          end
      end)).
Proof.
  intros H. unfold reconcile_ingress. rewrite H.
  unfold mbind at 1, M_bind, logger_info at 1.
  unfold mbind at 1, M_bind, logger_info at 1.
  unfold try_except, read_namespaced_ingress, api_call.
  unfold mbind at 1, M_bind. simpl.
  destruct (faults w (ReadIngress name namespace)) as [e|] eqn:Hf;
    [unfold logger_error; by world_eq|].
  destruct (ingresses w !! (namespace, name)) as [i|] eqn:Hi;
    [|unfold logger_error; by world_eq].
  unfold mbind at 1, M_bind, lift.
  destruct (first_hostname i) as [dns|e] eqn:Hh;
    [|unfold logger_error; by world_eq].
  unfold mbind at 1, M_bind, logger_info at 1.
  unfold load_and_patch_template, read_template, mbind, M_bind, lift. simpl.
  destruct (template_file w) as [docs|];
    [|unfold logger_error; by world_eq].
  destruct (patch_docs _ _ _ _ docs); unfold logger_error; by world_eq.
Qed.

(** An Enabled tick is read-only in every world: whatever the server
    answers and whatever the template holds, it returns normally, its only
    call reads the ingress, and resources and ingresses are left as they
    are. *)
Theorem enabled_tick_is_read_only w :
  cf_enabled (default ∅ (meta_annotations meta)) = true ->
  exists w',
    reconcile_ingress repr_container meta namespace name w = (Ok tt, w') /\
    calls w' = calls w ++ [ReadIngress name namespace] /\
    objs w' = objs w /\
    ingresses w' = ingresses w /\
    template_file w' = template_file w.
Proof.
  intros He. rewrite (reconcile_enabled_cases w He). eexists.
  split; [reflexivity|]. done.
Qed.

(** When the hostname is resolved but the template cannot be
    materialized (missing file, malformed document), the tick logs the
    hostname and then the template's error, under the message of the
    hostname retrieval, and returns normally. *)
Theorem template_failure_is_logged w i alb_dns e :
  cf_enabled (default ∅ (meta_annotations meta)) = true ->
  faults w (ReadIngress name namespace) = None ->
  ingresses w !! (namespace, name) = Some i ->
  first_hostname i = Ok alb_dns ->
  (load_and_patch_template repr_container namespace name alb_dns w).1
    = Raise e ->
  reconcile_ingress repr_container meta namespace name w =
  (Ok tt,
   after w (objs w) [ReadIngress name namespace]
     (tick_heading meta namespace name ++
      [(INFO, RetrievedHostname alb_dns);
       (ERROR, FailedToRetrieveHostname name e)])).
Proof.
  intros He Hf Hi Hh Hl. rewrite (reconcile_enabled_cases w He).
  by rewrite Hf, Hi, Hh, Hl.
Qed.


End EnabledCases.

(** ** The create routine, case by case *)

Lemma crd_summary_written f present plural ns nm kind doc :
  (crd_summary f present plural ns nm kind doc).2 = true ->
  present = false /\ f (CreateObj plural ns doc) = None.
Proof.
  unfold crd_summary.
  destruct (f (CreateObj plural ns doc)) as [e2|];
    destruct (f (GetObj plural ns nm)) as [e|];
    repeat match goal with
           | |- context [if ?b then _ else _] => destruct b
           end; simpl; try done.
Qed.

Lemma create_or_update_crd_keeps doc w k v :
  objs w !! k = Some v -> objs (create_or_update_crd doc w).2 !! k = Some v.
Proof.
  intros Hv. destruct (resource_key doc) as [[[p n] nm]|] eqn:Hk.
  - destruct (resource_key_kind _ _ Hk) as [kind Hkind].
    rewrite (create_or_update_crd_run _ _ _ _ _ w Hkind Hk).
    pose proof (crd_summary_written (faults w)
      (bool_decide (is_Some (objs w !! (p, n, nm)))) p n nm kind doc) as Hw.
    destruct (crd_summary _ _ _ _ _ _ _) as [[[r cs] ls] written].
    simpl in *. destruct written; [|done].
    destruct Hw as [Hw _]; [done|]. apply bool_decide_eq_false in Hw.
    rewrite lookup_insert_ne; [done|]. intros <-. apply Hw. eauto.
  - by rewrite (create_or_update_crd_no_key _ _ Hk).
Qed.

(** The create routine never overwrites and never removes: whatever the
    documents and whatever fails, a resource that is in the store before
    the loop is in it afterwards, unchanged. *)
Theorem create_never_overwrites docs w k v :
  objs w !! k = Some v ->
  objs (create_or_update_crds docs w).2 !! k = Some v.
Proof.
  unfold create_or_update_crds. revert w.
  induction docs as [|d docs IH]; intros w Hv; [done|].
  cbn [for_each]. unfold mbind, M_bind.
  pose proof (create_or_update_crd_keeps d w k v Hv) as H1.
  destruct (create_or_update_crd d w) as [[[]|e] w1]; simpl in *; [|done].
  by apply IH.
Qed.

(** A create is issued exactly when the existence check answered 404:
    the resource is absent, or the check failed with that status.  Any
    other answer (found, or another error) ends the routine for this
    resource without a create. *)
Theorem create_only_after_not_found doc plural ns nm w :
  resource_key doc = Some (plural, ns, nm) ->
  CreateObj plural ns doc ∈ new_calls (create_or_update_crd doc) w <->
  faults w (GetObj plural ns nm) = Some (ApiException 404) \/
  (faults w (GetObj plural ns nm) = None /\
   objs w !! (plural, ns, nm) = None).
Proof.
  intros Hk. destruct (resource_key_kind _ _ Hk) as [kind Hkind].
  pose proof (create_or_update_crd_run _ _ _ _ _ w Hkind Hk) as Hrun.
  unfold crd_summary in Hrun.
  assert (forall c : call, c ∈ [GetObj plural ns nm]
                           -> c <> CreateObj plural ns doc) as Hget.
  { intros c [->|[]%elem_of_nil]%elem_of_cons. done. }
  assert (CreateObj plural ns doc
          ∈ [GetObj plural ns nm; CreateObj plural ns doc]) as Hcreate.
  { right. left. }
  destruct (faults w (GetObj plural ns nm)) as [e|] eqn:Hg.
  - destruct e as [status| | | | | | |];
      try (simpl in Hrun; rewrite (new_calls_after _ _ _ _ _ _ Hrun);
           split; [intros H; by destruct (Hget _ H)|by intros [?|[? _]]]).
    simpl in Hrun. destruct (status =? 404)%Z eqn:Hs.
    + apply Z.eqb_eq in Hs as ->. split; [by left|]. intros _.
      destruct (faults w (CreateObj plural ns doc)) as [e2|].
      * destruct (is_api_exception e2);
          by rewrite (new_calls_after _ _ _ _ _ _ Hrun).
      * destruct (bool_decide _);
          by rewrite (new_calls_after _ _ _ _ _ _ Hrun).
    + apply Z.eqb_neq in Hs. rewrite (new_calls_after _ _ _ _ _ _ Hrun).
      split; [intros H; by destruct (Hget _ H)|].
      intros [[= ->]|[? _]]; done.
  - destruct (objs w !! (plural, ns, nm)) as [v|] eqn:Ho.
    + rewrite bool_decide_eq_true_2 in Hrun by eauto.
      rewrite (new_calls_after _ _ _ _ _ _ Hrun).
      split; [intros H; by destruct (Hget _ H)|by intros [?|[_ ?]]].
    + rewrite bool_decide_eq_false_2 in Hrun by (by intros [? ?]).
      split; [by right|]. intros _.
      destruct (faults w (CreateObj plural ns doc)) as [e2|].
      * destruct (is_api_exception e2);
          by rewrite (new_calls_after _ _ _ _ _ _ Hrun).
      * by rewrite (new_calls_after _ _ _ _ _ _ Hrun).
Qed.

(** An error of the store that is not an [ApiException] is not caught by
    the routine: it ends the whole loop at that resource, nothing is
    logged for it and the resources after it get no call. *)
Theorem non_api_error_aborts_create_loop doc rest plural ns nm e w :
  resource_key doc = Some (plural, ns, nm) ->
  is_api_exception e = false ->
  (faults w (GetObj plural ns nm) = Some e ->
   create_or_update_crds (doc :: rest) w
   = (Raise e, after w (objs w) [GetObj plural ns nm] [])) /\
  (faults w (GetObj plural ns nm) = None ->
   objs w !! (plural, ns, nm) = None ->
   faults w (CreateObj plural ns doc) = Some e ->
   create_or_update_crds (doc :: rest) w
   = (Raise e,
      after w (objs w) [GetObj plural ns nm; CreateObj plural ns doc] [])).
Proof.
  intros Hk He. destruct (resource_key_kind _ _ Hk) as [kind Hkind].
  pose proof (create_or_update_crd_run _ _ _ _ _ w Hkind Hk) as Hrun.
  unfold crd_summary in Hrun.
  unfold create_or_update_crds. cbn [for_each]. unfold mbind, M_bind.
  split.
  - intros Hg. rewrite Hg, He in Hrun. by rewrite Hrun.
  - intros Hg Ho Hc. rewrite Hg, Hc, He, Ho in Hrun.
    rewrite bool_decide_eq_false_2 in Hrun by (by intros [? ?]).
    by rewrite Hrun.
Qed.

(** The name and the namespace are read before the kind is looked at: a
    document without them makes the routine raise, before any call, even
    when its kind is not registered. *)
Theorem create_requires_metadata doc kind plural e w :
  dict_get doc "kind" YNull = Ok kind ->
  plural_map_get kind = Ok plural ->
  (get_path [Key "metadata"; Key "name"] doc = Raise e \/
   (exists name, get_path [Key "metadata"; Key "name"] doc = Ok name) /\
   get_path [Key "metadata"; Key "namespace"] doc = Raise e) ->
  create_or_update_crd doc w = (Raise e, w).
Proof.
  intros Hk Hp H. unfold create_or_update_crd.
  unfold mbind at 1, M_bind, lift. rewrite Hk.
  unfold mbind at 1, M_bind, lift. rewrite Hp.
  unfold mbind at 1, M_bind, lift.
  destruct H as [Hn|[[name Hn] Hns]]; rewrite Hn; [done|].
  unfold mbind at 1, M_bind, lift. by rewrite Hns.
Qed.

(** Creating and reading back: after the routine has run without a fault
    on a resource that was absent, the store answers the existence check
    of that resource with the very document that was given. *)
Theorem created_resource_reads_back doc plural ns nm w :
  resource_key doc = Some (plural, ns, nm) ->
  faults w (GetObj plural ns nm) = None ->
  faults w (CreateObj plural ns doc) = None ->
  objs w !! (plural, ns, nm) = None ->
  exists w',
    create_or_update_crd doc w = (Ok tt, w') /\
    get_namespaced_custom_object (YStr ns) plural (YStr nm) w'
    = (Ok doc, add_call (GetObj plural ns nm) w').
Proof.
  intros Hk Hg Hc Ho. destruct (resource_key_kind _ _ Hk) as [kind Hkind].
  pose proof (create_or_update_crd_run _ _ _ _ _ w Hkind Hk) as Hrun.
  unfold crd_summary in Hrun. rewrite Hg, Hc, Ho in Hrun.
  rewrite bool_decide_eq_false_2 in Hrun by (by intros [? ?]).
  eexists. split; [exact Hrun|].
  unfold get_namespaced_custom_object, as_str, api_call, mbind, M_bind, lift.
  simpl. rewrite Hg. by rewrite lookup_insert_eq.
Qed.

(** ** The teardown and the naming convention *)

Lemma string_app_assoc (a b c : string) : (a +:+ b) +:+ c = a +:+ b +:+ c.
Proof.
  induction a as [|x a IH]; [done|].
  change (String x ((a +:+ b) +:+ c) = String x (a +:+ b +:+ c)).
  by rewrite IH.
Qed.

Lemma prefix_app_same (a p q : string) :
  String.prefix (a +:+ p) (a +:+ q) = String.prefix p q.
Proof.
  induction a as [|x a IH]; [done|].
  change (String.prefix (String x (a +:+ p)) (String x (a +:+ q))
          = String.prefix p q).
  simpl. by destruct (ascii_dec x x).
Qed.

Lemma prefix_nil (s : string) : String.prefix "" s = true.
Proof. by destruct s. Qed.

(** A name built for an endpoint starts with the endpoint's prefix. *)
Lemma prefix_of_materialized namespace ingress_name (tail : string) :
  String.prefix (namespace +:+ "-" +:+ ingress_name +:+ "-")
    (namespace +:+ "-" +:+ ingress_name +:+ "-" +:+ tail) = true.
Proof.
  rewrite prefix_app_same.
  change (String.prefix ("-" +:+ ingress_name +:+ "-")
            ("-" +:+ ingress_name +:+ "-" +:+ tail) = true).
  rewrite prefix_app_same, prefix_app_same.
  change ("-" +:+ tail) with (String "-" tail).
  simpl. destruct (ascii_dec "-" "-"); [|done]. apply prefix_nil.
Qed.

Lemma assoc_get_snd {A} (k : string) (v : A) m :
  assoc_get k m = Some v -> v ∈ m.*2.
Proof.
  induction m as [|[k' v'] m IH]; simpl; [done|].
  destruct (String.eqb k k').
  - intros [= ->]. by left.
  - intros H. right. by apply IH.
Qed.

Section TeardownAndNaming.

Variables namespace ingress_name : string.

(** The store after the teardown, whatever failed. *)
Lemma teardown_objs_any w w' k :
  remove_crds_and_patch namespace ingress_name w = (Ok tt, w') ->
  objs w' !! k = objs w !! k \/
  (objs w' !! k = None /\ teardown_target namespace ingress_name k = true /\
   is_Some (objs w !! k)).
Proof.
  intros Hrun.
  destruct (remove_crds_and_patch_run namespace ingress_name w)
    as (w2 & Hrun2 & _ & _ & Ho & _).
  rewrite Hrun in Hrun2. injection Hrun2 as <-. rewrite Ho.
  set (D := fun e => (kind_round w namespace ingress_name e).2).
  destruct k as [[p n] nm].
  destruct (decide (Exists (fun e => e.2 = p /\ n = namespace /\ nm ∈ D e)
                      PLURAL_MAP)) as [Hyes|Hno].
  - apply Exists_exists in Hyes as (e & He & <- & -> & Hnm).
    right. split; [by apply (lookup_foldl_delete_all_eq namespace D)|].
    apply kind_round_deleted in Hnm as [Hin Hp]. split; [|done].
    apply teardown_target_spec. eauto.
  - left. apply (lookup_foldl_delete_all_ne namespace D).
    intros e nm' He Hnm' [= -> -> ->]. apply Hno, Exists_exists. eauto.
Qed.

(** The store after a teardown during which no call failed. *)
Lemma teardown_objs_no_faults w w' k :
  no_faults w ->
  remove_crds_and_patch namespace ingress_name w = (Ok tt, w') ->
  objs w' !! k
  = if teardown_target namespace ingress_name k then None else objs w !! k.
Proof.
  intros Hf Hrun.
  destruct (teardown_objs_any w w' k Hrun) as [Hsame|(Hnone & Ht & _)];
    [|by rewrite Ht].
  destruct (teardown_target namespace ingress_name k) eqn:Ht; [|done].
  destruct (objs w !! k) as [v|] eqn:Hv; [|done].
  destruct (remove_crds_and_patch_run namespace ingress_name w)
    as (w2 & Hrun2 & _ & _ & Ho & _).
  rewrite Hrun in Hrun2. injection Hrun2 as <-. rewrite Ho.
  destruct k as [[p n] nm].
  apply teardown_target_spec in Ht as ((e & He & <-) & -> & Hp).
  apply (lookup_foldl_delete_all_eq namespace
           (fun e => (kind_round w namespace ingress_name e).2)); [done|].
  rewrite kind_round_no_faults by done.
  apply elem_of_filter_prefix. split; [|done].
  apply elem_of_names_in. eauto.
Qed.

(** Whatever fails during the teardown, it never creates or modifies a
    resource, and the only resources it removes are resources of a
    registered kind, in the endpoint's namespace, whose name starts with
    the endpoint's prefix. *)
Theorem teardown_only_removes_its_own w :
  exists w',
    remove_crds_and_patch namespace ingress_name w = (Ok tt, w') /\
    forall k,
      objs w' !! k = objs w !! k \/
      (objs w' !! k = None /\
       teardown_target namespace ingress_name k = true /\
       is_Some (objs w !! k)).
Proof.
  destruct (remove_crds_and_patch_run namespace ingress_name w)
    as (w' & Hrun & _).
  exists w'. split; [done|]. intros k. by apply teardown_objs_any.
Qed.

(** A second teardown right after a first one that met no failure finds
    nothing to delete: it lists every collection, issues no delete,
    patches the ingress and leaves the store as it is. *)
Theorem teardown_twice_deletes_nothing w :
  no_faults w ->
  exists w1 w2,
    remove_crds_and_patch namespace ingress_name w = (Ok tt, w1) /\
    remove_crds_and_patch namespace ingress_name w1 = (Ok tt, w2) /\
    objs w2 = objs w1 /\
    calls w2 =
      calls w1
      ++ ((fun e : string * string => ListObj e.2 namespace) <$> PLURAL_MAP)
      ++ [PatchIngress ingress_name namespace None].
Proof.
  intros Hf.
  destruct (remove_crds_and_patch_run namespace ingress_name w)
    as (w1 & Hrun1 & Hf1 & _).
  assert (no_faults w1) as Hnf1 by (intros c; rewrite Hf1; apply Hf).
  destruct (remove_crds_and_patch_run namespace ingress_name w1)
    as (w2 & Hrun2 & _ & _ & Ho & Hc & _).
  exists w1, w2. split; [done|]. split; [done|].
  assert (forall e, e ∈ PLURAL_MAP ->
            kind_round w1 namespace ingress_name e
            = ([ListObj e.2 namespace], [], [])) as Hround.
  { intros e He. unfold kind_round, remove_kind_summary.
    rewrite Hnf1, delete_summary_no_faults by done.
    assert (List.filter
              (String.prefix (namespace +:+ "-" +:+ ingress_name +:+ "-"))
              (names_in e.2 namespace (objs w1)) = []) as ->; [|done].
    apply elem_of_nil_inv. intros nm [Hin Hp]%elem_of_filter_prefix.
    apply elem_of_names_in in Hin as [v Hv].
    rewrite (teardown_objs_no_faults w w1 _ Hf Hrun1) in Hv.
    assert (teardown_target namespace ingress_name (e.2, namespace, nm)
            = true) as Ht by (apply teardown_target_spec; eauto).
    by rewrite Ht in Hv. }
  split.
  - rewrite Ho. apply map_eq. intros k.
    apply (lookup_foldl_delete_all_ne namespace
             (fun e => (kind_round w1 namespace ingress_name e).2)).
    intros e nm He Hnm. rewrite (Hround e He) in Hnm.
    by apply elem_of_nil in Hnm.
  - rewrite Hc. do 2 f_equal.
    rewrite flat_map_concat_map.
    rewrite (map_ext_in _ (fun e => [ListObj e.2 namespace])).
    + rewrite <- flat_map_concat_map. clear. by induction PLURAL_MAP.
    + intros e He%list_elem_of_In. by rewrite (Hround e He).
Qed.

End TeardownAndNaming.

(** The create loop only writes at the addresses of its documents. *)
Lemma create_or_update_crds_frame docs w k :
  (forall d, d ∈ docs -> resource_key d <> Some k) ->
  objs (create_or_update_crds docs w).2 !! k = objs w !! k.
Proof.
  unfold create_or_update_crds. revert w.
  induction docs as [|d docs IH]; intros w Hk; [done|].
  cbn [for_each]. unfold mbind, M_bind.
  assert (objs (create_or_update_crd d w).2 !! k = objs w !! k) as H1.
  { destruct (resource_key d) as [k0|] eqn:Hd.
    - apply (create_or_update_crd_frame d k0); [done|].
      intros ->. by apply (Hk d); [left|].
    - by rewrite (create_or_update_crd_no_key _ _ Hd). }
  destruct (create_or_update_crd d w) as [[[]|e] w1]; simpl in *; [|done].
  rewrite IH; [done|]. intros d' Hd'. apply Hk. by right.
Qed.

Section RoundTrip.

Variable repr_container : yaml -> string.
Variables namespace ingress_name : string.
Variable alb_dns : yaml.

(** The address of a materialized resource is one the teardown of the
    same endpoint looks for. *)
Lemma materialized_is_target docs out o :
  patch_docs repr_container namespace ingress_name alb_dns docs = Ok out ->
  o ∈ out ->
  exists k, resource_key o = Some k /\
            teardown_target namespace ingress_name k = true.
Proof.
  intros H Ho. apply patch_docs_filter in H.
  destruct (proj1 (list_elem_of_lookup _ _) Ho) as [i Hi].
  destruct (Forall2_lookup_r _ _ _ _ _ H Hi) as (doc & _ & Hd).
  destruct (patch_doc_shape _ _ _ _ _ _ Hd) as (Hk & Hkind & Hnm & Hns).
  unfold resource_key. rewrite Hkind, Hnm, Hns.
  unfold kind_test in Hk.
  destruct (dict_get doc "kind" YNull) as [[| | |kind| |]|]; try done.
  injection Hk as Hk. apply bool_decide_eq_true in Hk as [p Hp].
  change (assoc_get kind PLURAL_MAP = Some p) in Hp.
  rewrite Hp. eexists. split; [done|].
  apply teardown_target_spec. split; [|split; [done|]].
  - apply assoc_get_snd, list_elem_of_fmap in Hp as (e & -> & He). eauto.
  - apply prefix_of_materialized.
Qed.

(** Creating the materialized resources of an endpoint and then tearing
    the endpoint down, with no failure on the way, removes every one of
    them and gives back the initial store without the resources carrying
    the endpoint's prefix: the teardown finds what was created from the
    names alone. *)
Theorem create_then_teardown_round_trip docs w :
  no_faults w ->
  load_and_patch_template repr_container namespace ingress_name alb_dns w
    = (Ok docs, w) ->
  exists w1 w2,
    create_or_update_crds docs w = (Ok tt, w1) /\
    remove_crds_and_patch namespace ingress_name w1 = (Ok tt, w2) /\
    (forall d, d ∈ docs ->
       exists k, resource_key d = Some k /\
                 is_Some (objs w1 !! k) /\ objs w2 !! k = None) /\
    (forall k,
       objs w2 !! k
       = if teardown_target namespace ingress_name k then None
         else objs w !! k).
Proof.
  intros Hf Hload.
  apply load_and_patch_template_ok in Hload as (_ & tpl & _ & Hp).
  pose proof (patch_docs_keyed _ _ _ _ _ _ Hp) as Hkeyed.
  assert (Forall (fun d => is_Some (resource_key d)) docs) as Hkeys.
  { eapply Forall_impl; [exact Hkeyed|]. intros d (p & nm & ->). eauto. }
  destruct (create_or_update_crds_no_faults docs w Hkeys Hf)
    as (w1 & H1 & Hf1 & _ & Hall).
  assert (no_faults w1) as Hnf1 by (intros c; rewrite Hf1; apply Hf).
  destruct (remove_crds_and_patch_run namespace ingress_name w1)
    as (w2 & H2 & _).
  exists w1, w2. split; [done|]. split; [done|]. split.
  - intros d Hd.
    destruct (materialized_is_target _ _ _ Hp Hd) as (k & Hk & Ht).
    exists k. split; [done|]. split; [by eapply Hall|].
    by rewrite (teardown_objs_no_faults _ _ w1 w2 k Hnf1 H2), Ht.
  - intros k. rewrite (teardown_objs_no_faults _ _ w1 w2 k Hnf1 H2).
    destruct (teardown_target namespace ingress_name k) eqn:Ht; [done|].
    replace w1 with (create_or_update_crds docs w).2 by by rewrite H1.
    apply create_or_update_crds_frame. intros d Hd Hk.
    destruct (materialized_is_target _ _ _ Hp Hd) as (k' & Hk' & Ht').
    congruence.
Qed.

End RoundTrip.

(** The prefix test does not stop at the end of the endpoint's name: the
    teardown of endpoint [ingress_name] also removes the resources
    materialized for any endpoint of the same namespace whose name is
    [ingress_name] followed by "-" and more. *)
Theorem teardown_prefix_crosses_endpoints
    (repr_container : yaml -> string)
    (namespace ingress_name rest plural : string) (doc v : yaml) w :
  no_faults w ->
  plural ∈ PLURAL_MAP.*2 ->
  objs w !! (plural, namespace,
             materialized_name repr_container namespace
               (ingress_name +:+ "-" +:+ rest) doc) = Some v ->
  teardown_target namespace ingress_name
    (plural, namespace,
     materialized_name repr_container namespace
       (ingress_name +:+ "-" +:+ rest) doc) = true /\
  exists w',
    remove_crds_and_patch namespace ingress_name w = (Ok tt, w') /\
    objs w' !! (plural, namespace,
                materialized_name repr_container namespace
                  (ingress_name +:+ "-" +:+ rest) doc) = None.
Proof.
  intros Hf Hp Hv.
  assert (teardown_target namespace ingress_name
            (plural, namespace,
             materialized_name repr_container namespace
               (ingress_name +:+ "-" +:+ rest) doc) = true) as Ht.
  { apply teardown_target_spec. split; [|split; [done|]].
    - apply list_elem_of_fmap in Hp as (e & -> & He). eauto.
    - unfold materialized_name.
      rewrite !string_app_assoc. apply prefix_of_materialized. }
  split; [done|].
  destruct (remove_crds_and_patch_run namespace ingress_name w)
    as (w' & Hrun & _).
  exists w'. split; [done|].
  by rewrite (teardown_objs_no_faults _ _ w w' _ Hf Hrun), Ht.
Qed.

(** ** The further properties on the sample inputs *)

Lemma materialized_resource_address_witness :
  load_and_patch_template sample_repr "ns" "app" (YStr "alb.example.com")
    sample_world = (Ok sample_docs, sample_world) /\
  exists docs, template_file sample_world = Some docs /\
    Forall2
      (fun doc o =>
         dict_get o "kind" YNull = dict_get doc "kind" YNull /\
         get_path [Key "metadata"; Key "namespace"] o = Ok (YStr "ns") /\
         exists plural,
           resource_key o
           = Some (plural, "ns", materialized_name sample_repr "ns" "app" doc))
      (List.filter registered docs) sample_docs.
Proof.
  split; [reflexivity|].
  exact (materialized_resource_address sample_repr "ns" "app"
           (YStr "alb.example.com") sample_world sample_docs sample_world
           eq_refl).
Defined.

Lemma distribution_comment_spec_witness :
  load_and_patch_template sample_repr "ns" "app" (YStr "alb.example.com")
    sample_world = (Ok sample_docs, sample_world) /\
  hd YNull sample_docs ∈ sample_docs /\
  dict_get (hd YNull sample_docs) "kind" YNull = Ok (YStr "Distribution") /\
  get_path (DISTRIBUTION_CONFIG ++ [Key "comment"]) (hd YNull sample_docs)
  = Ok (YStr "CloudFront for ALB ns-app").
Proof.
  split; [reflexivity|]. split; [apply list_elem_of_here|].
  split; [reflexivity|].
  exact (distribution_comment_spec sample_repr "ns" "app"
           (YStr "alb.example.com") sample_world sample_docs sample_world
           eq_refl (hd YNull sample_docs) (list_elem_of_here _ _) eq_refl).
Defined.

Lemma materializer_fails_as_a_whole_witness :
  template_file broken_template_world
  = Some ([sample_resource "Function" "viewer-request"]
          ++ broken_distribution :: [sample_resource "KeyGroup" "keys"]) /\
  Forall (fun d => exists r,
            patch_doc sample_repr "ns" "app" (YStr "alb.example.com") d
            = Ok r)
         [sample_resource "Function" "viewer-request"] /\
  patch_doc sample_repr "ns" "app" (YStr "alb.example.com")
    broken_distribution = Raise KeyError /\
  load_and_patch_template sample_repr "ns" "app" (YStr "alb.example.com")
    broken_template_world = (Raise KeyError, broken_template_world).
Proof.
  assert (Forall (fun d => exists r,
            patch_doc sample_repr "ns" "app" (YStr "alb.example.com") d
            = Ok r)
         [sample_resource "Function" "viewer-request"]) as Hpre.
  { repeat constructor. eexists. reflexivity. }
  split; [reflexivity|]. split; [exact Hpre|]. split; [reflexivity|].
  exact (materializer_fails_as_a_whole sample_repr "ns" "app"
           (YStr "alb.example.com")
           [sample_resource "Function" "viewer-request"]
           broken_distribution [sample_resource "KeyGroup" "keys"]
           KeyError broken_template_world eq_refl Hpre eq_refl).
Defined.

Lemma teardown_survives_patch_failure_witness :
  faults patch_fault_world (PatchIngress "app" "ns" None)
  = Some (ApiException 403) /\
  exists w',
    remove_crds_and_patch "ns" "app" patch_fault_world = (Ok tt, w') /\
    objs w' =
      objs (for_each PLURAL_MAP (remove_kind "ns" "app")
              patch_fault_world).2 /\
    ingresses w' = ingresses patch_fault_world /\
    exists ls,
      log w' = log patch_fault_world ++ ls
               ++ [(ERROR, FailedToRemoveAnnotation (ApiException 403))].
Proof.
  split; [reflexivity|].
  exact (teardown_survives_patch_failure "ns" "app" patch_fault_world
           (ApiException 403) eq_refl).
Defined.

Lemma set_then_clear_target_witness :
  no_faults teardown_world /\
  ingresses teardown_world !! ("ns", "app")
  = Some {| ing_annotations := {[ TARGET_KEY := "d1.cloudfront.net" ]};
            ing_lb := Some [Some "alb.example.com"] |} /\
  exists w1 w2,
    patch_ingress "ns" "app" "d2.cloudfront.net" teardown_world
      = (Ok tt, w1) /\
    ingresses w1 !! ("ns", "app")
      = Some (set_target "d2.cloudfront.net"
                {| ing_annotations := {[ TARGET_KEY := "d1.cloudfront.net" ]};
                   ing_lb := Some [Some "alb.example.com"] |}) /\
    remove_crds_and_patch "ns" "app" w1 = (Ok tt, w2) /\
    ingresses w2 !! ("ns", "app")
      = Some (clear_target
                {| ing_annotations := {[ TARGET_KEY := "d1.cloudfront.net" ]};
                   ing_lb := Some [Some "alb.example.com"] |}).
Proof.
  split; [intros c; reflexivity|]. split; [reflexivity|].
  exact (set_then_clear_target "ns" "app" "d2.cloudfront.net" teardown_world
           _ (fun c => eq_refl) eq_refl).
Defined.

Lemma enabled_tick_is_read_only_witness :
  cf_enabled (default ∅ (meta_annotations enabled_meta)) = true /\
  exists w',
    reconcile_ingress sample_repr enabled_meta "ns" "app" sample_world
      = (Ok tt, w') /\
    calls w' = calls sample_world ++ [ReadIngress "app" "ns"] /\
    objs w' = objs sample_world /\
    ingresses w' = ingresses sample_world /\
    template_file w' = template_file sample_world.
Proof.
  split; [reflexivity|].
  exact (enabled_tick_is_read_only sample_repr enabled_meta "ns" "app"
           sample_world eq_refl).
Defined.

Lemma template_failure_is_logged_witness :
  cf_enabled (default ∅ (meta_annotations enabled_meta)) = true /\
  faults missing_template_world (ReadIngress "app" "ns") = None /\
  first_hostname {| ing_annotations := {[ ENABLED_KEY := "True" ]};
                    ing_lb := Some [Some "alb.example.com"] |}
  = Ok (YStr "alb.example.com") /\
  (load_and_patch_template sample_repr "ns" "app" (YStr "alb.example.com")
     missing_template_world).1 = Raise OSError /\
  reconcile_ingress sample_repr enabled_meta "ns" "app"
    missing_template_world =
  (Ok tt,
   after missing_template_world (objs missing_template_world)
     [ReadIngress "app" "ns"]
     (tick_heading enabled_meta "ns" "app" ++
      [(INFO, RetrievedHostname (YStr "alb.example.com"));
       (ERROR, FailedToRetrieveHostname "app" OSError)])).
Proof.
  split; [reflexivity|]. split; [reflexivity|]. split; [reflexivity|].
  split; [reflexivity|].
  exact (template_failure_is_logged sample_repr enabled_meta "ns" "app"
           missing_template_world _ (YStr "alb.example.com") OSError
           eq_refl eq_refl eq_refl eq_refl eq_refl).
Defined.


Lemma create_never_overwrites_witness :
  resource_key
    (YMap [("kind", YStr "Distribution");
           ("metadata", YMap [("name", YStr "ns-app-a");
                              ("namespace", YStr "ns")]);
           ("spec", YStr "changed")])
  = Some ("distributions", "ns", "ns-app-a") /\
  objs teardown_world !! ("distributions", "ns", "ns-app-a")
  = Some (sample_resource "Distribution" "ns-app-a") /\
  objs (create_or_update_crds
          [YMap [("kind", YStr "Distribution");
                 ("metadata", YMap [("name", YStr "ns-app-a");
                                    ("namespace", YStr "ns")]);
                 ("spec", YStr "changed")]] teardown_world).2
    !! ("distributions", "ns", "ns-app-a")
  = Some (sample_resource "Distribution" "ns-app-a").
Proof.
  split; [reflexivity|]. split; [reflexivity|].
  exact (create_never_overwrites
           [YMap [("kind", YStr "Distribution");
                  ("metadata", YMap [("name", YStr "ns-app-a");
                                     ("namespace", YStr "ns")]);
                  ("spec", YStr "changed")]]
           teardown_world ("distributions", "ns", "ns-app-a")
           (sample_resource "Distribution" "ns-app-a") eq_refl).
Defined.

Lemma create_only_after_not_found_witness :
  resource_key (hd YNull sample_docs)
  = Some ("distributions", "ns", "ns-app-distribution") /\
  (CreateObj "distributions" "ns" (hd YNull sample_docs)
   ∈ new_calls (create_or_update_crd (hd YNull sample_docs)) sample_world <->
   faults sample_world (GetObj "distributions" "ns" "ns-app-distribution")
   = Some (ApiException 404) \/
   (faults sample_world (GetObj "distributions" "ns" "ns-app-distribution")
    = None /\
    objs sample_world !! ("distributions", "ns", "ns-app-distribution")
    = None)).
Proof.
  split; [reflexivity|].
  exact (create_only_after_not_found (hd YNull sample_docs)
           "distributions" "ns" "ns-app-distribution" sample_world eq_refl).
Defined.

Lemma non_api_error_aborts_create_loop_witness :
  resource_key (hd YNull sample_docs)
  = Some ("distributions", "ns", "ns-app-distribution") /\
  is_api_exception OtherError = false /\
  faults unreachable_store_world
    (GetObj "distributions" "ns" "ns-app-distribution") = Some OtherError /\
  create_or_update_crds (hd YNull sample_docs :: tl sample_docs)
    unreachable_store_world
  = (Raise OtherError,
     after unreachable_store_world (objs unreachable_store_world)
       [GetObj "distributions" "ns" "ns-app-distribution"] []).
Proof.
  split; [reflexivity|]. split; [reflexivity|]. split; [reflexivity|].
  exact (proj1 (non_api_error_aborts_create_loop (hd YNull sample_docs)
                  (tl sample_docs) "distributions" "ns"
                  "ns-app-distribution" OtherError unreachable_store_world
                  eq_refl eq_refl) eq_refl).
Defined.

Lemma create_requires_metadata_witness :
  dict_get (YMap [("kind", YStr "Unknown")]) "kind" YNull
  = Ok (YStr "Unknown") /\
  plural_map_get (YStr "Unknown") = Ok None /\
  get_path [Key "metadata"; Key "name"] (YMap [("kind", YStr "Unknown")])
  = Raise KeyError /\
  create_or_update_crd (YMap [("kind", YStr "Unknown")]) sample_world
  = (Raise KeyError, sample_world).
Proof.
  split; [reflexivity|]. split; [reflexivity|]. split; [reflexivity|].
  exact (create_requires_metadata (YMap [("kind", YStr "Unknown")])
           (YStr "Unknown") None KeyError sample_world
           eq_refl eq_refl (or_introl eq_refl)).
Defined.

Lemma created_resource_reads_back_witness :
  resource_key (hd YNull sample_docs)
  = Some ("distributions", "ns", "ns-app-distribution") /\
  objs sample_world !! ("distributions", "ns", "ns-app-distribution")
  = None /\
  exists w',
    create_or_update_crd (hd YNull sample_docs) sample_world = (Ok tt, w') /\
    get_namespaced_custom_object (YStr "ns") "distributions"
      (YStr "ns-app-distribution") w'
    = (Ok (hd YNull sample_docs),
       add_call (GetObj "distributions" "ns" "ns-app-distribution") w').
Proof.
  split; [reflexivity|]. split; [reflexivity|].
  exact (created_resource_reads_back (hd YNull sample_docs) "distributions"
           "ns" "ns-app-distribution" sample_world
           eq_refl eq_refl eq_refl eq_refl).
Defined.

Lemma teardown_twice_deletes_nothing_witness :
  no_faults teardown_world /\
  exists w1 w2,
    remove_crds_and_patch "ns" "app" teardown_world = (Ok tt, w1) /\
    remove_crds_and_patch "ns" "app" w1 = (Ok tt, w2) /\
    objs w2 = objs w1 /\
    calls w2 =
      calls w1
      ++ ((fun e : string * string => ListObj e.2 "ns") <$> PLURAL_MAP)
      ++ [PatchIngress "app" "ns" None].
Proof.
  split; [intros c; reflexivity|].
  exact (teardown_twice_deletes_nothing "ns" "app" teardown_world
           (fun c => eq_refl)).
Defined.

Lemma create_then_teardown_round_trip_witness :
  no_faults sample_world /\
  load_and_patch_template sample_repr "ns" "app" (YStr "alb.example.com")
    sample_world = (Ok sample_docs, sample_world) /\
  exists w1 w2,
    create_or_update_crds sample_docs sample_world = (Ok tt, w1) /\
    remove_crds_and_patch "ns" "app" w1 = (Ok tt, w2) /\
    (forall d, d ∈ sample_docs ->
       exists k, resource_key d = Some k /\
                 is_Some (objs w1 !! k) /\ objs w2 !! k = None) /\
    (forall k,
       objs w2 !! k
       = if teardown_target "ns" "app" k then None
         else objs sample_world !! k).
Proof.
  split; [intros c; reflexivity|]. split; [reflexivity|].
  exact (create_then_teardown_round_trip sample_repr "ns" "app"
           (YStr "alb.example.com") sample_docs sample_world
           (fun c => eq_refl) eq_refl).
Defined.

Lemma functions_registered : "functions" ∈ PLURAL_MAP.*2.
Proof. right. left. Defined.

Lemma teardown_prefix_crosses_endpoints_witness :
  no_faults neighbour_world /\
  "functions" ∈ PLURAL_MAP.*2 /\
  materialized_name sample_repr "ns" ("app" +:+ "-" +:+ "v2")
    (sample_resource "Function" "viewer-request")
  = "ns-app-v2-viewer-request" /\
  exists w',
    remove_crds_and_patch "ns" "app" neighbour_world = (Ok tt, w') /\
    objs w' !! ("functions", "ns",
                materialized_name sample_repr "ns" ("app" +:+ "-" +:+ "v2")
                  (sample_resource "Function" "viewer-request")) = None.
Proof.
  split; [intros c; reflexivity|]. split; [exact functions_registered|].
  split; [reflexivity|].
  exact (proj2 (teardown_prefix_crosses_endpoints sample_repr "ns" "app" "v2"
                  "functions" (sample_resource "Function" "viewer-request")
                  (sample_resource "Function" "ns-app-v2-viewer-request")
                  neighbour_world (fun c => eq_refl) functions_registered
                  eq_refl)).
Defined.

Lemma load_and_patch_template_returns_witness :
  template_file sample_world = Some sample_template /\
  Forall template_doc_ok sample_template /\
  exists out,
    load_and_patch_template sample_repr "ns" "app" (YStr "alb.example.com")
      sample_world = (Ok out, sample_world).
Proof.
  split; [reflexivity|]. split; [exact sample_template_ok|].
  exact (load_and_patch_template_returns sample_repr "ns" "app"
           (YStr "alb.example.com") sample_template sample_world
           eq_refl sample_template_ok).
Defined.
